(** * The event reconciliation core of the aviation multi-agent console

    A shallow embedding of [frontend/types/aviation.ts] (payload helpers,
    event kinds), [frontend/store/aviation-store.ts] (the store and its
    reducer) and of the message handler of [frontend/hooks/use-sse.ts].

    Conventions of the embedding:
    - a JS [number] that counts or measures is an integer ([Z]), and
      arithmetic on the small counters of the store is exact; where the
      code multiplies, adds and divides numbers of any size (the average
      latency, the weighted score, the progress of a run) the results are
      rounded as IEEE 754 doubles are, by [double];
    - a [Record<string, T>] is a plain object: its own entries are a
      [gmap string T], and a lookup that finds no own entry goes on to the
      prototype of the object, as [agentsAt] and [dataSourcesAt] do;
    - an exception thrown inside an updater of [set] leaves the store as
      it was before that [set];
    - an optional field [f?: T] is an [option T];
    - the store is passed explicitly: every action is a function
      [Store.t -> Store.t], with [set] written as record updates;
    - the wall clock ([Date.now()], [new Date()]) is an argument [now]. *)

From Stdlib Require Import ZArith QArith Qround Lqa Ascii String.
From stdpp Require Import base gmap list strings pretty.

Set Warnings "-register-all".
#[local] Open Scope string_scope.
#[local] Open Scope list_scope.
#[local] Open Scope Z_scope.

(** ** JavaScript values and operators *)

(** The value of [JSON.parse] on a payload. *)
Inductive JValue : Type :=
| JNull
| JBool (b : bool)
| JNum (n : Z)
| JStr (s : string)
| JArr (l : list JValue)
| JObj (m : gmap string JValue).

(** A string is truthy unless it is empty. *)
Definition truthy (s : string) : bool := negb (String.eqb s "").

(** [a || b] on strings. *)
Definition str_or (a b : string) : string := if truthy a then a else b.
Infix "|?" := str_or (at level 65, right associativity).

(** [o || b] where [o] may be [undefined]. *)
Definition opt_or (o : option string) (b : string) : string :=
  match o with Some a => a |? b | None => b end.

(** [o ?? d]. *)
Definition nullish {A : Type} (o : option A) (d : A) : A :=
  match o with Some a => a | None => d end.

(** [s.includes(sub)]. *)
Fixpoint includes (s sub : string) : bool :=
  if String.prefix sub s then true
  else match s with
       | EmptyString => false
       | String _ s' => includes s' sub
       end.

(** [l.slice(-n)]: the last [n] elements. *)
Definition slice_last {A : Type} (n : nat) (l : list A) : list A :=
  drop (length l - n)%nat l.

(** [Array.from(new Set(l))]: duplicates removed, first occurrences kept. *)
Fixpoint set_from (seen l : list string) : list string :=
  match l with
  | [] => []
  | x :: r =>
      if bool_decide (x ∈ seen) then set_from seen r
      else x :: set_from (x :: seen) r
  end.
Definition Array_from_Set (l : list string) : list string := set_from [] l.

(** [l.findIndex(p)], [None] for -1. *)
Fixpoint findIndex {A : Type} (p : A -> bool) (l : list A) : option nat :=
  match l with
  | [] => None
  | x :: r => if p x then Some O else S <$> findIndex p r
  end.

(** The downward loop of the tool-completion case: the greatest index
    whose element satisfies [p]. *)
Fixpoint findLastIndex {A : Type} (p : A -> bool) (l : list A) : option nat :=
  match l with
  | [] => None
  | x :: r =>
      match findLastIndex p r with
      | Some i => Some (S i)
      | None => if p x then Some O else None
      end
  end.

(** [Math.round] of a rational: the nearest integer, halves upwards. *)
Definition Math_round (q : Q) : Z := Qfloor (q + (1 # 2))%Q.

(** *** Doubles

    [double q] is the IEEE 754 binary64 value nearest to the rational
    [q]: 53 significant bits, a tie to the even significand, gradual
    underflow below [2^-1022]. The result of [+], [*] or [/] on two
    numbers is [double] of the exact result. Overflow is not represented:
    [double q] is the number the code computes while the magnitude of [q]
    is below [2^1024]. *)

(** [floor (log2 (n / d))], for positive [n] and [d]. *)
Definition exponentOf (n d : Z) : Z :=
  let k := Z.log2 n - Z.log2 d in
  if (if 0 <=? k then d * 2 ^ k <=? n else d <=? n * 2 ^ (- k)) then k else k - 1.

(** [n / d] to the nearest integer, a tie to the even one, for [0 < d]. *)
Definition nearestEven (n d : Z) : Z :=
  let q := n / d in
  let r := n mod d in
  if 2 * r <? d then q
  else if d <? 2 * r then q + 1
  else if Z.even q then q else q + 1.

Definition double (q : Q) : Q :=
  let n := Z.abs (Qnum q) in
  let d := Z.pos (Qden q) in
  if n =? 0 then 0%Q
  else
    let e := Z.max (exponentOf n d - 52) (-1074) in
    let s := Z.sgn (Qnum q) in
    if 0 <=? e then inject_Z (s * nearestEven n (d * 2 ^ e) * 2 ^ e)
    else Qmake (s * nearestEven (n * 2 ^ (- e)) d) (Z.to_pos (2 ^ (- e))).

(** [a + b] and [a * b] on integers: the nearest double is an integer
    again. [a / b], for [b] other than 0. *)
Definition js_add (a b : Z) : Z := Qfloor (double (inject_Z (a + b))).
Definition js_mul (a b : Z) : Z := Qfloor (double (inject_Z (a * b))).
Definition js_div (a b : Z) : Q := double (inject_Z a / inject_Z b).

(** The unit roundoff [2^-53], and numbers that are zero or at least a
    threshold [t], the ones rounding treats with that relative error. *)
Definition roundoff : Q := 1 # 9007199254740992.
Definition sized (t q : Q) : Prop := (q == 0 \/ t <= q)%Q.

(** *** Plain objects used as maps

    [agents] and [dataSources] are object literals. [obj[key]] returns
    the own entry under [key] if there is one, and otherwise what the
    object inherits under that name: from [Object.prototype] a function
    under each of the names below, and under [__proto__] the prototype
    itself. All of these are truthy and have none of the fields the store
    reads. *)
Definition Object_prototype : list string :=
  [ "constructor"; "__defineGetter__"; "__defineSetter__"; "hasOwnProperty";
    "__lookupGetter__"; "__lookupSetter__"; "isPrototypeOf";
    "propertyIsEnumerable"; "toString"; "valueOf"; "__proto__"; "toLocaleString" ].

Definition inherited (key : string) : bool := bool_decide (key ∈ Object_prototype).

(** What [obj[key]] is: an entry of the declared type, a truthy value
    that is none, or a falsy value ([undefined], [0], [""], [false]). *)
Inductive Entry (A S : Type) : Type :=
| Node (a : A)
| Stray (s : S)
| Absent.
Arguments Node {A S} a.
Arguments Stray {A S} s.
Arguments Absent {A S}.

Definition nodeOf {A S : Type} (entry : Entry A S) : option A :=
  match entry with Node a => Some a | _ => None end.

Definition isStray {A S : Type} (entry : Entry A S) : bool :=
  match entry with Stray _ => true | _ => false end.

(** ** Payload helpers ([types/aviation.ts]) *)

(** A default parameter also applies when the caller passes [undefined],
    so a fallback read from an optional field is given with [nullish]. *)
Definition payloadString (payload : gmap string JValue) (key : string)
    (fallback : string) : string :=
  match payload !! key with
  | Some (JStr s) => s
  | _ => fallback
  end.

Definition payloadNumber (payload : gmap string JValue) (key : string)
    (fallback : Z) : Z :=
  match payload !! key with
  | Some (JNum n) => n
  | _ => fallback
  end.

Definition payloadArray (payload : gmap string JValue) (key : string)
    : list JValue :=
  match payload !! key with
  | Some (JArr l) => l
  | _ => []
  end.

(** ** Event kinds *)

Inductive EventKind : Type :=
| RUN_STARTED | RUN_COMPLETED | RUN_FAILED
| STAGE_STARTED | STAGE_COMPLETED | STAGE_FAILED
| SPAN_STARTED | SPAN_ENDED
| AGENT_ACTIVATED | AGENT_EXCLUDED | AGENT_EVIDENCE | AGENT_RECOMMENDATION
| AGENT_STREAMING | AGENT_OBJECTIVE | AGENT_PROGRESS
| DATA_SOURCE_QUERY_START | DATA_SOURCE_QUERY_COMPLETE
| EXECUTOR_INVOKED | EXECUTOR_COMPLETED
| AGENT_COMPLETED | AGENT_COMPLETED_LEGACY
| TOOL_CALLED | TOOL_COMPLETED | TOOL_FAILED
| TOOL_CALLED_LEGACY | TOOL_COMPLETED_LEGACY | TOOL_FAILED_LEGACY
| COORDINATOR_SCORING | COORDINATOR_PLAN | RECOVERY_OPTION
| HANDOVER | ORCHESTRATOR_PLAN | ORCHESTRATOR_DECISION
| HEARTBEAT | PROGRESS_UPDATE | WORKFLOW_STATUS.

#[global] Instance EventKind_eq_dec : EqDecision EventKind.
Proof. solve_decision. Defined.

(** The [EventKinds] object: each constant with its string. *)
Definition EventKinds : list (EventKind * string) :=
  [ (RUN_STARTED, "run_started"); (RUN_COMPLETED, "run_completed");
    (RUN_FAILED, "run_failed"); (STAGE_STARTED, "stage_started");
    (STAGE_COMPLETED, "stage_completed"); (STAGE_FAILED, "stage_failed");
    (SPAN_STARTED, "span.started"); (SPAN_ENDED, "span.ended");
    (AGENT_ACTIVATED, "agent.activated"); (AGENT_EXCLUDED, "agent.excluded");
    (AGENT_EVIDENCE, "agent.evidence");
    (AGENT_RECOMMENDATION, "agent.recommendation");
    (AGENT_STREAMING, "agent.streaming"); (AGENT_OBJECTIVE, "agent.objective");
    (AGENT_PROGRESS, "agent.progress");
    (DATA_SOURCE_QUERY_START, "data_source.query_start");
    (DATA_SOURCE_QUERY_COMPLETE, "data_source.query_complete");
    (EXECUTOR_INVOKED, "executor.invoked");
    (EXECUTOR_COMPLETED, "executor.completed");
    (AGENT_COMPLETED, "agent.completed");
    (AGENT_COMPLETED_LEGACY, "agent_completed");
    (TOOL_CALLED, "tool.called"); (TOOL_COMPLETED, "tool.completed");
    (TOOL_FAILED, "tool.failed"); (TOOL_CALLED_LEGACY, "tool_called");
    (TOOL_COMPLETED_LEGACY, "tool_completed");
    (TOOL_FAILED_LEGACY, "tool_failed");
    (COORDINATOR_SCORING, "coordinator.scoring");
    (COORDINATOR_PLAN, "coordinator.plan");
    (RECOVERY_OPTION, "recovery.option"); (HANDOVER, "handover");
    (ORCHESTRATOR_PLAN, "orchestrator.plan");
    (ORCHESTRATOR_DECISION, "orchestrator.decision");
    (HEARTBEAT, "heartbeat"); (PROGRESS_UPDATE, "progress_update");
    (WORKFLOW_STATUS, "workflow.status") ].

(** The strings of the table, as [Object.values(EventKinds)]. *)
Definition kindNames : list string := EventKinds.*2.

(** The constant a kind string is equal to, as a [switch] over the
    constants finds it; [None] when the string is none of them. *)
Fixpoint lookupKind (table : list (EventKind * string)) (k : string)
    : option EventKind :=
  match table with
  | [] => None
  | (c, name) :: rest => if String.eqb k name then Some c else lookupKind rest k
  end.
Definition classify (k : string) : option EventKind := lookupKind EventKinds k.

(** [event.kind === EventKinds.C]. *)
Definition isKind (k : string) (c : EventKind) : bool :=
  match classify k with
  | Some c' => bool_decide (c' = c)
  | None => false
  end.

(** ** Data model ([types/aviation.ts]) *)

Inductive StageStatus := StagePending | StageRunning | StageSucceeded | StageFailed | StageSkipped.
Inductive RunStatus := RunPending | RunRunning | RunCompleted | RunFailed | RunCancelled.
Inductive Level := LInfo | LWarn | LError.
Inductive AgentStatus := Idle | Activated | Excluded | Thinking | Querying | Done | Error.
Inductive ToolStatus := ToolRunning | ToolDone | ToolError.
Inductive Category := Specialist | Coordinator | Placeholder.
Inductive Provider := Azure | Fabric | Unknown.
Inductive TimelineStatus := TlPending | TlInProgress | TlCompleted.
Inductive DrawerTab := TabActivity | TabTimeline | TabPlan | TabSources.

(** Record update, [{ ...r, f: v }]. *)
Class Setter {R T : Type} (proj : R -> T) := upd : (T -> T) -> R -> R.
Arguments upd {R T} proj {Setter} _ _.
Notation "r <| proj := v |>" := (upd proj (fun _ => v) r)
  (at level 1, left associativity, format "r  <| proj  :=  v |>").

(** [Stage] of types/aviation.ts. *)
Module Stage.
#[local] Set Primitive Projections.
Record t : Type := Mk {
  stage_id : string;
  stage_name : string;
  stage_order : Z;
  status : StageStatus;
  started_at : option string;
  completed_at : option string;
  duration_ms : option Z;
  progress_pct : Z;
  artifacts : list string;
  error_message : option string
}.
#[global] Instance set_status : Setter status :=
  fun f r => let 'Mk x0 x1 x2 x3 x4 x5 x6 x7 x8 x9 := r in Mk x0 x1 x2 (f x3) x4 x5 x6 x7 x8 x9.
#[global] Instance set_started_at : Setter started_at :=
  fun f r => let 'Mk x0 x1 x2 x3 x4 x5 x6 x7 x8 x9 := r in Mk x0 x1 x2 x3 (f x4) x5 x6 x7 x8 x9.
#[global] Instance set_completed_at : Setter completed_at :=
  fun f r => let 'Mk x0 x1 x2 x3 x4 x5 x6 x7 x8 x9 := r in Mk x0 x1 x2 x3 x4 (f x5) x6 x7 x8 x9.
#[global] Instance set_duration_ms : Setter duration_ms :=
  fun f r => let 'Mk x0 x1 x2 x3 x4 x5 x6 x7 x8 x9 := r in Mk x0 x1 x2 x3 x4 x5 (f x6) x7 x8 x9.
#[global] Instance set_error_message : Setter error_message :=
  fun f r => let 'Mk x0 x1 x2 x3 x4 x5 x6 x7 x8 x9 := r in Mk x0 x1 x2 x3 x4 x5 x6 x7 x8 (f x9).
End Stage.

(** [RunMetadata]; [progress_pct] is the quotient computed by [updateRunFromEvent], [None] when the division is by zero (NaN or Infinity in JS). *)
Module RunMetadata.
#[local] Set Primitive Projections.
Record t : Type := Mk {
  run_id : string;
  status : RunStatus;
  problem_description : string;
  created_at : string;
  started_at : option string;
  completed_at : option string;
  duration_ms : option Z;
  current_stage : option string;
  stages_completed : Z;
  total_stages : Z;
  progress_pct : option Q;
  stages : list Stage.t;
  error_message : option string;
  error_stage : option string;
  event_count : Z
}.
#[global] Instance set_status : Setter status :=
  fun f r => let 'Mk x0 x1 x2 x3 x4 x5 x6 x7 x8 x9 x10 x11 x12 x13 x14 := r in Mk x0 (f x1) x2 x3 x4 x5 x6 x7 x8 x9 x10 x11 x12 x13 x14.
#[global] Instance set_completed_at : Setter completed_at :=
  fun f r => let 'Mk x0 x1 x2 x3 x4 x5 x6 x7 x8 x9 x10 x11 x12 x13 x14 := r in Mk x0 x1 x2 x3 x4 (f x5) x6 x7 x8 x9 x10 x11 x12 x13 x14.
#[global] Instance set_current_stage : Setter current_stage :=
  fun f r => let 'Mk x0 x1 x2 x3 x4 x5 x6 x7 x8 x9 x10 x11 x12 x13 x14 := r in Mk x0 x1 x2 x3 x4 x5 x6 (f x7) x8 x9 x10 x11 x12 x13 x14.
#[global] Instance set_stages_completed : Setter stages_completed :=
  fun f r => let 'Mk x0 x1 x2 x3 x4 x5 x6 x7 x8 x9 x10 x11 x12 x13 x14 := r in Mk x0 x1 x2 x3 x4 x5 x6 x7 (f x8) x9 x10 x11 x12 x13 x14.
#[global] Instance set_progress_pct : Setter progress_pct :=
  fun f r => let 'Mk x0 x1 x2 x3 x4 x5 x6 x7 x8 x9 x10 x11 x12 x13 x14 := r in Mk x0 x1 x2 x3 x4 x5 x6 x7 x8 x9 (f x10) x11 x12 x13 x14.
#[global] Instance set_stages : Setter stages :=
  fun f r => let 'Mk x0 x1 x2 x3 x4 x5 x6 x7 x8 x9 x10 x11 x12 x13 x14 := r in Mk x0 x1 x2 x3 x4 x5 x6 x7 x8 x9 x10 (f x11) x12 x13 x14.
#[global] Instance set_error_message : Setter error_message :=
  fun f r => let 'Mk x0 x1 x2 x3 x4 x5 x6 x7 x8 x9 x10 x11 x12 x13 x14 := r in Mk x0 x1 x2 x3 x4 x5 x6 x7 x8 x9 x10 x11 (f x12) x13 x14.
#[global] Instance set_event_count : Setter event_count :=
  fun f r => let 'Mk x0 x1 x2 x3 x4 x5 x6 x7 x8 x9 x10 x11 x12 x13 x14 := r in Mk x0 x1 x2 x3 x4 x5 x6 x7 x8 x9 x10 x11 x12 x13 (f x14).
End RunMetadata.

(** [TraceActor]. *)
Module TraceActor.
#[local] Set Primitive Projections.
Record t : Type := Mk {
  kind : string;
  id : string;
  name : option string
}.
End TraceActor.

(** [WorkflowEvent]: the envelope. Optional strings that the code only reads through [||] chains are [option string]; [sequence] is [None] when omitted; a missing [payload] is the empty map ([event.payload || {}]). *)
Module WorkflowEvent.
#[local] Set Primitive Projections.
Record t : Type := Mk {
  event_id : string;
  run_id : string;
  stream_id : option string;
  ts : string;
  sequence : option Z;
  level : Level;
  kind : string;
  stage_id : option string;
  stage_name : option string;
  agent_name : option string;
  executor_name : option string;
  tool_name : option string;
  message : string;
  payload : gmap string JValue;
  actor : option TraceActor.t;
  trace_id : option string;
  span_id : option string;
  parent_span_id : option string;
  duration_ms : option Z
}.
#[global] Instance set_stream_id : Setter stream_id :=
  fun f r => let 'Mk x0 x1 x2 x3 x4 x5 x6 x7 x8 x9 x10 x11 x12 x13 x14 x15 x16 x17 x18 := r in Mk x0 x1 (f x2) x3 x4 x5 x6 x7 x8 x9 x10 x11 x12 x13 x14 x15 x16 x17 x18.
End WorkflowEvent.

(** [RunProgress]. *)
Module RunProgress.
#[local] Set Primitive Projections.
Record t : Type := Mk {
  status : RunStatus;
  overallPct : Z;
  agentsTotal : Z;
  agentsActivated : Z;
  agentsRunning : Z;
  agentsDone : Z;
  agentsErrored : Z;
  currentStep : string;
  lastEventKind : option string;
  lastUpdateAt : option string;
  lastHeartbeatAt : option string;
  eventRatePerMin : Z;
  isLive : bool;
  isStale : bool
}.
#[global] Instance set_status : Setter status :=
  fun f r => let 'Mk x0 x1 x2 x3 x4 x5 x6 x7 x8 x9 x10 x11 x12 x13 := r in Mk (f x0) x1 x2 x3 x4 x5 x6 x7 x8 x9 x10 x11 x12 x13.
#[global] Instance set_overallPct : Setter overallPct :=
  fun f r => let 'Mk x0 x1 x2 x3 x4 x5 x6 x7 x8 x9 x10 x11 x12 x13 := r in Mk x0 (f x1) x2 x3 x4 x5 x6 x7 x8 x9 x10 x11 x12 x13.
#[global] Instance set_agentsTotal : Setter agentsTotal :=
  fun f r => let 'Mk x0 x1 x2 x3 x4 x5 x6 x7 x8 x9 x10 x11 x12 x13 := r in Mk x0 x1 (f x2) x3 x4 x5 x6 x7 x8 x9 x10 x11 x12 x13.
#[global] Instance set_agentsActivated : Setter agentsActivated :=
  fun f r => let 'Mk x0 x1 x2 x3 x4 x5 x6 x7 x8 x9 x10 x11 x12 x13 := r in Mk x0 x1 x2 (f x3) x4 x5 x6 x7 x8 x9 x10 x11 x12 x13.
#[global] Instance set_agentsRunning : Setter agentsRunning :=
  fun f r => let 'Mk x0 x1 x2 x3 x4 x5 x6 x7 x8 x9 x10 x11 x12 x13 := r in Mk x0 x1 x2 x3 (f x4) x5 x6 x7 x8 x9 x10 x11 x12 x13.
#[global] Instance set_agentsDone : Setter agentsDone :=
  fun f r => let 'Mk x0 x1 x2 x3 x4 x5 x6 x7 x8 x9 x10 x11 x12 x13 := r in Mk x0 x1 x2 x3 x4 (f x5) x6 x7 x8 x9 x10 x11 x12 x13.
#[global] Instance set_agentsErrored : Setter agentsErrored :=
  fun f r => let 'Mk x0 x1 x2 x3 x4 x5 x6 x7 x8 x9 x10 x11 x12 x13 := r in Mk x0 x1 x2 x3 x4 x5 (f x6) x7 x8 x9 x10 x11 x12 x13.
#[global] Instance set_currentStep : Setter currentStep :=
  fun f r => let 'Mk x0 x1 x2 x3 x4 x5 x6 x7 x8 x9 x10 x11 x12 x13 := r in Mk x0 x1 x2 x3 x4 x5 x6 (f x7) x8 x9 x10 x11 x12 x13.
#[global] Instance set_lastEventKind : Setter lastEventKind :=
  fun f r => let 'Mk x0 x1 x2 x3 x4 x5 x6 x7 x8 x9 x10 x11 x12 x13 := r in Mk x0 x1 x2 x3 x4 x5 x6 x7 (f x8) x9 x10 x11 x12 x13.
#[global] Instance set_lastUpdateAt : Setter lastUpdateAt :=
  fun f r => let 'Mk x0 x1 x2 x3 x4 x5 x6 x7 x8 x9 x10 x11 x12 x13 := r in Mk x0 x1 x2 x3 x4 x5 x6 x7 x8 (f x9) x10 x11 x12 x13.
#[global] Instance set_lastHeartbeatAt : Setter lastHeartbeatAt :=
  fun f r => let 'Mk x0 x1 x2 x3 x4 x5 x6 x7 x8 x9 x10 x11 x12 x13 := r in Mk x0 x1 x2 x3 x4 x5 x6 x7 x8 x9 (f x10) x11 x12 x13.
#[global] Instance set_eventRatePerMin : Setter eventRatePerMin :=
  fun f r => let 'Mk x0 x1 x2 x3 x4 x5 x6 x7 x8 x9 x10 x11 x12 x13 := r in Mk x0 x1 x2 x3 x4 x5 x6 x7 x8 x9 x10 (f x11) x12 x13.
#[global] Instance set_isLive : Setter isLive :=
  fun f r => let 'Mk x0 x1 x2 x3 x4 x5 x6 x7 x8 x9 x10 x11 x12 x13 := r in Mk x0 x1 x2 x3 x4 x5 x6 x7 x8 x9 x10 x11 (f x12) x13.
#[global] Instance set_isStale : Setter isStale :=
  fun f r => let 'Mk x0 x1 x2 x3 x4 x5 x6 x7 x8 x9 x10 x11 x12 x13 := r in Mk x0 x1 x2 x3 x4 x5 x6 x7 x8 x9 x10 x11 x12 (f x13).
End RunProgress.

(** [AgentEvidence]. *)
Module AgentEvidence.
#[local] Set Primitive Projections.
Record t : Type := Mk {
  id : string;
  sourceType : string;
  summary : string;
  resultCount : Z;
  timestamp : string
}.
End AgentEvidence.

(** [AgentToolCall]. *)
Module AgentToolCall.
#[local] Set Primitive Projections.
Record t : Type := Mk {
  id : string;
  toolName : string;
  dataSource : string;
  status : ToolStatus;
  startedAt : option string;
  endedAt : option string;
  latencyMs : option Z;
  resultCount : option Z;
  error : option string
}.
#[global] Instance set_status : Setter status :=
  fun f r => let 'Mk x0 x1 x2 x3 x4 x5 x6 x7 x8 := r in Mk x0 x1 x2 (f x3) x4 x5 x6 x7 x8.
#[global] Instance set_endedAt : Setter endedAt :=
  fun f r => let 'Mk x0 x1 x2 x3 x4 x5 x6 x7 x8 := r in Mk x0 x1 x2 x3 x4 (f x5) x6 x7 x8.
#[global] Instance set_latencyMs : Setter latencyMs :=
  fun f r => let 'Mk x0 x1 x2 x3 x4 x5 x6 x7 x8 := r in Mk x0 x1 x2 x3 x4 x5 (f x6) x7 x8.
#[global] Instance set_resultCount : Setter resultCount :=
  fun f r => let 'Mk x0 x1 x2 x3 x4 x5 x6 x7 x8 := r in Mk x0 x1 x2 x3 x4 x5 x6 (f x7) x8.
#[global] Instance set_error : Setter error :=
  fun f r => let 'Mk x0 x1 x2 x3 x4 x5 x6 x7 x8 := r in Mk x0 x1 x2 x3 x4 x5 x6 x7 (f x8).
End AgentToolCall.

(** [AgentNode]. [dataSources] holds raw JSON values because the lazily created agent takes them from [payloadArray] without checking the elements. *)
Module AgentNode.
#[local] Set Primitive Projections.
Record t : Type := Mk {
  id : string;
  name : string;
  shortName : option string;
  icon : string;
  color : string;
  status : AgentStatus;
  dataSources : list JValue;
  included : bool;
  reason : string;
  category : Category;
  evidence : list AgentEvidence.t;
  toolCalls : list AgentToolCall.t;
  recommendation : option string;
  confidence : option Z;
  activeQuery : option string;
  currentObjective : option string;
  activeQuerySummary : option string;
  lastEvidencePreview : option string;
  spanStartedAt : option string;
  traceCount : option Z;
  lastTraceAt : option string;
  currentStep : option string;
  lastAction : option string;
  percentComplete : option Z;
  startedAt : option string;
  endedAt : option string;
  durationMs : option Z;
  completionReason : option string;
  executionCount : option Z
}.
#[global] Instance set_status : Setter status :=
  fun f r => let 'Mk x0 x1 x2 x3 x4 x5 x6 x7 x8 x9 x10 x11 x12 x13 x14 x15 x16 x17 x18 x19 x20 x21 x22 x23 x24 x25 x26 x27 x28 := r in Mk x0 x1 x2 x3 x4 (f x5) x6 x7 x8 x9 x10 x11 x12 x13 x14 x15 x16 x17 x18 x19 x20 x21 x22 x23 x24 x25 x26 x27 x28.
#[global] Instance set_evidence : Setter evidence :=
  fun f r => let 'Mk x0 x1 x2 x3 x4 x5 x6 x7 x8 x9 x10 x11 x12 x13 x14 x15 x16 x17 x18 x19 x20 x21 x22 x23 x24 x25 x26 x27 x28 := r in Mk x0 x1 x2 x3 x4 x5 x6 x7 x8 x9 (f x10) x11 x12 x13 x14 x15 x16 x17 x18 x19 x20 x21 x22 x23 x24 x25 x26 x27 x28.
#[global] Instance set_toolCalls : Setter toolCalls :=
  fun f r => let 'Mk x0 x1 x2 x3 x4 x5 x6 x7 x8 x9 x10 x11 x12 x13 x14 x15 x16 x17 x18 x19 x20 x21 x22 x23 x24 x25 x26 x27 x28 := r in Mk x0 x1 x2 x3 x4 x5 x6 x7 x8 x9 x10 (f x11) x12 x13 x14 x15 x16 x17 x18 x19 x20 x21 x22 x23 x24 x25 x26 x27 x28.
#[global] Instance set_recommendation : Setter recommendation :=
  fun f r => let 'Mk x0 x1 x2 x3 x4 x5 x6 x7 x8 x9 x10 x11 x12 x13 x14 x15 x16 x17 x18 x19 x20 x21 x22 x23 x24 x25 x26 x27 x28 := r in Mk x0 x1 x2 x3 x4 x5 x6 x7 x8 x9 x10 x11 (f x12) x13 x14 x15 x16 x17 x18 x19 x20 x21 x22 x23 x24 x25 x26 x27 x28.
#[global] Instance set_confidence : Setter confidence :=
  fun f r => let 'Mk x0 x1 x2 x3 x4 x5 x6 x7 x8 x9 x10 x11 x12 x13 x14 x15 x16 x17 x18 x19 x20 x21 x22 x23 x24 x25 x26 x27 x28 := r in Mk x0 x1 x2 x3 x4 x5 x6 x7 x8 x9 x10 x11 x12 (f x13) x14 x15 x16 x17 x18 x19 x20 x21 x22 x23 x24 x25 x26 x27 x28.
#[global] Instance set_activeQuery : Setter activeQuery :=
  fun f r => let 'Mk x0 x1 x2 x3 x4 x5 x6 x7 x8 x9 x10 x11 x12 x13 x14 x15 x16 x17 x18 x19 x20 x21 x22 x23 x24 x25 x26 x27 x28 := r in Mk x0 x1 x2 x3 x4 x5 x6 x7 x8 x9 x10 x11 x12 x13 (f x14) x15 x16 x17 x18 x19 x20 x21 x22 x23 x24 x25 x26 x27 x28.
#[global] Instance set_currentObjective : Setter currentObjective :=
  fun f r => let 'Mk x0 x1 x2 x3 x4 x5 x6 x7 x8 x9 x10 x11 x12 x13 x14 x15 x16 x17 x18 x19 x20 x21 x22 x23 x24 x25 x26 x27 x28 := r in Mk x0 x1 x2 x3 x4 x5 x6 x7 x8 x9 x10 x11 x12 x13 x14 (f x15) x16 x17 x18 x19 x20 x21 x22 x23 x24 x25 x26 x27 x28.
#[global] Instance set_activeQuerySummary : Setter activeQuerySummary :=
  fun f r => let 'Mk x0 x1 x2 x3 x4 x5 x6 x7 x8 x9 x10 x11 x12 x13 x14 x15 x16 x17 x18 x19 x20 x21 x22 x23 x24 x25 x26 x27 x28 := r in Mk x0 x1 x2 x3 x4 x5 x6 x7 x8 x9 x10 x11 x12 x13 x14 x15 (f x16) x17 x18 x19 x20 x21 x22 x23 x24 x25 x26 x27 x28.
#[global] Instance set_lastEvidencePreview : Setter lastEvidencePreview :=
  fun f r => let 'Mk x0 x1 x2 x3 x4 x5 x6 x7 x8 x9 x10 x11 x12 x13 x14 x15 x16 x17 x18 x19 x20 x21 x22 x23 x24 x25 x26 x27 x28 := r in Mk x0 x1 x2 x3 x4 x5 x6 x7 x8 x9 x10 x11 x12 x13 x14 x15 x16 (f x17) x18 x19 x20 x21 x22 x23 x24 x25 x26 x27 x28.
#[global] Instance set_spanStartedAt : Setter spanStartedAt :=
  fun f r => let 'Mk x0 x1 x2 x3 x4 x5 x6 x7 x8 x9 x10 x11 x12 x13 x14 x15 x16 x17 x18 x19 x20 x21 x22 x23 x24 x25 x26 x27 x28 := r in Mk x0 x1 x2 x3 x4 x5 x6 x7 x8 x9 x10 x11 x12 x13 x14 x15 x16 x17 (f x18) x19 x20 x21 x22 x23 x24 x25 x26 x27 x28.
#[global] Instance set_traceCount : Setter traceCount :=
  fun f r => let 'Mk x0 x1 x2 x3 x4 x5 x6 x7 x8 x9 x10 x11 x12 x13 x14 x15 x16 x17 x18 x19 x20 x21 x22 x23 x24 x25 x26 x27 x28 := r in Mk x0 x1 x2 x3 x4 x5 x6 x7 x8 x9 x10 x11 x12 x13 x14 x15 x16 x17 x18 (f x19) x20 x21 x22 x23 x24 x25 x26 x27 x28.
#[global] Instance set_lastTraceAt : Setter lastTraceAt :=
  fun f r => let 'Mk x0 x1 x2 x3 x4 x5 x6 x7 x8 x9 x10 x11 x12 x13 x14 x15 x16 x17 x18 x19 x20 x21 x22 x23 x24 x25 x26 x27 x28 := r in Mk x0 x1 x2 x3 x4 x5 x6 x7 x8 x9 x10 x11 x12 x13 x14 x15 x16 x17 x18 x19 (f x20) x21 x22 x23 x24 x25 x26 x27 x28.
#[global] Instance set_currentStep : Setter currentStep :=
  fun f r => let 'Mk x0 x1 x2 x3 x4 x5 x6 x7 x8 x9 x10 x11 x12 x13 x14 x15 x16 x17 x18 x19 x20 x21 x22 x23 x24 x25 x26 x27 x28 := r in Mk x0 x1 x2 x3 x4 x5 x6 x7 x8 x9 x10 x11 x12 x13 x14 x15 x16 x17 x18 x19 x20 (f x21) x22 x23 x24 x25 x26 x27 x28.
#[global] Instance set_lastAction : Setter lastAction :=
  fun f r => let 'Mk x0 x1 x2 x3 x4 x5 x6 x7 x8 x9 x10 x11 x12 x13 x14 x15 x16 x17 x18 x19 x20 x21 x22 x23 x24 x25 x26 x27 x28 := r in Mk x0 x1 x2 x3 x4 x5 x6 x7 x8 x9 x10 x11 x12 x13 x14 x15 x16 x17 x18 x19 x20 x21 (f x22) x23 x24 x25 x26 x27 x28.
#[global] Instance set_percentComplete : Setter percentComplete :=
  fun f r => let 'Mk x0 x1 x2 x3 x4 x5 x6 x7 x8 x9 x10 x11 x12 x13 x14 x15 x16 x17 x18 x19 x20 x21 x22 x23 x24 x25 x26 x27 x28 := r in Mk x0 x1 x2 x3 x4 x5 x6 x7 x8 x9 x10 x11 x12 x13 x14 x15 x16 x17 x18 x19 x20 x21 x22 (f x23) x24 x25 x26 x27 x28.
#[global] Instance set_startedAt : Setter startedAt :=
  fun f r => let 'Mk x0 x1 x2 x3 x4 x5 x6 x7 x8 x9 x10 x11 x12 x13 x14 x15 x16 x17 x18 x19 x20 x21 x22 x23 x24 x25 x26 x27 x28 := r in Mk x0 x1 x2 x3 x4 x5 x6 x7 x8 x9 x10 x11 x12 x13 x14 x15 x16 x17 x18 x19 x20 x21 x22 x23 (f x24) x25 x26 x27 x28.
#[global] Instance set_endedAt : Setter endedAt :=
  fun f r => let 'Mk x0 x1 x2 x3 x4 x5 x6 x7 x8 x9 x10 x11 x12 x13 x14 x15 x16 x17 x18 x19 x20 x21 x22 x23 x24 x25 x26 x27 x28 := r in Mk x0 x1 x2 x3 x4 x5 x6 x7 x8 x9 x10 x11 x12 x13 x14 x15 x16 x17 x18 x19 x20 x21 x22 x23 x24 (f x25) x26 x27 x28.
#[global] Instance set_durationMs : Setter durationMs :=
  fun f r => let 'Mk x0 x1 x2 x3 x4 x5 x6 x7 x8 x9 x10 x11 x12 x13 x14 x15 x16 x17 x18 x19 x20 x21 x22 x23 x24 x25 x26 x27 x28 := r in Mk x0 x1 x2 x3 x4 x5 x6 x7 x8 x9 x10 x11 x12 x13 x14 x15 x16 x17 x18 x19 x20 x21 x22 x23 x24 x25 (f x26) x27 x28.
#[global] Instance set_completionReason : Setter completionReason :=
  fun f r => let 'Mk x0 x1 x2 x3 x4 x5 x6 x7 x8 x9 x10 x11 x12 x13 x14 x15 x16 x17 x18 x19 x20 x21 x22 x23 x24 x25 x26 x27 x28 := r in Mk x0 x1 x2 x3 x4 x5 x6 x7 x8 x9 x10 x11 x12 x13 x14 x15 x16 x17 x18 x19 x20 x21 x22 x23 x24 x25 x26 (f x27) x28.
#[global] Instance set_executionCount : Setter executionCount :=
  fun f r => let 'Mk x0 x1 x2 x3 x4 x5 x6 x7 x8 x9 x10 x11 x12 x13 x14 x15 x16 x17 x18 x19 x20 x21 x22 x23 x24 x25 x26 x27 x28 := r in Mk x0 x1 x2 x3 x4 x5 x6 x7 x8 x9 x10 x11 x12 x13 x14 x15 x16 x17 x18 x19 x20 x21 x22 x23 x24 x25 x26 x27 (f x28).
End AgentNode.

(** [AgentEdge]. *)
Module AgentEdge.
#[local] Set Primitive Projections.
Record t : Type := Mk {
  id : string;
  source : string;
  target : string;
  reason : string;
  animated : bool;
  timestamp : string
}.
End AgentEdge.

(** [AgentInfo]: one roster entry of the solve response. *)
Module AgentInfo.
#[local] Set Primitive Projections.
Record t : Type := Mk {
  id : string;
  name : string;
  icon : string;
  color : string;
  dataSources : list string;
  included : bool;
  reason : string
}.
End AgentInfo.

(** [DataSourceActivity]. *)
Module DataSourceActivity.
#[local] Set Primitive Projections.
Record t : Type := Mk {
  id : string;
  name : string;
  type : string;
  provider : Provider;
  platformLabel : string;
  queryCount : Z;
  totalResults : Z;
  avgLatencyMs : Z;
  isActive : bool;
  lastQueryTime : option string;
  lastQuerySummary : option string;
  lastAgentId : option string;
  sparkline : list Z
}.
#[global] Instance set_provider : Setter provider :=
  fun f r => let 'Mk x0 x1 x2 x3 x4 x5 x6 x7 x8 x9 x10 x11 x12 := r in Mk x0 x1 x2 (f x3) x4 x5 x6 x7 x8 x9 x10 x11 x12.
#[global] Instance set_queryCount : Setter queryCount :=
  fun f r => let 'Mk x0 x1 x2 x3 x4 x5 x6 x7 x8 x9 x10 x11 x12 := r in Mk x0 x1 x2 x3 x4 (f x5) x6 x7 x8 x9 x10 x11 x12.
#[global] Instance set_totalResults : Setter totalResults :=
  fun f r => let 'Mk x0 x1 x2 x3 x4 x5 x6 x7 x8 x9 x10 x11 x12 := r in Mk x0 x1 x2 x3 x4 x5 (f x6) x7 x8 x9 x10 x11 x12.
#[global] Instance set_avgLatencyMs : Setter avgLatencyMs :=
  fun f r => let 'Mk x0 x1 x2 x3 x4 x5 x6 x7 x8 x9 x10 x11 x12 := r in Mk x0 x1 x2 x3 x4 x5 x6 (f x7) x8 x9 x10 x11 x12.
#[global] Instance set_isActive : Setter isActive :=
  fun f r => let 'Mk x0 x1 x2 x3 x4 x5 x6 x7 x8 x9 x10 x11 x12 := r in Mk x0 x1 x2 x3 x4 x5 x6 x7 (f x8) x9 x10 x11 x12.
#[global] Instance set_lastQueryTime : Setter lastQueryTime :=
  fun f r => let 'Mk x0 x1 x2 x3 x4 x5 x6 x7 x8 x9 x10 x11 x12 := r in Mk x0 x1 x2 x3 x4 x5 x6 x7 x8 (f x9) x10 x11 x12.
#[global] Instance set_lastQuerySummary : Setter lastQuerySummary :=
  fun f r => let 'Mk x0 x1 x2 x3 x4 x5 x6 x7 x8 x9 x10 x11 x12 := r in Mk x0 x1 x2 x3 x4 x5 x6 x7 x8 x9 (f x10) x11 x12.
#[global] Instance set_lastAgentId : Setter lastAgentId :=
  fun f r => let 'Mk x0 x1 x2 x3 x4 x5 x6 x7 x8 x9 x10 x11 x12 := r in Mk x0 x1 x2 x3 x4 x5 x6 x7 x8 x9 x10 (f x11) x12.
#[global] Instance set_sparkline : Setter sparkline :=
  fun f r => let 'Mk x0 x1 x2 x3 x4 x5 x6 x7 x8 x9 x10 x11 x12 := r in Mk x0 x1 x2 x3 x4 x5 x6 x7 x8 x9 x10 x11 (f x12).
End DataSourceActivity.

(** The [scores] object of a [RecoveryOption]. *)
Module Scores.
#[local] Set Primitive Projections.
Record t : Type := Mk {
  delay_reduction : Z;
  crew_margin : Z;
  safety_score : Z;
  cost_impact : Z;
  passenger_impact : Z
}.
End Scores.

(** [RecoveryOption]; [overallScore] is the weighted sum, a double. *)
Module RecoveryOption.
#[local] Set Primitive Projections.
Record t : Type := Mk {
  optionId : string;
  description : string;
  rank : Z;
  scores : Scores.t;
  overallScore : Q
}.
#[global] Instance set_overallScore : Setter overallScore :=
  fun f r => let 'Mk x0 x1 x2 x3 x4 := r in Mk x0 x1 x2 x3 (f x4).
End RecoveryOption.

(** [RecoveryTimelineEntry]. *)
Module RecoveryTimelineEntry.
#[local] Set Primitive Projections.
Record t : Type := Mk {
  time : string;
  action : string;
  agent : string;
  details : option string;
  status : TimelineStatus
}.
End RecoveryTimelineEntry.

(** An element of an options array: built by the [recovery.option] case,
    or taken unchecked from a payload array. *)
Inductive RecoveryOptionV : Type :=
| OptBuilt (o : RecoveryOption.t)
| OptRaw (v : JValue).

(** [RecoveryPlan]. [options] and [criteria] may hold unchecked JSON taken from a payload. *)
Module RecoveryPlan.
#[local] Set Primitive Projections.
Record t : Type := Mk {
  selectedOptionId : string;
  summary : string;
  timeline : list RecoveryTimelineEntry.t;
  options : list RecoveryOptionV;
  criteria : list JValue
}.
#[global] Instance set_options : Setter options :=
  fun f r => let 'Mk x0 x1 x2 x3 x4 := r in Mk x0 x1 x2 (f x3) x4.
#[global] Instance set_criteria : Setter criteria :=
  fun f r => let 'Mk x0 x1 x2 x3 x4 := r in Mk x0 x1 x2 x3 (f x4).
End RecoveryPlan.

(** An entry of the agent registry that is no [AgentNode]: the object a case builds when [state.agents[agentId]] is a value the registry inherits (a function of [Object.prototype], a field of a roster entry that became its prototype). It has the fields the cases write and none of the fields an agent is created with ([id], [name], [evidence], [toolCalls], ...). The index properties that spreading a string or an array copies are left out: nothing reads them. *)
Module StrayAgent.
#[local] Set Primitive Projections.
Record t : Type := Mk {
  status : option AgentStatus;
  recommendation : option string;
  confidence : option Z;
  activeQuery : option string;
  currentObjective : option string;
  activeQuerySummary : option string;
  spanStartedAt : option string;
  traceCount : option Z;
  lastTraceAt : option string;
  currentStep : option string;
  lastAction : option string;
  percentComplete : option Z;
  startedAt : option string;
  endedAt : option string;
  durationMs : option Z;
  completionReason : option string;
  executionCount : option Z
}.
#[global] Instance set_status : Setter status :=
  fun f r => let 'Mk x0 x1 x2 x3 x4 x5 x6 x7 x8 x9 x10 x11 x12 x13 x14 x15 x16 := r in Mk (f x0) x1 x2 x3 x4 x5 x6 x7 x8 x9 x10 x11 x12 x13 x14 x15 x16.
#[global] Instance set_recommendation : Setter recommendation :=
  fun f r => let 'Mk x0 x1 x2 x3 x4 x5 x6 x7 x8 x9 x10 x11 x12 x13 x14 x15 x16 := r in Mk x0 (f x1) x2 x3 x4 x5 x6 x7 x8 x9 x10 x11 x12 x13 x14 x15 x16.
#[global] Instance set_confidence : Setter confidence :=
  fun f r => let 'Mk x0 x1 x2 x3 x4 x5 x6 x7 x8 x9 x10 x11 x12 x13 x14 x15 x16 := r in Mk x0 x1 (f x2) x3 x4 x5 x6 x7 x8 x9 x10 x11 x12 x13 x14 x15 x16.
#[global] Instance set_activeQuery : Setter activeQuery :=
  fun f r => let 'Mk x0 x1 x2 x3 x4 x5 x6 x7 x8 x9 x10 x11 x12 x13 x14 x15 x16 := r in Mk x0 x1 x2 (f x3) x4 x5 x6 x7 x8 x9 x10 x11 x12 x13 x14 x15 x16.
#[global] Instance set_currentObjective : Setter currentObjective :=
  fun f r => let 'Mk x0 x1 x2 x3 x4 x5 x6 x7 x8 x9 x10 x11 x12 x13 x14 x15 x16 := r in Mk x0 x1 x2 x3 (f x4) x5 x6 x7 x8 x9 x10 x11 x12 x13 x14 x15 x16.
#[global] Instance set_activeQuerySummary : Setter activeQuerySummary :=
  fun f r => let 'Mk x0 x1 x2 x3 x4 x5 x6 x7 x8 x9 x10 x11 x12 x13 x14 x15 x16 := r in Mk x0 x1 x2 x3 x4 (f x5) x6 x7 x8 x9 x10 x11 x12 x13 x14 x15 x16.
#[global] Instance set_spanStartedAt : Setter spanStartedAt :=
  fun f r => let 'Mk x0 x1 x2 x3 x4 x5 x6 x7 x8 x9 x10 x11 x12 x13 x14 x15 x16 := r in Mk x0 x1 x2 x3 x4 x5 (f x6) x7 x8 x9 x10 x11 x12 x13 x14 x15 x16.
#[global] Instance set_traceCount : Setter traceCount :=
  fun f r => let 'Mk x0 x1 x2 x3 x4 x5 x6 x7 x8 x9 x10 x11 x12 x13 x14 x15 x16 := r in Mk x0 x1 x2 x3 x4 x5 x6 (f x7) x8 x9 x10 x11 x12 x13 x14 x15 x16.
#[global] Instance set_lastTraceAt : Setter lastTraceAt :=
  fun f r => let 'Mk x0 x1 x2 x3 x4 x5 x6 x7 x8 x9 x10 x11 x12 x13 x14 x15 x16 := r in Mk x0 x1 x2 x3 x4 x5 x6 x7 (f x8) x9 x10 x11 x12 x13 x14 x15 x16.
#[global] Instance set_currentStep : Setter currentStep :=
  fun f r => let 'Mk x0 x1 x2 x3 x4 x5 x6 x7 x8 x9 x10 x11 x12 x13 x14 x15 x16 := r in Mk x0 x1 x2 x3 x4 x5 x6 x7 x8 (f x9) x10 x11 x12 x13 x14 x15 x16.
#[global] Instance set_lastAction : Setter lastAction :=
  fun f r => let 'Mk x0 x1 x2 x3 x4 x5 x6 x7 x8 x9 x10 x11 x12 x13 x14 x15 x16 := r in Mk x0 x1 x2 x3 x4 x5 x6 x7 x8 x9 (f x10) x11 x12 x13 x14 x15 x16.
#[global] Instance set_percentComplete : Setter percentComplete :=
  fun f r => let 'Mk x0 x1 x2 x3 x4 x5 x6 x7 x8 x9 x10 x11 x12 x13 x14 x15 x16 := r in Mk x0 x1 x2 x3 x4 x5 x6 x7 x8 x9 x10 (f x11) x12 x13 x14 x15 x16.
#[global] Instance set_startedAt : Setter startedAt :=
  fun f r => let 'Mk x0 x1 x2 x3 x4 x5 x6 x7 x8 x9 x10 x11 x12 x13 x14 x15 x16 := r in Mk x0 x1 x2 x3 x4 x5 x6 x7 x8 x9 x10 x11 (f x12) x13 x14 x15 x16.
#[global] Instance set_endedAt : Setter endedAt :=
  fun f r => let 'Mk x0 x1 x2 x3 x4 x5 x6 x7 x8 x9 x10 x11 x12 x13 x14 x15 x16 := r in Mk x0 x1 x2 x3 x4 x5 x6 x7 x8 x9 x10 x11 x12 (f x13) x14 x15 x16.
#[global] Instance set_durationMs : Setter durationMs :=
  fun f r => let 'Mk x0 x1 x2 x3 x4 x5 x6 x7 x8 x9 x10 x11 x12 x13 x14 x15 x16 := r in Mk x0 x1 x2 x3 x4 x5 x6 x7 x8 x9 x10 x11 x12 x13 (f x14) x15 x16.
#[global] Instance set_completionReason : Setter completionReason :=
  fun f r => let 'Mk x0 x1 x2 x3 x4 x5 x6 x7 x8 x9 x10 x11 x12 x13 x14 x15 x16 := r in Mk x0 x1 x2 x3 x4 x5 x6 x7 x8 x9 x10 x11 x12 x13 x14 (f x15) x16.
#[global] Instance set_executionCount : Setter executionCount :=
  fun f r => let 'Mk x0 x1 x2 x3 x4 x5 x6 x7 x8 x9 x10 x11 x12 x13 x14 x15 x16 := r in Mk x0 x1 x2 x3 x4 x5 x6 x7 x8 x9 x10 x11 x12 x13 x14 x15 (f x16).
(** The fields of a function, of a string, of an array: none of these. *)
Definition blank : t :=
  Mk None None None None None None None None None None None None None None None None None.
End StrayAgent.

(** An entry of the data source registry that is no [DataSourceActivity]: the object the [query_start] case builds when [state.dataSources[sourceType]] is a function of [Object.prototype]. It has the four fields that case writes and no [sparkline]. *)
Module StraySource.
#[local] Set Primitive Projections.
Record t : Type := Mk {
  isActive : option bool;
  lastAgentId : option string;
  lastQuerySummary : option string;
  provider : option Provider
}.
#[global] Instance set_isActive : Setter isActive :=
  fun f r => let 'Mk x0 x1 x2 x3 := r in Mk (f x0) x1 x2 x3.
#[global] Instance set_lastAgentId : Setter lastAgentId :=
  fun f r => let 'Mk x0 x1 x2 x3 := r in Mk x0 (f x1) x2 x3.
#[global] Instance set_lastQuerySummary : Setter lastQuerySummary :=
  fun f r => let 'Mk x0 x1 x2 x3 := r in Mk x0 x1 (f x2) x3.
#[global] Instance set_provider : Setter provider :=
  fun f r => let 'Mk x0 x1 x2 x3 := r in Mk x0 x1 x2 (f x3).
Definition blank : t := Mk None None None None.
End StraySource.

(** [AviationStore]: the state held by the zustand store. The objects [agents] and [dataSources] take three and two fields: [agents] holds the own entries of the object that are agent nodes, [strayAgents] its own entries that are not, and [agentsProto] the roster entry that [initializeAgents] made the prototype of the object, [None] while the prototype is [Object.prototype]; [dataSources] holds the own entries that are data sources and [strayDataSources] the others. *)
Module Store.
#[local] Set Primitive Projections.
Record t : Type := Mk {
  currentRunId : option string;
  currentRun : option RunMetadata.t;
  events : list WorkflowEvent.t;
  isConnected : bool;
  lastEventId : option string;
  runProgress : RunProgress.t;
  activeAgentIds : list string;
  completedAgentIds : list string;
  failedAgentIds : list string;
  lastMeaningfulEventAt : option string;
  lastHeartbeatAt : option string;
  eventRatePerMin : Z;
  noUpdateWarning : bool;
  scenario : option string;
  agents : gmap string AgentNode.t;
  strayAgents : gmap string StrayAgent.t;
  agentsProto : option AgentNode.t;
  agentEdges : list AgentEdge.t;
  selectedAgentId : option string;
  dataSources : gmap string DataSourceActivity.t;
  strayDataSources : gmap string StraySource.t;
  recoveryPlan : option RecoveryPlan.t;
  recoveryOptions : list RecoveryOptionV;
  sidebarCollapsed : bool;
  bottomDrawerTab : DrawerTab;
  bottomDrawerOpen : bool
}.
#[global] Instance set_currentRunId : Setter currentRunId :=
  fun f r => let 'Mk x0 x1 x2 x3 x4 x5 x6 x7 x8 x9 x10 x11 x12 x13 x14 x15 x16 x17 x18 x19 x20 x21 x22 x23 x24 x25 := r in Mk (f x0) x1 x2 x3 x4 x5 x6 x7 x8 x9 x10 x11 x12 x13 x14 x15 x16 x17 x18 x19 x20 x21 x22 x23 x24 x25.
#[global] Instance set_currentRun : Setter currentRun :=
  fun f r => let 'Mk x0 x1 x2 x3 x4 x5 x6 x7 x8 x9 x10 x11 x12 x13 x14 x15 x16 x17 x18 x19 x20 x21 x22 x23 x24 x25 := r in Mk x0 (f x1) x2 x3 x4 x5 x6 x7 x8 x9 x10 x11 x12 x13 x14 x15 x16 x17 x18 x19 x20 x21 x22 x23 x24 x25.
#[global] Instance set_events : Setter events :=
  fun f r => let 'Mk x0 x1 x2 x3 x4 x5 x6 x7 x8 x9 x10 x11 x12 x13 x14 x15 x16 x17 x18 x19 x20 x21 x22 x23 x24 x25 := r in Mk x0 x1 (f x2) x3 x4 x5 x6 x7 x8 x9 x10 x11 x12 x13 x14 x15 x16 x17 x18 x19 x20 x21 x22 x23 x24 x25.
#[global] Instance set_isConnected : Setter isConnected :=
  fun f r => let 'Mk x0 x1 x2 x3 x4 x5 x6 x7 x8 x9 x10 x11 x12 x13 x14 x15 x16 x17 x18 x19 x20 x21 x22 x23 x24 x25 := r in Mk x0 x1 x2 (f x3) x4 x5 x6 x7 x8 x9 x10 x11 x12 x13 x14 x15 x16 x17 x18 x19 x20 x21 x22 x23 x24 x25.
#[global] Instance set_lastEventId : Setter lastEventId :=
  fun f r => let 'Mk x0 x1 x2 x3 x4 x5 x6 x7 x8 x9 x10 x11 x12 x13 x14 x15 x16 x17 x18 x19 x20 x21 x22 x23 x24 x25 := r in Mk x0 x1 x2 x3 (f x4) x5 x6 x7 x8 x9 x10 x11 x12 x13 x14 x15 x16 x17 x18 x19 x20 x21 x22 x23 x24 x25.
#[global] Instance set_runProgress : Setter runProgress :=
  fun f r => let 'Mk x0 x1 x2 x3 x4 x5 x6 x7 x8 x9 x10 x11 x12 x13 x14 x15 x16 x17 x18 x19 x20 x21 x22 x23 x24 x25 := r in Mk x0 x1 x2 x3 x4 (f x5) x6 x7 x8 x9 x10 x11 x12 x13 x14 x15 x16 x17 x18 x19 x20 x21 x22 x23 x24 x25.
#[global] Instance set_activeAgentIds : Setter activeAgentIds :=
  fun f r => let 'Mk x0 x1 x2 x3 x4 x5 x6 x7 x8 x9 x10 x11 x12 x13 x14 x15 x16 x17 x18 x19 x20 x21 x22 x23 x24 x25 := r in Mk x0 x1 x2 x3 x4 x5 (f x6) x7 x8 x9 x10 x11 x12 x13 x14 x15 x16 x17 x18 x19 x20 x21 x22 x23 x24 x25.
#[global] Instance set_completedAgentIds : Setter completedAgentIds :=
  fun f r => let 'Mk x0 x1 x2 x3 x4 x5 x6 x7 x8 x9 x10 x11 x12 x13 x14 x15 x16 x17 x18 x19 x20 x21 x22 x23 x24 x25 := r in Mk x0 x1 x2 x3 x4 x5 x6 (f x7) x8 x9 x10 x11 x12 x13 x14 x15 x16 x17 x18 x19 x20 x21 x22 x23 x24 x25.
#[global] Instance set_failedAgentIds : Setter failedAgentIds :=
  fun f r => let 'Mk x0 x1 x2 x3 x4 x5 x6 x7 x8 x9 x10 x11 x12 x13 x14 x15 x16 x17 x18 x19 x20 x21 x22 x23 x24 x25 := r in Mk x0 x1 x2 x3 x4 x5 x6 x7 (f x8) x9 x10 x11 x12 x13 x14 x15 x16 x17 x18 x19 x20 x21 x22 x23 x24 x25.
#[global] Instance set_lastMeaningfulEventAt : Setter lastMeaningfulEventAt :=
  fun f r => let 'Mk x0 x1 x2 x3 x4 x5 x6 x7 x8 x9 x10 x11 x12 x13 x14 x15 x16 x17 x18 x19 x20 x21 x22 x23 x24 x25 := r in Mk x0 x1 x2 x3 x4 x5 x6 x7 x8 (f x9) x10 x11 x12 x13 x14 x15 x16 x17 x18 x19 x20 x21 x22 x23 x24 x25.
#[global] Instance set_lastHeartbeatAt : Setter lastHeartbeatAt :=
  fun f r => let 'Mk x0 x1 x2 x3 x4 x5 x6 x7 x8 x9 x10 x11 x12 x13 x14 x15 x16 x17 x18 x19 x20 x21 x22 x23 x24 x25 := r in Mk x0 x1 x2 x3 x4 x5 x6 x7 x8 x9 (f x10) x11 x12 x13 x14 x15 x16 x17 x18 x19 x20 x21 x22 x23 x24 x25.
#[global] Instance set_eventRatePerMin : Setter eventRatePerMin :=
  fun f r => let 'Mk x0 x1 x2 x3 x4 x5 x6 x7 x8 x9 x10 x11 x12 x13 x14 x15 x16 x17 x18 x19 x20 x21 x22 x23 x24 x25 := r in Mk x0 x1 x2 x3 x4 x5 x6 x7 x8 x9 x10 (f x11) x12 x13 x14 x15 x16 x17 x18 x19 x20 x21 x22 x23 x24 x25.
#[global] Instance set_noUpdateWarning : Setter noUpdateWarning :=
  fun f r => let 'Mk x0 x1 x2 x3 x4 x5 x6 x7 x8 x9 x10 x11 x12 x13 x14 x15 x16 x17 x18 x19 x20 x21 x22 x23 x24 x25 := r in Mk x0 x1 x2 x3 x4 x5 x6 x7 x8 x9 x10 x11 (f x12) x13 x14 x15 x16 x17 x18 x19 x20 x21 x22 x23 x24 x25.
#[global] Instance set_scenario : Setter scenario :=
  fun f r => let 'Mk x0 x1 x2 x3 x4 x5 x6 x7 x8 x9 x10 x11 x12 x13 x14 x15 x16 x17 x18 x19 x20 x21 x22 x23 x24 x25 := r in Mk x0 x1 x2 x3 x4 x5 x6 x7 x8 x9 x10 x11 x12 (f x13) x14 x15 x16 x17 x18 x19 x20 x21 x22 x23 x24 x25.
#[global] Instance set_agents : Setter agents :=
  fun f r => let 'Mk x0 x1 x2 x3 x4 x5 x6 x7 x8 x9 x10 x11 x12 x13 x14 x15 x16 x17 x18 x19 x20 x21 x22 x23 x24 x25 := r in Mk x0 x1 x2 x3 x4 x5 x6 x7 x8 x9 x10 x11 x12 x13 (f x14) x15 x16 x17 x18 x19 x20 x21 x22 x23 x24 x25.
#[global] Instance set_strayAgents : Setter strayAgents :=
  fun f r => let 'Mk x0 x1 x2 x3 x4 x5 x6 x7 x8 x9 x10 x11 x12 x13 x14 x15 x16 x17 x18 x19 x20 x21 x22 x23 x24 x25 := r in Mk x0 x1 x2 x3 x4 x5 x6 x7 x8 x9 x10 x11 x12 x13 x14 (f x15) x16 x17 x18 x19 x20 x21 x22 x23 x24 x25.
#[global] Instance set_agentsProto : Setter agentsProto :=
  fun f r => let 'Mk x0 x1 x2 x3 x4 x5 x6 x7 x8 x9 x10 x11 x12 x13 x14 x15 x16 x17 x18 x19 x20 x21 x22 x23 x24 x25 := r in Mk x0 x1 x2 x3 x4 x5 x6 x7 x8 x9 x10 x11 x12 x13 x14 x15 (f x16) x17 x18 x19 x20 x21 x22 x23 x24 x25.
#[global] Instance set_agentEdges : Setter agentEdges :=
  fun f r => let 'Mk x0 x1 x2 x3 x4 x5 x6 x7 x8 x9 x10 x11 x12 x13 x14 x15 x16 x17 x18 x19 x20 x21 x22 x23 x24 x25 := r in Mk x0 x1 x2 x3 x4 x5 x6 x7 x8 x9 x10 x11 x12 x13 x14 x15 x16 (f x17) x18 x19 x20 x21 x22 x23 x24 x25.
#[global] Instance set_selectedAgentId : Setter selectedAgentId :=
  fun f r => let 'Mk x0 x1 x2 x3 x4 x5 x6 x7 x8 x9 x10 x11 x12 x13 x14 x15 x16 x17 x18 x19 x20 x21 x22 x23 x24 x25 := r in Mk x0 x1 x2 x3 x4 x5 x6 x7 x8 x9 x10 x11 x12 x13 x14 x15 x16 x17 (f x18) x19 x20 x21 x22 x23 x24 x25.
#[global] Instance set_dataSources : Setter dataSources :=
  fun f r => let 'Mk x0 x1 x2 x3 x4 x5 x6 x7 x8 x9 x10 x11 x12 x13 x14 x15 x16 x17 x18 x19 x20 x21 x22 x23 x24 x25 := r in Mk x0 x1 x2 x3 x4 x5 x6 x7 x8 x9 x10 x11 x12 x13 x14 x15 x16 x17 x18 (f x19) x20 x21 x22 x23 x24 x25.
#[global] Instance set_strayDataSources : Setter strayDataSources :=
  fun f r => let 'Mk x0 x1 x2 x3 x4 x5 x6 x7 x8 x9 x10 x11 x12 x13 x14 x15 x16 x17 x18 x19 x20 x21 x22 x23 x24 x25 := r in Mk x0 x1 x2 x3 x4 x5 x6 x7 x8 x9 x10 x11 x12 x13 x14 x15 x16 x17 x18 x19 (f x20) x21 x22 x23 x24 x25.
#[global] Instance set_recoveryPlan : Setter recoveryPlan :=
  fun f r => let 'Mk x0 x1 x2 x3 x4 x5 x6 x7 x8 x9 x10 x11 x12 x13 x14 x15 x16 x17 x18 x19 x20 x21 x22 x23 x24 x25 := r in Mk x0 x1 x2 x3 x4 x5 x6 x7 x8 x9 x10 x11 x12 x13 x14 x15 x16 x17 x18 x19 x20 (f x21) x22 x23 x24 x25.
#[global] Instance set_recoveryOptions : Setter recoveryOptions :=
  fun f r => let 'Mk x0 x1 x2 x3 x4 x5 x6 x7 x8 x9 x10 x11 x12 x13 x14 x15 x16 x17 x18 x19 x20 x21 x22 x23 x24 x25 := r in Mk x0 x1 x2 x3 x4 x5 x6 x7 x8 x9 x10 x11 x12 x13 x14 x15 x16 x17 x18 x19 x20 x21 (f x22) x23 x24 x25.
#[global] Instance set_sidebarCollapsed : Setter sidebarCollapsed :=
  fun f r => let 'Mk x0 x1 x2 x3 x4 x5 x6 x7 x8 x9 x10 x11 x12 x13 x14 x15 x16 x17 x18 x19 x20 x21 x22 x23 x24 x25 := r in Mk x0 x1 x2 x3 x4 x5 x6 x7 x8 x9 x10 x11 x12 x13 x14 x15 x16 x17 x18 x19 x20 x21 x22 (f x23) x24 x25.
#[global] Instance set_bottomDrawerTab : Setter bottomDrawerTab :=
  fun f r => let 'Mk x0 x1 x2 x3 x4 x5 x6 x7 x8 x9 x10 x11 x12 x13 x14 x15 x16 x17 x18 x19 x20 x21 x22 x23 x24 x25 := r in Mk x0 x1 x2 x3 x4 x5 x6 x7 x8 x9 x10 x11 x12 x13 x14 x15 x16 x17 x18 x19 x20 x21 x22 x23 (f x24) x25.
#[global] Instance set_bottomDrawerOpen : Setter bottomDrawerOpen :=
  fun f r => let 'Mk x0 x1 x2 x3 x4 x5 x6 x7 x8 x9 x10 x11 x12 x13 x14 x15 x16 x17 x18 x19 x20 x21 x22 x23 x24 x25 := r in Mk x0 x1 x2 x3 x4 x5 x6 x7 x8 x9 x10 x11 x12 x13 x14 x15 x16 x17 x18 x19 x20 x21 x22 x23 x24 (f x25).
End Store.


(** ** The store ([store/aviation-store.ts]) *)

(** *** Data source registry *)

Definition DATA_SOURCE_DEFAULTS : list (string * (string * string * Provider * string)) :=
  [ ("SQL", ("Azure PostgreSQL", "SQL", Azure, "Azure Data"));
    ("KQL", ("Fabric Eventhouse", "KQL", Fabric, "Microsoft Fabric"));
    ("GRAPH", ("Fabric Graph", "GRAPH", Fabric, "Microsoft Fabric"));
    ("VECTOR_OPS", ("Azure AI Search (Ops)", "VECTOR_OPS", Azure, "Azure AI"));
    ("VECTOR_REG", ("Azure AI Search (Regs)", "VECTOR_REG", Azure, "Azure AI"));
    ("VECTOR_AIRPORT", ("Azure AI Search (Airport)", "VECTOR_AIRPORT", Azure, "Azure AI"));
    ("NOSQL", ("Azure Cosmos DB", "NOSQL", Azure, "Azure Data"));
    ("FABRIC_SQL", ("Fabric SQL Endpoint", "FABRIC_SQL", Fabric, "Microsoft Fabric")) ].

Definition createDefaultDataSources : gmap string DataSourceActivity.t :=
  foldl (fun sources '(key, (name, type, provider, platformLabel)) =>
           <[ key := {| DataSourceActivity.id := key;
                        DataSourceActivity.name := name;
                        DataSourceActivity.type := type;
                        DataSourceActivity.provider := provider;
                        DataSourceActivity.platformLabel := platformLabel;
                        DataSourceActivity.queryCount := 0;
                        DataSourceActivity.totalResults := 0;
                        DataSourceActivity.avgLatencyMs := 0;
                        DataSourceActivity.isActive := false;
                        DataSourceActivity.lastQueryTime := None;
                        DataSourceActivity.lastQuerySummary := None;
                        DataSourceActivity.lastAgentId := None;
                        DataSourceActivity.sparkline := [] |} ]> sources)
        ∅ DATA_SOURCE_DEFAULTS.

Definition incrementAgentTrace (agent : AgentNode.t) (ts : string) : AgentNode.t :=
  agent <| AgentNode.traceCount := Some (nullish (AgentNode.traceCount agent) 0 + 1) |>
        <| AgentNode.lastTraceAt := Some ts |>.

(** [incrementAgentTrace] on an entry that is no agent node. *)
Definition incrementStrayTrace (stray : StrayAgent.t) (ts : string) : StrayAgent.t :=
  stray <| StrayAgent.traceCount := Some (nullish (StrayAgent.traceCount stray) 0 + 1) |>
        <| StrayAgent.lastTraceAt := Some ts |>.

Definition createDefaultRunProgress : RunProgress.t :=
  {| RunProgress.status := RunPending;
     RunProgress.overallPct := 0;
     RunProgress.agentsTotal := 0;
     RunProgress.agentsActivated := 0;
     RunProgress.agentsRunning := 0;
     RunProgress.agentsDone := 0;
     RunProgress.agentsErrored := 0;
     RunProgress.currentStep := "idle";
     RunProgress.lastEventKind := None;
     RunProgress.lastUpdateAt := None;
     RunProgress.lastHeartbeatAt := None;
     RunProgress.eventRatePerMin := 0;
     RunProgress.isLive := false;
     RunProgress.isStale := false |}.

Definition isMeaningfulEvent (kind : string) : bool := negb (isKind kind HEARTBEAT).

Definition MAX_STORED_EVENTS : nat := 1500.

(** The state the store is created with. *)
Definition initialStore : Store.t :=
  {| Store.currentRunId := None;
     Store.currentRun := None;
     Store.events := [];
     Store.isConnected := false;
     Store.lastEventId := None;
     Store.runProgress := createDefaultRunProgress;
     Store.activeAgentIds := [];
     Store.completedAgentIds := [];
     Store.failedAgentIds := [];
     Store.lastMeaningfulEventAt := None;
     Store.lastHeartbeatAt := None;
     Store.eventRatePerMin := 0;
     Store.noUpdateWarning := false;
     Store.scenario := None;
     Store.agents := ∅;
     Store.strayAgents := ∅;
     Store.agentsProto := None;
     Store.agentEdges := [];
     Store.selectedAgentId := None;
     Store.dataSources := createDefaultDataSources;
     Store.strayDataSources := ∅;
     Store.recoveryPlan := None;
     Store.recoveryOptions := [];
     Store.sidebarCollapsed := false;
     Store.bottomDrawerTab := TabTimeline;
     Store.bottomDrawerOpen := true |}.

(** *** Actions that need no clock *)

Definition setCurrentRunId (runId : option string) (state : Store.t) : Store.t :=
  state <| Store.currentRunId := runId |>
        <| Store.runProgress :=
             if truthy (nullish runId "")
             then (Store.runProgress state)
                    <| RunProgress.status := RunRunning |>
                    <| RunProgress.isLive := true |>
                    <| RunProgress.currentStep := "run_started" |>
             else createDefaultRunProgress |>.

Definition setCurrentRun (run : option RunMetadata.t) (state : Store.t) : Store.t :=
  state <| Store.currentRun := run |>.

(** [stages.find(p)] followed by an assignment to the found stage. *)
Fixpoint updateFirstStage (p : Stage.t -> bool) (f : Stage.t -> Stage.t)
    (stages : list Stage.t) : list Stage.t :=
  match stages with
  | [] => []
  | s :: rest => if p s then f s :: rest else s :: updateFirstStage p f rest
  end.

Definition stageSettled (s : Stage.t) : bool :=
  match Stage.status s with
  | StageSucceeded | StageSkipped => true
  | _ => false
  end.

Definition updateRunFromEvent (event : WorkflowEvent.t) (state : Store.t) : Store.t :=
  match Store.currentRun state with
  | None => state
  | Some run0 =>
      let sid := nullish (WorkflowEvent.stage_id event) "" in
      let isStage (s : Stage.t) := String.eqb (Stage.stage_id s) sid in
      let run :=
        match classify (WorkflowEvent.kind event) with
        | Some STAGE_STARTED =>
            if truthy sid then
              run0 <| RunMetadata.current_stage := Some sid |>
                   <| RunMetadata.stages :=
                        updateFirstStage isStage
                          (fun s => s <| Stage.status := StageRunning |>
                                      <| Stage.started_at := Some (WorkflowEvent.ts event) |>)
                          (RunMetadata.stages run0) |>
            else run0
        | Some STAGE_COMPLETED =>
            if truthy sid then
              let stages :=
                updateFirstStage isStage
                  (fun s => s <| Stage.status := StageSucceeded |>
                              <| Stage.completed_at := Some (WorkflowEvent.ts event) |>
                              <| Stage.duration_ms := WorkflowEvent.duration_ms event |>)
                  (RunMetadata.stages run0) in
              let completed := Z.of_nat (length (List.filter stageSettled stages)) in
              run0 <| RunMetadata.stages := stages |>
                   <| RunMetadata.stages_completed := completed |>
                   <| RunMetadata.progress_pct :=
                        if (RunMetadata.total_stages run0 =? 0)%Z then None
                        else Some (double (js_div completed (RunMetadata.total_stages run0)
                                           * inject_Z 100)) |>
            else run0
        | Some STAGE_FAILED =>
            if truthy sid then
              run0 <| RunMetadata.stages :=
                        updateFirstStage isStage
                          (fun s => s <| Stage.status := StageFailed |>
                                      <| Stage.error_message := Some (WorkflowEvent.message event) |>)
                          (RunMetadata.stages run0) |>
            else run0
        | Some RUN_COMPLETED =>
            run0 <| RunMetadata.status := RunCompleted |>
                 <| RunMetadata.completed_at := Some (WorkflowEvent.ts event) |>
        | Some RUN_FAILED =>
            run0 <| RunMetadata.status := RunFailed |>
                 <| RunMetadata.error_message := Some (WorkflowEvent.message event) |>
        | _ => run0
        end in
      state <| Store.currentRun :=
                 Some (run <| RunMetadata.event_count :=
                               Z.of_nat (length (Store.events state)) + 1 |>) |>
  end.

Definition clearEvents (state : Store.t) : Store.t :=
  state <| Store.events := [] |>
        <| Store.currentRunId := None |>
        <| Store.currentRun := None |>
        <| Store.lastEventId := None |>
        <| Store.runProgress := createDefaultRunProgress |>
        <| Store.activeAgentIds := [] |>
        <| Store.completedAgentIds := [] |>
        <| Store.failedAgentIds := [] |>
        <| Store.lastMeaningfulEventAt := None |>
        <| Store.lastHeartbeatAt := None |>
        <| Store.eventRatePerMin := 0 |>
        <| Store.noUpdateWarning := false |>
        <| Store.scenario := None |>
        <| Store.agents := ∅ |>
        <| Store.strayAgents := ∅ |>
        <| Store.agentsProto := None |>
        <| Store.agentEdges := [] |>
        <| Store.selectedAgentId := None |>
        <| Store.dataSources := createDefaultDataSources |>
        <| Store.strayDataSources := ∅ |>
        <| Store.recoveryPlan := None |>
        <| Store.recoveryOptions := [] |>.

Definition setConnected (connected : bool) (state : Store.t) : Store.t :=
  state <| Store.isConnected := connected |>
        <| Store.noUpdateWarning := if connected then Store.noUpdateWarning state else false |>
        <| Store.runProgress :=
             (Store.runProgress state)
               <| RunProgress.isLive := connected |>
               <| RunProgress.isStale :=
                    if connected then RunProgress.isStale (Store.runProgress state)
                    else false |> |>.

(** The agent [initializeAgents] builds from a roster entry. *)
Definition rosterAgent (info : AgentInfo.t) : AgentNode.t :=
  {| AgentNode.id := AgentInfo.id info;
     AgentNode.name := AgentInfo.name info;
     AgentNode.shortName := None;
     AgentNode.icon := AgentInfo.icon info;
     AgentNode.color := AgentInfo.color info;
     AgentNode.status := if AgentInfo.included info then Idle else Excluded;
     AgentNode.dataSources := JStr <$> AgentInfo.dataSources info;
     AgentNode.included := AgentInfo.included info;
     AgentNode.reason := AgentInfo.reason info;
     AgentNode.category :=
       if includes (AgentInfo.id info) "coordinator"
       then Coordinator else Specialist;
     AgentNode.evidence := [];
     AgentNode.toolCalls := [];
     AgentNode.recommendation := None;
     AgentNode.confidence := None;
     AgentNode.activeQuery := None;
     AgentNode.currentObjective := None;
     AgentNode.activeQuerySummary := None;
     AgentNode.lastEvidencePreview := None;
     AgentNode.spanStartedAt := None;
     AgentNode.traceCount := Some 0;
     AgentNode.lastTraceAt := None;
     AgentNode.currentStep := None;
     AgentNode.lastAction := None;
     AgentNode.percentComplete := Some 0;
     AgentNode.startedAt := None;
     AgentNode.endedAt := None;
     AgentNode.durationMs := None;
     AgentNode.completionReason := None;
     AgentNode.executionCount := Some 0 |}.

(** [agents[info.id] = ...] on the object [agents] under construction: an
    assignment. Under every key but one it makes an own entry; under
    ["__proto__"] it calls the setter of [Object.prototype], which makes
    the value the prototype of [agents] and adds no entry. *)
Definition initializeAgents (agentInfos : list AgentInfo.t) (scenario : string)
    (state : Store.t) : Store.t :=
  let includedCount := length (List.filter AgentInfo.included agentInfos) in
  let agents : gmap string AgentNode.t :=
    foldl (fun agents info =>
             if String.eqb (AgentInfo.id info) "__proto__" then agents
             else <[ AgentInfo.id info := rosterAgent info ]> agents)
          ∅ agentInfos in
  let proto : option AgentNode.t :=
    foldl (fun proto info =>
             if String.eqb (AgentInfo.id info) "__proto__" then Some (rosterAgent info)
             else proto)
          None agentInfos in
  state <| Store.agents := agents |>
        <| Store.strayAgents := ∅ |>
        <| Store.agentsProto := proto |>
        <| Store.scenario := Some scenario |>
        <| Store.agentEdges := [] |>
        <| Store.activeAgentIds := [] |>
        <| Store.completedAgentIds := [] |>
        <| Store.failedAgentIds := [] |>
        <| Store.runProgress :=
             (Store.runProgress state)
               <| RunProgress.status := RunRunning |>
               <| RunProgress.agentsTotal := Z.of_nat includedCount |>
               <| RunProgress.agentsActivated := 0 |>
               <| RunProgress.agentsRunning := 0 |>
               <| RunProgress.agentsDone := 0 |>
               <| RunProgress.agentsErrored := 0 |>
               <| RunProgress.overallPct := 0 |>
               <| RunProgress.currentStep := "agents_initialized" |> |>.

Definition setSelectedAgent (agentId : option string) (state : Store.t) : Store.t :=
  state <| Store.selectedAgentId := agentId |>.

Definition setSidebarCollapsed (collapsed : bool) (state : Store.t) : Store.t :=
  state <| Store.sidebarCollapsed := collapsed |>.
Definition setBottomDrawerTab (tab : DrawerTab) (state : Store.t) : Store.t :=
  state <| Store.bottomDrawerTab := tab |>.
Definition setBottomDrawerOpen (open : bool) (state : Store.t) : Store.t :=
  state <| Store.bottomDrawerOpen := open |>.

(** *** Event routing: [processAgentEvent] *)

(** The values read from the envelope before the [switch]. *)
Definition agentIdOf (event : WorkflowEvent.t) : string :=
  let payload := WorkflowEvent.payload event in
  payloadString payload "agentId" ""
  |? payloadString payload "executor_id" ""
  |? nullish (WorkflowEvent.agent_name event) "".

Definition agentNameOf (event : WorkflowEvent.t) : string :=
  let payload := WorkflowEvent.payload event in
  payloadString payload "agentName" ""
  |? payloadString payload "agent_name" ""
  |? opt_or (WorkflowEvent.agent_name event) (agentIdOf event).

Definition reportedRunPct (event : WorkflowEvent.t) : Z :=
  payloadNumber (WorkflowEvent.payload event) "runProgressPct" (-1).

Definition reportedCurrentStep (event : WorkflowEvent.t) : string :=
  payloadString (WorkflowEvent.payload event) "currentStep" "".

(** The run-progress fields most cases write alike: the step, the
    reported percentage when it is not negative (else [pct]), and the
    kind and time of the event. *)
Definition stamp (event : WorkflowEvent.t) (step : string) (pct : Z)
    (rp : RunProgress.t) : RunProgress.t :=
  rp <| RunProgress.currentStep := step |>
     <| RunProgress.overallPct :=
          if (0 <=? reportedRunPct event)%Z then reportedRunPct event else pct |>
     <| RunProgress.lastEventKind := Some (WorkflowEvent.kind event) |>
     <| RunProgress.lastUpdateAt := Some (WorkflowEvent.ts event) |>.

(** Whether the field [key] of an agent node is truthy, [None] when the
    node has no such field. *)
Definition fieldTruthy (key : string) (node : AgentNode.t) : option bool :=
  let str (s : string) := Some (truthy s) in
  let ostr (o : option string) := truthy <$> o in
  let onum (o : option Z) := (fun n => negb (n =? 0)) <$> o in
  if String.eqb key "id" then str (AgentNode.id node)
  else if String.eqb key "name" then str (AgentNode.name node)
  else if String.eqb key "shortName" then ostr (AgentNode.shortName node)
  else if String.eqb key "icon" then str (AgentNode.icon node)
  else if String.eqb key "color" then str (AgentNode.color node)
  else if String.eqb key "status" then Some true
  else if String.eqb key "dataSources" then Some true
  else if String.eqb key "included" then Some (AgentNode.included node)
  else if String.eqb key "reason" then str (AgentNode.reason node)
  else if String.eqb key "category" then Some true
  else if String.eqb key "evidence" then Some true
  else if String.eqb key "toolCalls" then Some true
  else if String.eqb key "recommendation" then ostr (AgentNode.recommendation node)
  else if String.eqb key "confidence" then onum (AgentNode.confidence node)
  else if String.eqb key "activeQuery" then ostr (AgentNode.activeQuery node)
  else if String.eqb key "currentObjective" then ostr (AgentNode.currentObjective node)
  else if String.eqb key "activeQuerySummary" then ostr (AgentNode.activeQuerySummary node)
  else if String.eqb key "lastEvidencePreview" then ostr (AgentNode.lastEvidencePreview node)
  else if String.eqb key "spanStartedAt" then ostr (AgentNode.spanStartedAt node)
  else if String.eqb key "traceCount" then onum (AgentNode.traceCount node)
  else if String.eqb key "lastTraceAt" then ostr (AgentNode.lastTraceAt node)
  else if String.eqb key "currentStep" then ostr (AgentNode.currentStep node)
  else if String.eqb key "lastAction" then ostr (AgentNode.lastAction node)
  else if String.eqb key "percentComplete" then onum (AgentNode.percentComplete node)
  else if String.eqb key "startedAt" then ostr (AgentNode.startedAt node)
  else if String.eqb key "endedAt" then ostr (AgentNode.endedAt node)
  else if String.eqb key "durationMs" then onum (AgentNode.durationMs node)
  else if String.eqb key "completionReason" then ostr (AgentNode.completionReason node)
  else if String.eqb key "executionCount" then onum (AgentNode.executionCount node)
  else None.

(** [state.agents[key]]: the own entry; else, when a roster entry is the
    prototype of the object, that entry under ["__proto__"] and the value
    of its field [key] (a string, a number, a boolean or an array, which
    has none of the fields the store reads); else what [Object.prototype]
    gives. *)
Definition agentsAt (key : string) (state : Store.t) : Entry AgentNode.t StrayAgent.t :=
  match Store.agents state !! key with
  | Some agent => Node agent
  | None =>
      match Store.strayAgents state !! key with
      | Some stray => Stray stray
      | None =>
          match Store.agentsProto state with
          | Some proto =>
              if String.eqb key "__proto__" then Node proto
              else
                match fieldTruthy key proto with
                | Some true => Stray StrayAgent.blank
                | Some false => Absent
                | None => if inherited key then Stray StrayAgent.blank else Absent
                end
          | None => if inherited key then Stray StrayAgent.blank else Absent
          end
      end
  end.

(** [agentId && get().agents[agentId]]. *)
Definition agentEntry (agentId : string) (state : Store.t)
    : Entry AgentNode.t StrayAgent.t :=
  if truthy agentId then agentsAt agentId state else Absent.

(** The agent node the registry holds under [agentId] as an own entry,
    for an [agentId] that is not empty. *)
Definition knownAgent (agentId : string) (state : Store.t) : option AgentNode.t :=
  if truthy agentId then Store.agents state !! agentId else None.

(** [state.dataSources[key]]. *)
Definition dataSourcesAt (key : string) (state : Store.t)
    : Entry DataSourceActivity.t StraySource.t :=
  match Store.dataSources state !! key with
  | Some ds => Node ds
  | None =>
      match Store.strayDataSources state !! key with
      | Some stray => Stray stray
      | None => if inherited key then Stray StraySource.blank else Absent
      end
  end.

(** The agent built when [agent.activated] names an id the registry lacks. *)
Definition lazyAgent (event : WorkflowEvent.t) : AgentNode.t :=
  let payload := WorkflowEvent.payload event in
  {| AgentNode.id := agentIdOf event;
     AgentNode.name := agentNameOf event |? agentIdOf event;
     AgentNode.shortName := None;
     AgentNode.icon := payloadString payload "icon" "";
     AgentNode.color := payloadString payload "color" "#6366f1";
     AgentNode.status := Idle;
     AgentNode.dataSources := payloadArray payload "dataSources";
     AgentNode.included := true;
     AgentNode.reason := payloadString payload "reason" "";
     AgentNode.category := Specialist;
     AgentNode.evidence := [];
     AgentNode.toolCalls := [];
     AgentNode.recommendation := None;
     AgentNode.confidence := None;
     AgentNode.activeQuery := None;
     AgentNode.currentObjective := None;
     AgentNode.activeQuerySummary := None;
     AgentNode.lastEvidencePreview := None;
     AgentNode.spanStartedAt := None;
     AgentNode.traceCount := Some 0;
     AgentNode.lastTraceAt := None;
     AgentNode.currentStep := None;
     AgentNode.lastAction := None;
     AgentNode.percentComplete := Some 0;
     AgentNode.startedAt := None;
     AgentNode.endedAt := None;
     AgentNode.durationMs := None;
     AgentNode.completionReason := None;
     AgentNode.executionCount := Some 0 |}.

Definition without (agentId : string) (ids : list string) : list string :=
  List.filter (fun id => negb (String.eqb id agentId)) ids.

Definition parseProvider (sourceProvider : string) (old : Provider) : Provider :=
  if String.eqb sourceProvider "Fabric" then Fabric
  else if String.eqb sourceProvider "Azure" then Azure
  else old.

Definition case_AGENT_ACTIVATED (event : WorkflowEvent.t) (state : Store.t) : Store.t :=
  let agentId := agentIdOf event in
  let ts := WorkflowEvent.ts event in
  if negb (truthy agentId) then state
  else
    let active := Array_from_Set (Store.activeAgentIds state ++ [agentId]) in
    let rp := Store.runProgress state in
    let progress :=
      (stamp event (reportedCurrentStep event |? "activated:" +:+ agentId)
             (RunProgress.overallPct rp) rp)
        <| RunProgress.agentsActivated :=
             Z.max (RunProgress.agentsActivated rp)
                   (Z.of_nat (length (Store.activeAgentIds state)) + 1) |>
        <| RunProgress.agentsRunning := Z.of_nat (length active) |> in
    match agentsAt agentId state with
    | Stray stray =>
        state
          <| Store.strayAgents :=
               <[ agentId :=
                    (incrementStrayTrace stray ts)
                      <| StrayAgent.status := Some Activated |>
                      <| StrayAgent.startedAt :=
                           Some (opt_or (StrayAgent.startedAt stray) ts) |>
                      <| StrayAgent.lastAction := Some "activated" |> ]>
                 (Store.strayAgents state) |>
          <| Store.agentsProto := None |>
          <| Store.activeAgentIds := active |>
          <| Store.runProgress := progress |>
    | found =>
        let existing := nodeOf found in
        state
          <| Store.agents :=
               <[ agentId :=
                    (incrementAgentTrace (nullish existing (lazyAgent event)) ts)
                      <| AgentNode.status := Activated |>
                      <| AgentNode.startedAt :=
                           Some (opt_or (existing ≫= AgentNode.startedAt) ts) |>
                      <| AgentNode.lastAction := Some "activated" |> ]>
                 (Store.agents state) |>
          <| Store.agentsProto := None |>
          <| Store.activeAgentIds := active |>
          <| Store.runProgress := progress |>
    end.

Definition case_AGENT_EXCLUDED (event : WorkflowEvent.t) (state : Store.t) : Store.t :=
  let agentId := agentIdOf event in
  match agentEntry agentId state with
  | Absent => state
  | Node agent =>
      let active := without agentId (Store.activeAgentIds state) in
      let rp := Store.runProgress state in
      state
        <| Store.agents :=
             <[ agentId :=
                  (incrementAgentTrace agent (WorkflowEvent.ts event))
                    <| AgentNode.status := Excluded |>
                    <| AgentNode.lastAction := Some "excluded" |> ]>
               (Store.agents state) |>
        <| Store.agentsProto := None |>
        <| Store.activeAgentIds := active |>
        <| Store.runProgress :=
             (stamp event (reportedCurrentStep event |? "excluded:" +:+ agentId)
                    (RunProgress.overallPct rp) rp)
               <| RunProgress.agentsRunning := Z.of_nat (length active) |> |>
  | Stray stray =>
      let active := without agentId (Store.activeAgentIds state) in
      let rp := Store.runProgress state in
      state
        <| Store.strayAgents :=
             <[ agentId :=
                  (incrementStrayTrace stray (WorkflowEvent.ts event))
                    <| StrayAgent.status := Some Excluded |>
                    <| StrayAgent.lastAction := Some "excluded" |> ]>
               (Store.strayAgents state) |>
        <| Store.agentsProto := None |>
        <| Store.activeAgentIds := active |>
        <| Store.runProgress :=
             (stamp event (reportedCurrentStep event |? "excluded:" +:+ agentId)
                    (RunProgress.overallPct rp) rp)
               <| RunProgress.agentsRunning := Z.of_nat (length active) |> |>
  end.

Definition case_SPAN_STARTED (event : WorkflowEvent.t) (state : Store.t) : Store.t :=
  let agentId := agentIdOf event in
  let payload := WorkflowEvent.payload event in
  let ts := WorkflowEvent.ts event in
  match agentEntry agentId state with
  | Absent => state
  | Node agent =>
      let objective :=
        payloadString payload "objective" ""
        |? payloadString payload "spanName" ""
        |? WorkflowEvent.message event in
      let active := Array_from_Set (Store.activeAgentIds state ++ [agentId]) in
      let rp := Store.runProgress state in
      state
        <| Store.agents :=
             <[ agentId :=
                  (incrementAgentTrace agent ts)
                    <| AgentNode.status := Thinking |>
                    <| AgentNode.currentObjective := Some objective |>
                    <| AgentNode.spanStartedAt := Some ts |>
                    <| AgentNode.startedAt := Some (opt_or (AgentNode.startedAt agent) ts) |>
                    <| AgentNode.currentStep := Some (payloadString payload "currentStep" "analyzing") |>
                    <| AgentNode.lastAction := Some "thinking" |>
                    <| AgentNode.percentComplete :=
                         Some (Z.max (nullish (AgentNode.percentComplete agent) 0)
                                     (payloadNumber payload "percentComplete" 10)) |> ]>
               (Store.agents state) |>
        <| Store.agentsProto := None |>
        <| Store.activeAgentIds := active |>
        <| Store.runProgress :=
             (stamp event (reportedCurrentStep event |? "thinking:" +:+ agentId)
                    (RunProgress.overallPct rp) rp)
               <| RunProgress.agentsRunning := Z.of_nat (length active) |> |>
  | Stray stray =>
      let objective :=
        payloadString payload "objective" ""
        |? payloadString payload "spanName" ""
        |? WorkflowEvent.message event in
      let active := Array_from_Set (Store.activeAgentIds state ++ [agentId]) in
      let rp := Store.runProgress state in
      state
        <| Store.strayAgents :=
             <[ agentId :=
                  (incrementStrayTrace stray ts)
                    <| StrayAgent.status := Some Thinking |>
                    <| StrayAgent.currentObjective := Some objective |>
                    <| StrayAgent.spanStartedAt := Some ts |>
                    <| StrayAgent.startedAt := Some (opt_or (StrayAgent.startedAt stray) ts) |>
                    <| StrayAgent.currentStep := Some (payloadString payload "currentStep" "analyzing") |>
                    <| StrayAgent.lastAction := Some "thinking" |>
                    <| StrayAgent.percentComplete :=
                         Some (Z.max (nullish (StrayAgent.percentComplete stray) 0)
                                     (payloadNumber payload "percentComplete" 10)) |> ]>
               (Store.strayAgents state) |>
        <| Store.agentsProto := None |>
        <| Store.activeAgentIds := active |>
        <| Store.runProgress :=
             (stamp event (reportedCurrentStep event |? "thinking:" +:+ agentId)
                    (RunProgress.overallPct rp) rp)
               <| RunProgress.agentsRunning := Z.of_nat (length active) |> |>
  end.

Definition case_AGENT_OBJECTIVE (event : WorkflowEvent.t) (state : Store.t) : Store.t :=
  let agentId := agentIdOf event in
  let payload := WorkflowEvent.payload event in
  match agentEntry agentId state with
  | Absent => state
  | Node agent =>
      let objective := payloadString payload "objective" (WorkflowEvent.message event) in
      let currentStep := payloadString payload "currentStep" "objective_set" in
      let rp := Store.runProgress state in
      state
        <| Store.agents :=
             <[ agentId :=
                  (incrementAgentTrace agent (WorkflowEvent.ts event))
                    <| AgentNode.currentObjective := Some objective |>
                    <| AgentNode.currentStep := Some currentStep |>
                    <| AgentNode.lastAction := Some "objective_updated" |>
                    <| AgentNode.percentComplete :=
                         Some (Z.max (nullish (AgentNode.percentComplete agent) 0)
                                     (payloadNumber payload "percentComplete" 5)) |> ]>
               (Store.agents state) |>
        <| Store.agentsProto := None |>
        <| Store.runProgress :=
             stamp event (reportedCurrentStep event |? currentStep)
                   (RunProgress.overallPct rp) rp |>
  | Stray stray =>
      let objective := payloadString payload "objective" (WorkflowEvent.message event) in
      let currentStep := payloadString payload "currentStep" "objective_set" in
      let rp := Store.runProgress state in
      state
        <| Store.strayAgents :=
             <[ agentId :=
                  (incrementStrayTrace stray (WorkflowEvent.ts event))
                    <| StrayAgent.currentObjective := Some objective |>
                    <| StrayAgent.currentStep := Some currentStep |>
                    <| StrayAgent.lastAction := Some "objective_updated" |>
                    <| StrayAgent.percentComplete :=
                         Some (Z.max (nullish (StrayAgent.percentComplete stray) 0)
                                     (payloadNumber payload "percentComplete" 5)) |> ]>
               (Store.strayAgents state) |>
        <| Store.agentsProto := None |>
        <| Store.runProgress :=
             stamp event (reportedCurrentStep event |? currentStep)
                   (RunProgress.overallPct rp) rp |>
  end.

Definition case_AGENT_PROGRESS (event : WorkflowEvent.t) (state : Store.t) : Store.t :=
  let agentId := agentIdOf event in
  let payload := WorkflowEvent.payload event in
  match agentEntry agentId state with
  | Absent => state
  | Node agent =>
      let percentComplete :=
        payloadNumber payload "percentComplete"
          (Z.min (nullish (AgentNode.percentComplete agent) 0 + 6) 92) in
      let currentStep := payloadString payload "currentStep" "streaming" in
      let active := Array_from_Set (Store.activeAgentIds state ++ [agentId]) in
      let rp := Store.runProgress state in
      state
        <| Store.agents :=
             <[ agentId :=
                  (incrementAgentTrace agent (WorkflowEvent.ts event))
                    <| AgentNode.status := Thinking |>
                    <| AgentNode.currentStep := Some currentStep |>
                    <| AgentNode.lastAction := Some "streaming" |>
                    <| AgentNode.percentComplete := Some percentComplete |> ]>
               (Store.agents state) |>
        <| Store.agentsProto := None |>
        <| Store.activeAgentIds := active |>
        <| Store.runProgress :=
             (stamp event (reportedCurrentStep event |? currentStep)
                    (RunProgress.overallPct rp) rp)
               <| RunProgress.agentsRunning := Z.of_nat (length active) |> |>
  | Stray stray =>
      let percentComplete :=
        payloadNumber payload "percentComplete"
          (Z.min (nullish (StrayAgent.percentComplete stray) 0 + 6) 92) in
      let currentStep := payloadString payload "currentStep" "streaming" in
      let active := Array_from_Set (Store.activeAgentIds state ++ [agentId]) in
      let rp := Store.runProgress state in
      state
        <| Store.strayAgents :=
             <[ agentId :=
                  (incrementStrayTrace stray (WorkflowEvent.ts event))
                    <| StrayAgent.status := Some Thinking |>
                    <| StrayAgent.currentStep := Some currentStep |>
                    <| StrayAgent.lastAction := Some "streaming" |>
                    <| StrayAgent.percentComplete := Some percentComplete |> ]>
               (Store.strayAgents state) |>
        <| Store.agentsProto := None |>
        <| Store.activeAgentIds := active |>
        <| Store.runProgress :=
             (stamp event (reportedCurrentStep event |? currentStep)
                    (RunProgress.overallPct rp) rp)
               <| RunProgress.agentsRunning := Z.of_nat (length active) |> |>
  end.

Definition case_EXECUTOR_INVOKED (event : WorkflowEvent.t) (state : Store.t) : Store.t :=
  let agentId := agentIdOf event in
  let payload := WorkflowEvent.payload event in
  let ts := WorkflowEvent.ts event in
  match agentEntry agentId state with
  | Absent => state
  | Node agent =>
      let currentStep := payloadString payload "currentStep" "executor_invoked" in
      let executionCount :=
        payloadNumber payload "executionCount"
          (nullish (AgentNode.executionCount agent) 0 + 1) in
      let active := Array_from_Set (Store.activeAgentIds state ++ [agentId]) in
      let rp := Store.runProgress state in
      state
        <| Store.agents :=
             <[ agentId :=
                  (incrementAgentTrace agent ts)
                    <| AgentNode.status := Thinking |>
                    <| AgentNode.currentStep := Some currentStep |>
                    <| AgentNode.lastAction := Some "executor_invoked" |>
                    <| AgentNode.startedAt := Some (opt_or (AgentNode.startedAt agent) ts) |>
                    <| AgentNode.executionCount := Some executionCount |> ]>
               (Store.agents state) |>
        <| Store.agentsProto := None |>
        <| Store.activeAgentIds := active |>
        <| Store.runProgress :=
             (stamp event (reportedCurrentStep event |? currentStep)
                    (RunProgress.overallPct rp) rp)
               <| RunProgress.agentsRunning := Z.of_nat (length active) |> |>
  | Stray stray =>
      let currentStep := payloadString payload "currentStep" "executor_invoked" in
      let executionCount :=
        payloadNumber payload "executionCount"
          (nullish (StrayAgent.executionCount stray) 0 + 1) in
      let active := Array_from_Set (Store.activeAgentIds state ++ [agentId]) in
      let rp := Store.runProgress state in
      state
        <| Store.strayAgents :=
             <[ agentId :=
                  (incrementStrayTrace stray ts)
                    <| StrayAgent.status := Some Thinking |>
                    <| StrayAgent.currentStep := Some currentStep |>
                    <| StrayAgent.lastAction := Some "executor_invoked" |>
                    <| StrayAgent.startedAt := Some (opt_or (StrayAgent.startedAt stray) ts) |>
                    <| StrayAgent.executionCount := Some executionCount |> ]>
               (Store.strayAgents state) |>
        <| Store.agentsProto := None |>
        <| Store.activeAgentIds := active |>
        <| Store.runProgress :=
             (stamp event (reportedCurrentStep event |? currentStep)
                    (RunProgress.overallPct rp) rp)
               <| RunProgress.agentsRunning := Z.of_nat (length active) |> |>
  end.

Definition case_EXECUTOR_COMPLETED (event : WorkflowEvent.t) (state : Store.t) : Store.t :=
  let agentId := agentIdOf event in
  let payload := WorkflowEvent.payload event in
  match agentEntry agentId state with
  | Absent => state
  | Node agent =>
      let status := payloadString payload "status" "completed" in
      let isFailure := String.eqb status "failed" in
      let executionCount :=
        payloadNumber payload "executionCount"
          (nullish (AgentNode.executionCount agent) 1) in
      let active := without agentId (Store.activeAgentIds state) in
      let rp := Store.runProgress state in
      state
        <| Store.agents :=
             <[ agentId :=
                  (incrementAgentTrace agent (WorkflowEvent.ts event))
                    <| AgentNode.status := if isFailure then Error else Done |>
                    <| AgentNode.endedAt := Some (WorkflowEvent.ts event) |>
                    <| AgentNode.lastAction := Some "executor_completed" |>
                    <| AgentNode.percentComplete :=
                         Some (Z.max (nullish (AgentNode.percentComplete agent) 0) 95) |>
                    <| AgentNode.executionCount := Some executionCount |> ]>
               (Store.agents state) |>
        <| Store.agentsProto := None |>
        <| Store.activeAgentIds := active |>
        <| Store.runProgress :=
             (stamp event (reportedCurrentStep event |? "executor_completed:" +:+ agentId)
                    (RunProgress.overallPct rp) rp)
               <| RunProgress.agentsRunning := Z.of_nat (length active) |> |>
  | Stray stray =>
      let status := payloadString payload "status" "completed" in
      let isFailure := String.eqb status "failed" in
      let executionCount :=
        payloadNumber payload "executionCount"
          (nullish (StrayAgent.executionCount stray) 1) in
      let active := without agentId (Store.activeAgentIds state) in
      let rp := Store.runProgress state in
      state
        <| Store.strayAgents :=
             <[ agentId :=
                  (incrementStrayTrace stray (WorkflowEvent.ts event))
                    <| StrayAgent.status := Some (if isFailure then Error else Done) |>
                    <| StrayAgent.endedAt := Some (WorkflowEvent.ts event) |>
                    <| StrayAgent.lastAction := Some "executor_completed" |>
                    <| StrayAgent.percentComplete :=
                         Some (Z.max (nullish (StrayAgent.percentComplete stray) 0) 95) |>
                    <| StrayAgent.executionCount := Some executionCount |> ]>
               (Store.strayAgents state) |>
        <| Store.agentsProto := None |>
        <| Store.activeAgentIds := active |>
        <| Store.runProgress :=
             (stamp event (reportedCurrentStep event |? "executor_completed:" +:+ agentId)
                    (RunProgress.overallPct rp) rp)
               <| RunProgress.agentsRunning := Z.of_nat (length active) |> |>
  end.

Definition case_DATA_SOURCE_QUERY_START (event : WorkflowEvent.t) (state : Store.t) : Store.t :=
  let agentId := agentIdOf event in
  let payload := WorkflowEvent.payload event in
  let sourceType := payloadString payload "sourceType" "" in
  let querySummary :=
    payloadString payload "querySummary" ""
    |? payloadString payload "query" ""
    |? "Querying " +:+ sourceType +:+ "..." in
  let sourceProvider := payloadString payload "sourceProvider" "" in
  let straySources :=
    match (if truthy sourceType then dataSourcesAt sourceType state else Absent) with
    | Stray source =>
        <[ sourceType :=
             source <| StraySource.isActive := Some true |>
                    <| StraySource.lastAgentId := Some agentId |>
                    <| StraySource.lastQuerySummary := Some querySummary |>
                    <| StraySource.provider :=
                         if String.eqb sourceProvider "Fabric" then Some Fabric
                         else if String.eqb sourceProvider "Azure" then Some Azure
                         else StraySource.provider source |> ]>
          (Store.strayDataSources state)
    | _ => Store.strayDataSources state
    end in
  match agentEntry agentId state with
  | Absent => state
  | Node agent =>
      let rp := Store.runProgress state in
      state
        <| Store.agents :=
             <[ agentId :=
                  (incrementAgentTrace agent (WorkflowEvent.ts event))
                    <| AgentNode.status := Querying |>
                    <| AgentNode.activeQuery := Some sourceType |>
                    <| AgentNode.activeQuerySummary := Some querySummary |>
                    <| AgentNode.currentStep :=
                         Some (payloadString payload "currentStep" ("query:" +:+ sourceType)) |>
                    <| AgentNode.lastAction := Some "query_started" |>
                    <| AgentNode.percentComplete :=
                         Some (Z.max (nullish (AgentNode.percentComplete agent) 0)
                                     (payloadNumber payload "percentComplete" 20)) |> ]>
               (Store.agents state) |>
        <| Store.agentsProto := None |>
        <| Store.dataSources :=
             match (if truthy sourceType then Store.dataSources state !! sourceType else None) with
             | Some ds =>
                 <[ sourceType :=
                      ds <| DataSourceActivity.isActive := true |>
                         <| DataSourceActivity.lastAgentId := Some agentId |>
                         <| DataSourceActivity.lastQuerySummary := Some querySummary |>
                         <| DataSourceActivity.provider :=
                              parseProvider sourceProvider (DataSourceActivity.provider ds) |> ]>
                   (Store.dataSources state)
             | None => Store.dataSources state
             end |>
        <| Store.strayDataSources := straySources |>
        <| Store.runProgress :=
             stamp event (reportedCurrentStep event |? "query:" +:+ sourceType)
                   (RunProgress.overallPct rp) rp |>
  | Stray stray =>
      let rp := Store.runProgress state in
      state
        <| Store.strayAgents :=
             <[ agentId :=
                  (incrementStrayTrace stray (WorkflowEvent.ts event))
                    <| StrayAgent.status := Some Querying |>
                    <| StrayAgent.activeQuery := Some sourceType |>
                    <| StrayAgent.activeQuerySummary := Some querySummary |>
                    <| StrayAgent.currentStep :=
                         Some (payloadString payload "currentStep" ("query:" +:+ sourceType)) |>
                    <| StrayAgent.lastAction := Some "query_started" |>
                    <| StrayAgent.percentComplete :=
                         Some (Z.max (nullish (StrayAgent.percentComplete stray) 0)
                                     (payloadNumber payload "percentComplete" 20)) |> ]>
               (Store.strayAgents state) |>
        <| Store.agentsProto := None |>
        <| Store.dataSources :=
             match (if truthy sourceType then Store.dataSources state !! sourceType else None) with
             | Some ds =>
                 <[ sourceType :=
                      ds <| DataSourceActivity.isActive := true |>
                         <| DataSourceActivity.lastAgentId := Some agentId |>
                         <| DataSourceActivity.lastQuerySummary := Some querySummary |>
                         <| DataSourceActivity.provider :=
                              parseProvider sourceProvider (DataSourceActivity.provider ds) |> ]>
                   (Store.dataSources state)
             | None => Store.dataSources state
             end |>
        <| Store.strayDataSources := straySources |>
        <| Store.runProgress :=
             stamp event (reportedCurrentStep event |? "query:" +:+ sourceType)
                   (RunProgress.overallPct rp) rp |>
  end.

(** The statistics of a source after one more completed query. The sum,
    the product and the quotient are those of doubles; [queryCount] is
    not -1 in any state the store reaches, so the divisor is not 0. *)
Definition completeQuery (event : WorkflowEvent.t) (ds : DataSourceActivity.t)
    : DataSourceActivity.t :=
  let payload := WorkflowEvent.payload event in
  let sourceType := payloadString payload "sourceType" "" in
  let resultCount := payloadNumber payload "resultCount" 0 in
  let latencyMs := payloadNumber payload "latencyMs" 0 in
  let sourceProvider := payloadString payload "sourceProvider" "" in
  let querySummary := payloadString payload "querySummary" (sourceType +:+ " query") in
  let agentId := agentIdOf event in
  ds <| DataSourceActivity.queryCount := js_add (DataSourceActivity.queryCount ds) 1 |>
     <| DataSourceActivity.totalResults :=
          js_add (DataSourceActivity.totalResults ds) resultCount |>
     <| DataSourceActivity.avgLatencyMs :=
          Math_round
            (js_div
               (js_add (js_mul (DataSourceActivity.avgLatencyMs ds)
                               (DataSourceActivity.queryCount ds))
                       latencyMs)
               (js_add (DataSourceActivity.queryCount ds) 1)) |>
     <| DataSourceActivity.isActive := false |>
     <| DataSourceActivity.lastQueryTime := Some (WorkflowEvent.ts event) |>
     <| DataSourceActivity.lastQuerySummary := Some querySummary |>
     <| DataSourceActivity.lastAgentId :=
          if truthy agentId then Some agentId else DataSourceActivity.lastAgentId ds |>
     <| DataSourceActivity.provider :=
          parseProvider sourceProvider (DataSourceActivity.provider ds) |>
     <| DataSourceActivity.sparkline :=
          slice_last 19 (DataSourceActivity.sparkline ds) ++ [latencyMs] |>.

Definition case_DATA_SOURCE_QUERY_COMPLETE (now : Z) (event : WorkflowEvent.t)
    (state : Store.t) : Store.t :=
  let agentId := agentIdOf event in
  let payload := WorkflowEvent.payload event in
  let sourceType := payloadString payload "sourceType" "" in
  let resultCount := payloadNumber payload "resultCount" 0 in
  let latencyMs := payloadNumber payload "latencyMs" 0 in
  let querySummary := payloadString payload "querySummary" (sourceType +:+ " query") in
  let entry := agentEntry agentId state in
  if isStray (dataSourcesAt sourceType state) || isStray entry then
    (* [ds.sparkline.slice(-19)], or [...agent.evidence, ...], throws a TypeError
       inside [set]: the entry has no [sparkline], or no [evidence] *)
    state
  else
  let newDs := completeQuery event <$> Store.dataSources state !! sourceType in
  let newAgent :=
    (fun agent =>
       (incrementAgentTrace agent (WorkflowEvent.ts event))
         <| AgentNode.status := Thinking |>
         <| AgentNode.activeQuery := None |>
         <| AgentNode.activeQuerySummary := None |>
         <| AgentNode.currentStep :=
              Some (payloadString payload "currentStep" ("query_complete:" +:+ sourceType)) |>
         <| AgentNode.lastAction := Some "query_completed" |>
         <| AgentNode.percentComplete :=
              Some (Z.max (nullish (AgentNode.percentComplete agent) 0)
                          (payloadNumber payload "percentComplete" 55)) |>
         <| AgentNode.lastEvidencePreview :=
              Some (pretty resultCount +:+ " results from " +:+ sourceType
                    +:+ " (" +:+ pretty latencyMs +:+ "ms)") |>
         <| AgentNode.evidence :=
              AgentNode.evidence agent
              ++ [ {| AgentEvidence.id := "ev-" +:+ pretty now;
                      AgentEvidence.sourceType := sourceType;
                      AgentEvidence.summary := querySummary;
                      AgentEvidence.resultCount := resultCount;
                      AgentEvidence.timestamp := WorkflowEvent.ts event |} ] |>)
    <$> nodeOf entry in
  let rp := Store.runProgress state in
  state
    <| Store.dataSources :=
         match newDs with
         | Some ds => <[ sourceType := ds ]> (Store.dataSources state)
         | None => Store.dataSources state
         end |>
    <| Store.agents :=
         match newAgent with
         | Some agent => <[ agentId := agent ]> (Store.agents state)
         | None => Store.agents state
         end |>
    <| Store.agentsProto :=
         match newAgent with
         | Some _ => None
         | None => Store.agentsProto state
         end |>
    <| Store.runProgress :=
         stamp event (reportedCurrentStep event |? "query_complete:" +:+ sourceType)
               (RunProgress.overallPct rp) rp |>.

Definition toolNameOf (event : WorkflowEvent.t) : string :=
  payloadString (WorkflowEvent.payload event) "toolName"
    (opt_or (WorkflowEvent.tool_name event) "tool").

Definition case_TOOL_CALLED (now : Z) (event : WorkflowEvent.t) (state : Store.t) : Store.t :=
  let agentId := agentIdOf event in
  let payload := WorkflowEvent.payload event in
  let toolName := toolNameOf event in
  match agentEntry agentId state with
  | Absent => state
  | Stray _ =>
      (* [...state.agents[agentId].toolCalls, ...] throws a TypeError inside [set]: the
         entry has no [toolCalls] *)
      state
  | Node agent =>
      state
        <| Store.agents :=
             <[ agentId :=
                  (incrementAgentTrace agent (WorkflowEvent.ts event))
                    <| AgentNode.toolCalls :=
                         AgentNode.toolCalls agent
                         ++ [ {| AgentToolCall.id :=
                                   payloadString payload "toolId" ("tool-" +:+ pretty now);
                                 AgentToolCall.toolName := toolName;
                                 AgentToolCall.dataSource :=
                                   payloadString payload "sourceType"
                                     (payloadString payload "dataSource" "unknown");
                                 AgentToolCall.status := ToolRunning;
                                 AgentToolCall.startedAt := Some (WorkflowEvent.ts event);
                                 AgentToolCall.endedAt := None;
                                 AgentToolCall.latencyMs := None;
                                 AgentToolCall.resultCount := None;
                                 AgentToolCall.error := None |} ] |>
                    <| AgentNode.currentStep :=
                         Some (payloadString payload "currentStep" ("tool:" +:+ toolName)) |>
                    <| AgentNode.lastAction := Some "tool_called" |> ]>
               (Store.agents state) |>
        <| Store.agentsProto := None |>
  end.

Definition isRunning (tc : AgentToolCall.t) : bool :=
  match AgentToolCall.status tc with ToolRunning => true | _ => false end.

Definition case_TOOL_FINISHED (isFailure : bool) (event : WorkflowEvent.t)
    (state : Store.t) : Store.t :=
  let agentId := agentIdOf event in
  let payload := WorkflowEvent.payload event in
  let toolName := toolNameOf event in
  let toolId := payloadString payload "toolId" "" in
  match agentEntry agentId state with
  | Absent => state
  | Stray _ =>
      (* [existing.findIndex] and [existing.length] throw a TypeError inside [set]:
         the entry has no [toolCalls] *)
      state
  | Node agent =>
      let existing := AgentNode.toolCalls agent in
      let targetIndex :=
        if truthy toolId
        then findIndex (fun tc => String.eqb (AgentToolCall.id tc) toolId) existing
        else findLastIndex
               (fun tc => String.eqb (AgentToolCall.toolName tc) toolName && isRunning tc)
               existing in
      let updatedCalls :=
        match targetIndex with
        | Some i =>
            alter (fun tc =>
                     tc <| AgentToolCall.status := if isFailure then ToolError else ToolDone |>
                        <| AgentToolCall.endedAt := Some (WorkflowEvent.ts event) |>
                        <| AgentToolCall.latencyMs :=
                             Some (payloadNumber payload "latencyMs"
                                     (nullish (AgentToolCall.latencyMs tc) 0)) |>
                        <| AgentToolCall.resultCount :=
                             Some (payloadNumber payload "resultCount"
                                     (nullish (AgentToolCall.resultCount tc) 0)) |>
                        <| AgentToolCall.error :=
                             if isFailure
                             then Some (payloadString payload "error" (WorkflowEvent.message event))
                             else None |>)
                  i existing
        | None => existing
        end in
      state
        <| Store.agents :=
             <[ agentId :=
                  (incrementAgentTrace agent (WorkflowEvent.ts event))
                    <| AgentNode.toolCalls := updatedCalls |>
                    <| AgentNode.lastAction :=
                         Some (if isFailure then "tool_failed" else "tool_completed") |> ]>
               (Store.agents state) |>
        <| Store.agentsProto := None |>
  end.

Definition case_AGENT_EVIDENCE (now : Z) (event : WorkflowEvent.t) (state : Store.t) : Store.t :=
  let agentId := agentIdOf event in
  let payload := WorkflowEvent.payload event in
  match agentEntry agentId state with
  | Absent => state
  | Stray _ =>
      (* [...state.agents[agentId].evidence, ...] throws a TypeError inside [set]: the
         entry has no [evidence] *)
      state
  | Node agent =>
      let rp := Store.runProgress state in
      state
        <| Store.agents :=
             <[ agentId :=
                  (incrementAgentTrace agent (WorkflowEvent.ts event))
                    <| AgentNode.currentStep :=
                         Some (payloadString payload "currentStep" "evidence_collected") |>
                    <| AgentNode.lastAction := Some "evidence_collected" |>
                    <| AgentNode.evidence :=
                         AgentNode.evidence agent
                         ++ [ {| AgentEvidence.id := "ev-" +:+ pretty now;
                                 AgentEvidence.sourceType :=
                                   payloadString payload "sourceType" "unknown";
                                 AgentEvidence.summary :=
                                   payloadString payload "summary" (WorkflowEvent.message event);
                                 AgentEvidence.resultCount := payloadNumber payload "resultCount" 0;
                                 AgentEvidence.timestamp := WorkflowEvent.ts event |} ] |> ]>
               (Store.agents state) |>
        <| Store.agentsProto := None |>
        <| Store.runProgress :=
             stamp event (reportedCurrentStep event |? "evidence_collected")
                   (RunProgress.overallPct rp) rp |>
  end.

Definition case_AGENT_RECOMMENDATION (event : WorkflowEvent.t) (state : Store.t) : Store.t :=
  let agentId := agentIdOf event in
  let payload := WorkflowEvent.payload event in
  match agentEntry agentId state with
  | Absent => state
  | Node agent =>
      let rp := Store.runProgress state in
      state
        <| Store.agents :=
             <[ agentId :=
                  (incrementAgentTrace agent (WorkflowEvent.ts event))
                    <| AgentNode.recommendation := Some (payloadString payload "recommendation" "") |>
                    <| AgentNode.confidence := Some (payloadNumber payload "confidence" 0) |>
                    <| AgentNode.currentStep :=
                         Some (payloadString payload "currentStep" "recommendation_ready") |>
                    <| AgentNode.lastAction := Some "recommendation_ready" |>
                    <| AgentNode.percentComplete :=
                         Some (Z.max (nullish (AgentNode.percentComplete agent) 0) 85) |> ]>
               (Store.agents state) |>
        <| Store.agentsProto := None |>
        <| Store.runProgress :=
             stamp event (reportedCurrentStep event |? "recommendation_ready")
                   (RunProgress.overallPct rp) rp |>
  | Stray stray =>
      let rp := Store.runProgress state in
      state
        <| Store.strayAgents :=
             <[ agentId :=
                  (incrementStrayTrace stray (WorkflowEvent.ts event))
                    <| StrayAgent.recommendation := Some (payloadString payload "recommendation" "") |>
                    <| StrayAgent.confidence := Some (payloadNumber payload "confidence" 0) |>
                    <| StrayAgent.currentStep :=
                         Some (payloadString payload "currentStep" "recommendation_ready") |>
                    <| StrayAgent.lastAction := Some "recommendation_ready" |>
                    <| StrayAgent.percentComplete :=
                         Some (Z.max (nullish (StrayAgent.percentComplete stray) 0) 85) |> ]>
               (Store.strayAgents state) |>
        <| Store.agentsProto := None |>
        <| Store.runProgress :=
             stamp event (reportedCurrentStep event |? "recommendation_ready")
                   (RunProgress.overallPct rp) rp |>
  end.

(** [payload.success !== false]. *)
Definition successOf (event : WorkflowEvent.t) : bool :=
  match WorkflowEvent.payload event !! "success" with
  | Some (JBool false) => false
  | _ => true
  end.

Definition case_SPAN_ENDED (event : WorkflowEvent.t) (state : Store.t) : Store.t :=
  let agentId := agentIdOf event in
  let payload := WorkflowEvent.payload event in
  match agentEntry agentId state with
  | Absent => state
  | Node agent =>
      let success := successOf event in
      let active := without agentId (Store.activeAgentIds state) in
      let completed :=
        if success then Array_from_Set (Store.completedAgentIds state ++ [agentId])
        else Store.completedAgentIds state in
      let failed :=
        if negb success then Array_from_Set (Store.failedAgentIds state ++ [agentId])
        else Store.failedAgentIds state in
      let rp := Store.runProgress state in
      state
        <| Store.agents :=
             <[ agentId :=
                  (incrementAgentTrace agent (WorkflowEvent.ts event))
                    <| AgentNode.status := if success then Done else Error |>
                    <| AgentNode.currentObjective := None |>
                    <| AgentNode.activeQuerySummary := None |>
                    <| AgentNode.spanStartedAt := None |>
                    <| AgentNode.endedAt := Some (WorkflowEvent.ts event) |>
                    <| AgentNode.durationMs :=
                         Some (payloadNumber payload "durationMs"
                                 (nullish (AgentNode.durationMs agent) 0)) |>
                    <| AgentNode.completionReason :=
                         Some (payloadString payload "completionReason"
                                 (if success then "completed" else "failed")) |>
                    <| AgentNode.lastAction := Some (if success then "completed" else "failed") |>
                    <| AgentNode.percentComplete :=
                         if success then Some 100 else AgentNode.percentComplete agent |> ]>
               (Store.agents state) |>
        <| Store.agentsProto := None |>
        <| Store.activeAgentIds := active |>
        <| Store.completedAgentIds := completed |>
        <| Store.failedAgentIds := failed |>
        <| Store.runProgress :=
             (stamp event
                    (reportedCurrentStep event
                     |? (if success then "completed:" +:+ agentId else "failed:" +:+ agentId))
                    (RunProgress.overallPct rp) rp)
               <| RunProgress.agentsRunning := Z.of_nat (length active) |>
               <| RunProgress.agentsDone := Z.of_nat (length completed) |>
               <| RunProgress.agentsErrored := Z.of_nat (length failed) |> |>
  | Stray stray =>
      let success := successOf event in
      let active := without agentId (Store.activeAgentIds state) in
      let completed :=
        if success then Array_from_Set (Store.completedAgentIds state ++ [agentId])
        else Store.completedAgentIds state in
      let failed :=
        if negb success then Array_from_Set (Store.failedAgentIds state ++ [agentId])
        else Store.failedAgentIds state in
      let rp := Store.runProgress state in
      state
        <| Store.strayAgents :=
             <[ agentId :=
                  (incrementStrayTrace stray (WorkflowEvent.ts event))
                    <| StrayAgent.status := Some (if success then Done else Error) |>
                    <| StrayAgent.currentObjective := None |>
                    <| StrayAgent.activeQuerySummary := None |>
                    <| StrayAgent.spanStartedAt := None |>
                    <| StrayAgent.endedAt := Some (WorkflowEvent.ts event) |>
                    <| StrayAgent.durationMs :=
                         Some (payloadNumber payload "durationMs"
                                 (nullish (StrayAgent.durationMs stray) 0)) |>
                    <| StrayAgent.completionReason :=
                         Some (payloadString payload "completionReason"
                                 (if success then "completed" else "failed")) |>
                    <| StrayAgent.lastAction := Some (if success then "completed" else "failed") |>
                    <| StrayAgent.percentComplete :=
                         if success then Some 100 else StrayAgent.percentComplete stray |> ]>
               (Store.strayAgents state) |>
        <| Store.agentsProto := None |>
        <| Store.activeAgentIds := active |>
        <| Store.completedAgentIds := completed |>
        <| Store.failedAgentIds := failed |>
        <| Store.runProgress :=
             (stamp event
                    (reportedCurrentStep event
                     |? (if success then "completed:" +:+ agentId else "failed:" +:+ agentId))
                    (RunProgress.overallPct rp) rp)
               <| RunProgress.agentsRunning := Z.of_nat (length active) |>
               <| RunProgress.agentsDone := Z.of_nat (length completed) |>
               <| RunProgress.agentsErrored := Z.of_nat (length failed) |> |>
  end.

Definition case_AGENT_COMPLETED (event : WorkflowEvent.t) (state : Store.t) : Store.t :=
  let agentId := agentIdOf event in
  let payload := WorkflowEvent.payload event in
  match agentEntry agentId state with
  | Absent => state
  | Node agent =>
      let status := payloadString payload "status" "completed" in
      let isSuccess := negb (String.eqb status "failed") in
      let executionCount :=
        payloadNumber payload "executionCount"
          (nullish (AgentNode.executionCount agent) 1) in
      let active := without agentId (Store.activeAgentIds state) in
      let completed :=
        if isSuccess then Array_from_Set (Store.completedAgentIds state ++ [agentId])
        else Store.completedAgentIds state in
      let failed :=
        if negb isSuccess then Array_from_Set (Store.failedAgentIds state ++ [agentId])
        else Store.failedAgentIds state in
      let rp := Store.runProgress state in
      state
        <| Store.agents :=
             <[ agentId :=
                  (incrementAgentTrace agent (WorkflowEvent.ts event))
                    <| AgentNode.status := if isSuccess then Done else Error |>
                    <| AgentNode.recommendation :=
                         if truthy (payloadString payload "summary" "")
                         then Some (payloadString payload "summary" "")
                         else AgentNode.recommendation agent |>
                    <| AgentNode.completionReason :=
                         Some (payloadString payload "completionReason" status) |>
                    <| AgentNode.startedAt :=
                         Some (payloadString payload "startedAt"
                                 (nullish (AgentNode.startedAt agent) "")) |>
                    <| AgentNode.endedAt :=
                         Some (payloadString payload "endedAt" (WorkflowEvent.ts event)) |>
                    <| AgentNode.durationMs :=
                         Some (payloadNumber payload "durationMs"
                                 (nullish (AgentNode.durationMs agent) 0)) |>
                    <| AgentNode.percentComplete := Some 100 |>
                    <| AgentNode.lastAction :=
                         Some (if isSuccess then "agent_completed" else "agent_failed") |>
                    <| AgentNode.executionCount := Some executionCount |> ]>
               (Store.agents state) |>
        <| Store.agentsProto := None |>
        <| Store.activeAgentIds := active |>
        <| Store.completedAgentIds := completed |>
        <| Store.failedAgentIds := failed |>
        <| Store.runProgress :=
             (stamp event (reportedCurrentStep event |? "agent_completed:" +:+ agentId)
                    (Z.max (RunProgress.overallPct rp) 90) rp)
               <| RunProgress.agentsRunning := Z.of_nat (length active) |>
               <| RunProgress.agentsDone := Z.of_nat (length completed) |>
               <| RunProgress.agentsErrored := Z.of_nat (length failed) |> |>
  | Stray stray =>
      let status := payloadString payload "status" "completed" in
      let isSuccess := negb (String.eqb status "failed") in
      let executionCount :=
        payloadNumber payload "executionCount"
          (nullish (StrayAgent.executionCount stray) 1) in
      let active := without agentId (Store.activeAgentIds state) in
      let completed :=
        if isSuccess then Array_from_Set (Store.completedAgentIds state ++ [agentId])
        else Store.completedAgentIds state in
      let failed :=
        if negb isSuccess then Array_from_Set (Store.failedAgentIds state ++ [agentId])
        else Store.failedAgentIds state in
      let rp := Store.runProgress state in
      state
        <| Store.strayAgents :=
             <[ agentId :=
                  (incrementStrayTrace stray (WorkflowEvent.ts event))
                    <| StrayAgent.status := Some (if isSuccess then Done else Error) |>
                    <| StrayAgent.recommendation :=
                         if truthy (payloadString payload "summary" "")
                         then Some (payloadString payload "summary" "")
                         else StrayAgent.recommendation stray |>
                    <| StrayAgent.completionReason :=
                         Some (payloadString payload "completionReason" status) |>
                    <| StrayAgent.startedAt :=
                         Some (payloadString payload "startedAt"
                                 (nullish (StrayAgent.startedAt stray) "")) |>
                    <| StrayAgent.endedAt :=
                         Some (payloadString payload "endedAt" (WorkflowEvent.ts event)) |>
                    <| StrayAgent.durationMs :=
                         Some (payloadNumber payload "durationMs"
                                 (nullish (StrayAgent.durationMs stray) 0)) |>
                    <| StrayAgent.percentComplete := Some 100 |>
                    <| StrayAgent.lastAction :=
                         Some (if isSuccess then "agent_completed" else "agent_failed") |>
                    <| StrayAgent.executionCount := Some executionCount |> ]>
               (Store.strayAgents state) |>
        <| Store.agentsProto := None |>
        <| Store.activeAgentIds := active |>
        <| Store.completedAgentIds := completed |>
        <| Store.failedAgentIds := failed |>
        <| Store.runProgress :=
             (stamp event (reportedCurrentStep event |? "agent_completed:" +:+ agentId)
                    (Z.max (RunProgress.overallPct rp) 90) rp)
               <| RunProgress.agentsRunning := Z.of_nat (length active) |>
               <| RunProgress.agentsDone := Z.of_nat (length completed) |>
               <| RunProgress.agentsErrored := Z.of_nat (length failed) |> |>
  end.

Definition case_HANDOVER (now : Z) (event : WorkflowEvent.t) (state : Store.t) : Store.t :=
  let payload := WorkflowEvent.payload event in
  let ts := WorkflowEvent.ts event in
  let fromAgent := payloadString payload "fromAgent" "" in
  let toAgent := payloadString payload "toAgent" "" in
  if truthy fromAgent && truthy toAgent then
    let traced (id : string) (agents : gmap string AgentNode.t) :=
      match agentsAt id state with
      | Node agent => <[ id := incrementAgentTrace agent ts ]> agents
      | _ => agents
      end in
    let tracedStray (id : string) (strays : gmap string StrayAgent.t) :=
      match agentsAt id state with
      | Stray stray => <[ id := incrementStrayTrace stray ts ]> strays
      | _ => strays
      end in
    let rp := Store.runProgress state in
    state
      <| Store.agents := traced toAgent (traced fromAgent (Store.agents state)) |>
      <| Store.strayAgents :=
           tracedStray toAgent (tracedStray fromAgent (Store.strayAgents state)) |>
      <| Store.agentsProto := None |>
      <| Store.agentEdges :=
           Store.agentEdges state
           ++ [ {| AgentEdge.id := "edge-" +:+ fromAgent +:+ "-" +:+ toAgent +:+ "-" +:+ pretty now;
                   AgentEdge.source := fromAgent;
                   AgentEdge.target := toAgent;
                   AgentEdge.reason := payloadString payload "reason" "";
                   AgentEdge.animated := true;
                   AgentEdge.timestamp := ts |} ] |>
      <| Store.runProgress :=
           stamp event (reportedCurrentStep event |? "handover:" +:+ fromAgent +:+ "->" +:+ toAgent)
                 (RunProgress.overallPct rp) rp |>
  else state.

Definition case_COORDINATOR_SCORING (event : WorkflowEvent.t) (state : Store.t) : Store.t :=
  let payload := WorkflowEvent.payload event in
  let options := OptRaw <$> payloadArray payload "options" in
  let criteria := payloadArray payload "criteria" in
  state
    <| Store.recoveryOptions := options |>
    <| Store.recoveryPlan :=
         (fun plan => plan <| RecoveryPlan.options := options |>
                           <| RecoveryPlan.criteria := criteria |>)
         <$> Store.recoveryPlan state |>
    <| Store.bottomDrawerTab := TabPlan |>
    <| Store.bottomDrawerOpen := true |>.

Definition parseTimelineEntry (raw : JValue) : option RecoveryTimelineEntry.t :=
  match raw with
  | JObj obj =>
      match obj !! "time", obj !! "action" with
      | Some (JStr time), Some (JStr action) =>
          Some {| RecoveryTimelineEntry.time := time;
                  RecoveryTimelineEntry.action := action;
                  RecoveryTimelineEntry.agent :=
                    match obj !! "agent" with Some (JStr a) => a | _ => "" end;
                  RecoveryTimelineEntry.details :=
                    match obj !! "details" with Some (JStr d) => Some d | _ => None end;
                  RecoveryTimelineEntry.status :=
                    match obj !! "status" with
                    | Some (JStr st) =>
                        if String.eqb st "in_progress" then TlInProgress
                        else if String.eqb st "completed" then TlCompleted
                        else TlPending
                    | _ => TlPending
                    end |}
      | _, _ => None
      end
  | _ => None
  end.

Definition parseRecoveryScores (raw : option JValue) : Scores.t :=
  let num (obj : gmap string JValue) (key : string) : Z :=
    match obj !! key with Some (JNum n) => n | _ => 0 end in
  match raw with
  | Some (JObj obj) =>
      {| Scores.delay_reduction := num obj "delay_reduction";
         Scores.crew_margin := num obj "crew_margin";
         Scores.safety_score := num obj "safety_score";
         Scores.cost_impact := num obj "cost_impact";
         Scores.passenger_impact := num obj "passenger_impact" |}
  | _ => {| Scores.delay_reduction := 0; Scores.crew_margin := 0;
            Scores.safety_score := 0; Scores.cost_impact := 0;
            Scores.passenger_impact := 0 |}
  end.

Definition PLAN_CRITERIA : list JValue :=
  [ JStr "delay_reduction"; JStr "crew_margin"; JStr "safety_score";
    JStr "cost_impact"; JStr "passenger_impact" ].

Definition case_COORDINATOR_PLAN (event : WorkflowEvent.t) (state : Store.t) : Store.t :=
  let payload := WorkflowEvent.payload event in
  let currentOptions := Store.recoveryOptions state in
  let rawTimeline := payloadArray payload "timeline" in
  let timeline := omap parseTimelineEntry rawTimeline in
  state
    <| Store.recoveryPlan :=
         Some {| RecoveryPlan.selectedOptionId := payloadString payload "selectedOptionId" "";
                 RecoveryPlan.summary := payloadString payload "summary" "";
                 RecoveryPlan.timeline := timeline;
                 RecoveryPlan.options :=
                   match currentOptions with
                   | _ :: _ => currentOptions
                   | [] => OptRaw <$> payloadArray payload "options"
                   end;
                 RecoveryPlan.criteria := PLAN_CRITERIA |} |>
    <| Store.bottomDrawerTab := TabPlan |>
    <| Store.bottomDrawerOpen := true |>.

(** The weighted sum of the scores: 0.25, 0.15, 0.25, 0.15 and 0.20 as
    doubles, each product and each sum rounded, the sums from the left. *)
Definition weightedScore (scores : Scores.t) : Q :=
  let term (score : Z) (weight : Q) := double (inject_Z score * double weight) in
  let sum (a b : Q) := double (a + b) in
  sum (sum (sum (sum (term (Scores.delay_reduction scores) (25 # 100))
                     (term (Scores.crew_margin scores) (15 # 100)))
                (term (Scores.safety_score scores) (25 # 100)))
           (term (Scores.cost_impact scores) (15 # 100)))
      (term (Scores.passenger_impact scores) (20 # 100)).

Definition case_RECOVERY_OPTION (event : WorkflowEvent.t) (state : Store.t) : Store.t :=
  let payload := WorkflowEvent.payload event in
  let scores := parseRecoveryScores (payload !! "scores") in
  let option :=
    {| RecoveryOption.optionId := payloadString payload "optionId" "";
       RecoveryOption.description := payloadString payload "description" "";
       RecoveryOption.rank := payloadNumber payload "rank" 0;
       RecoveryOption.scores := scores;
       RecoveryOption.overallScore := 0 |} in
  let option := option <| RecoveryOption.overallScore := weightedScore scores |> in
  state <| Store.recoveryOptions := Store.recoveryOptions state ++ [OptBuilt option] |>.

Definition case_ORCHESTRATOR (event : WorkflowEvent.t) (state : Store.t) : Store.t :=
  let rp := Store.runProgress state in
  state
    <| Store.bottomDrawerTab := TabTimeline |>
    <| Store.bottomDrawerOpen := true |>
    <| Store.runProgress :=
         stamp event (reportedCurrentStep event |? "orchestrator_planning")
               (RunProgress.overallPct rp) rp |>.

Definition case_WORKFLOW_STATUS (event : WorkflowEvent.t) (state : Store.t) : Store.t :=
  let payload := WorkflowEvent.payload event in
  let executorId := payloadString payload "executor_id" "" in
  let workflowState := payloadString payload "workflowState" "" in
  let rp := Store.runProgress state in
  let entry := agentEntry executorId state in
  state
    <| Store.agents :=
         match entry with
         | Node agent =>
             <[ executorId := incrementAgentTrace agent (WorkflowEvent.ts event) ]>
               (Store.agents state)
         | _ => Store.agents state
         end |>
    <| Store.strayAgents :=
         match entry with
         | Stray stray =>
             <[ executorId := incrementStrayTrace stray (WorkflowEvent.ts event) ]>
               (Store.strayAgents state)
         | _ => Store.strayAgents state
         end |>
    <| Store.agentsProto :=
         match entry with
         | Absent => Store.agentsProto state
         | _ => None
         end |>
    <| Store.runProgress :=
         stamp event
               (reportedCurrentStep event |? workflowState
                |? payloadString payload "status" "workflow_status")
               (RunProgress.overallPct rp) rp |>.

Definition case_PROGRESS_UPDATE (event : WorkflowEvent.t) (state : Store.t) : Store.t :=
  let payload := WorkflowEvent.payload event in
  let rp := Store.runProgress state in
  state
    <| Store.runProgress :=
         (stamp event (reportedCurrentStep event |? RunProgress.currentStep rp)
                (RunProgress.overallPct rp) rp)
           <| RunProgress.agentsTotal :=
                payloadNumber payload "agentsTotal" (RunProgress.agentsTotal rp) |>
           <| RunProgress.agentsActivated :=
                payloadNumber payload "agentsActivated" (RunProgress.agentsActivated rp) |>
           <| RunProgress.agentsRunning :=
                payloadNumber payload "agentsRunning" (RunProgress.agentsRunning rp) |>
           <| RunProgress.agentsDone :=
                payloadNumber payload "agentsDone" (RunProgress.agentsDone rp) |>
           <| RunProgress.agentsErrored :=
                payloadNumber payload "agentsErrored" (RunProgress.agentsErrored rp) |> |>.

Definition case_RUN_STARTED (event : WorkflowEvent.t) (state : Store.t) : Store.t :=
  let rp := Store.runProgress state in
  state
    <| Store.runProgress :=
         (stamp event (reportedCurrentStep event |? "run_started")
                (Z.max (RunProgress.overallPct rp) 1) rp)
           <| RunProgress.status := RunRunning |> |>.

Definition case_RUN_COMPLETED (event : WorkflowEvent.t) (state : Store.t) : Store.t :=
  state
    <| Store.runProgress :=
         (Store.runProgress state)
           <| RunProgress.status := RunCompleted |>
           <| RunProgress.overallPct := 100 |>
           <| RunProgress.agentsRunning := 0 |>
           <| RunProgress.currentStep := "run_completed" |>
           <| RunProgress.lastEventKind := Some (WorkflowEvent.kind event) |>
           <| RunProgress.lastUpdateAt := Some (WorkflowEvent.ts event) |>
           <| RunProgress.isStale := false |> |>
    <| Store.noUpdateWarning := false |>.

Definition case_RUN_FAILED (event : WorkflowEvent.t) (state : Store.t) : Store.t :=
  state
    <| Store.runProgress :=
         (Store.runProgress state)
           <| RunProgress.status := RunFailed |>
           <| RunProgress.agentsRunning := 0 |>
           <| RunProgress.currentStep := "run_failed" |>
           <| RunProgress.lastEventKind := Some (WorkflowEvent.kind event) |>
           <| RunProgress.lastUpdateAt := Some (WorkflowEvent.ts event) |>
           <| RunProgress.isStale := false |> |>
    <| Store.noUpdateWarning := false |>.

(** The [switch] of [processAgentEvent]: the store after the call. A kind
    with no [case] leaves the store as it is, and so does a case whose
    updater throws. *)
Definition processAgentEvent (now : Z) (event : WorkflowEvent.t) (state : Store.t)
    : Store.t :=
  match classify (WorkflowEvent.kind event) with
  | Some AGENT_ACTIVATED => case_AGENT_ACTIVATED event state
  | Some AGENT_EXCLUDED => case_AGENT_EXCLUDED event state
  | Some SPAN_STARTED => case_SPAN_STARTED event state
  | Some AGENT_OBJECTIVE => case_AGENT_OBJECTIVE event state
  | Some AGENT_PROGRESS | Some AGENT_STREAMING => case_AGENT_PROGRESS event state
  | Some EXECUTOR_INVOKED => case_EXECUTOR_INVOKED event state
  | Some EXECUTOR_COMPLETED => case_EXECUTOR_COMPLETED event state
  | Some DATA_SOURCE_QUERY_START => case_DATA_SOURCE_QUERY_START event state
  | Some DATA_SOURCE_QUERY_COMPLETE => case_DATA_SOURCE_QUERY_COMPLETE now event state
  | Some TOOL_CALLED | Some TOOL_CALLED_LEGACY => case_TOOL_CALLED now event state
  | Some TOOL_COMPLETED | Some TOOL_COMPLETED_LEGACY => case_TOOL_FINISHED false event state
  | Some TOOL_FAILED | Some TOOL_FAILED_LEGACY => case_TOOL_FINISHED true event state
  | Some AGENT_EVIDENCE => case_AGENT_EVIDENCE now event state
  | Some AGENT_RECOMMENDATION => case_AGENT_RECOMMENDATION event state
  | Some SPAN_ENDED => case_SPAN_ENDED event state
  | Some AGENT_COMPLETED | Some AGENT_COMPLETED_LEGACY => case_AGENT_COMPLETED event state
  | Some HANDOVER => case_HANDOVER now event state
  | Some COORDINATOR_SCORING => case_COORDINATOR_SCORING event state
  | Some COORDINATOR_PLAN => case_COORDINATOR_PLAN event state
  | Some RECOVERY_OPTION => case_RECOVERY_OPTION event state
  | Some ORCHESTRATOR_PLAN | Some ORCHESTRATOR_DECISION => case_ORCHESTRATOR event state
  | Some WORKFLOW_STATUS => case_WORKFLOW_STATUS event state
  | Some PROGRESS_UPDATE => case_PROGRESS_UPDATE event state
  | Some RUN_STARTED => case_RUN_STARTED event state
  | Some RUN_COMPLETED => case_RUN_COMPLETED event state
  | Some RUN_FAILED => case_RUN_FAILED event state
  | Some STAGE_STARTED | Some STAGE_COMPLETED | Some STAGE_FAILED | Some HEARTBEAT
  | None => state
  end.

(** *** Actions that read the clock *)

(** The part of the JS [Date] object the store uses. [Date_parse s] is
    [None] when [Date.parse(s)] is [NaN]; [Date_toISOString ms] is
    [new Date(ms).toISOString()]. The definitions and theorems below
    hold for every such pair of functions. *)
Class DateApi : Type := {
  Date_parse : string -> option Z;
  Date_toISOString : Z -> string
}.

Section WithDate.
Context `{DateApi}.

(** The filter of [addEvent] that counts the events of the last minute. *)
Definition countsForRate (cutoffMs : Z) (e : WorkflowEvent.t) : bool :=
  match Date_parse (WorkflowEvent.ts e) with
  | Some t => (cutoffMs <=? t) && negb (isKind (WorkflowEvent.kind e) HEARTBEAT)
  | None => false
  end.

(** The [set] of [addEvent]: the log, the bookkeeping and the generic
    part of the run progress. *)
Definition recordEvent (now : Z) (event : WorkflowEvent.t) (state : Store.t) : Store.t :=
  let effectiveTs := WorkflowEvent.ts event |? Date_toISOString now in
  let recentEvents := slice_last MAX_STORED_EVENTS (Store.events state ++ [event]) in
  let cutoffMs := now - 60000 in
  let eventRatePerMin := Z.of_nat (length (List.filter (countsForRate cutoffMs) recentEvents)) in
  let payload := WorkflowEvent.payload event in
  let rp := Store.runProgress state in
  let runPct := payloadNumber payload "runProgressPct" (RunProgress.overallPct rp) in
  let kind := WorkflowEvent.kind event in
  let nextProgress :=
    rp <| RunProgress.overallPct := Z.max (RunProgress.overallPct rp) runPct |>
       <| RunProgress.status :=
            if isKind kind RUN_COMPLETED then RunCompleted
            else if isKind kind RUN_FAILED then RunFailed
            else if isKind kind RUN_STARTED then RunRunning
            else RunProgress.status rp |>
       <| RunProgress.currentStep := payloadString payload "currentStep" (RunProgress.currentStep rp) |>
       <| RunProgress.lastEventKind := Some kind |>
       <| RunProgress.lastUpdateAt := Some effectiveTs |>
       <| RunProgress.eventRatePerMin := eventRatePerMin |>
       <| RunProgress.isLive := Store.isConnected state |> in
  state
    <| Store.events := recentEvents |>
    <| Store.lastEventId :=
         Some (opt_or (WorkflowEvent.stream_id event) (WorkflowEvent.event_id event)) |>
    <| Store.lastMeaningfulEventAt :=
         if isMeaningfulEvent kind then Some effectiveTs
         else Store.lastMeaningfulEventAt state |>
    <| Store.eventRatePerMin := eventRatePerMin |>
    <| Store.runProgress := nextProgress |>.

(** [addEvent]: the store after the call. Where an updater of
    [processAgentEvent] throws, the call ends with that exception, which
    [handleSSEEvent] catches and logs, and the store is as the first two
    steps have left it. *)
Definition addEvent (now : Z) (event : WorkflowEvent.t) (state : Store.t) : Store.t :=
  processAgentEvent now event (updateRunFromEvent event (recordEvent now event state)).

Definition noteHeartbeat (now : Z) (ts : option string) (state : Store.t) : Store.t :=
  let heartbeatTs := opt_or ts (Date_toISOString now) in
  state
    <| Store.lastHeartbeatAt := Some heartbeatTs |>
    <| Store.runProgress :=
         (Store.runProgress state) <| RunProgress.lastHeartbeatAt := Some heartbeatTs |> |>.

(** [state.lastMeaningfulEventAt ? Date.parse(...) : 0]. *)
Definition lastMeaningfulMs (state : Store.t) : option Z :=
  match Store.lastMeaningfulEventAt state with
  | Some at_ => if truthy at_ then Date_parse at_ else Some 0
  | None => Some 0
  end.

(** [nowMs] is the argument of the call, [None] when it is left out and
    the clock [now] is read instead. *)
Definition evaluateStaleness (now : Z) (nowMs : option Z) (state : Store.t) : Store.t :=
  let now := nullish nowMs now in
  let stale :=
    Store.isConnected state
    && match lastMeaningfulMs state with
       | Some ms => (0 <? ms) && (20000 <? now - ms)
       | None => false
       end in
  state
    <| Store.noUpdateWarning := stale |>
    <| Store.runProgress := (Store.runProgress state) <| RunProgress.isStale := stale |> |>.

(** ** The stream connector ([hooks/use-sse.ts]) *)

(** The refs of the hook. *)
Record Connector : Type := {
  mounted : bool;
  lastSequence : Z;
  retries : Z;
  sourceOpen : bool;
  reconnecting : bool
}.

(** A message of the event source: [data] already through [JSON.parse],
    [None] when it throws. *)
Record MessageEvent : Type := {
  data : option WorkflowEvent.t;
  lastEventId : string
}.

Definition MAX_RECONNECT_ATTEMPTS : Z := 10.

Definition noteSequence (event : WorkflowEvent.t) (conn : Connector) : Connector :=
  match WorkflowEvent.sequence event with
  | Some seq =>
      if negb (seq =? 0) && (seq <=? lastSequence conn) then conn
      else if negb (seq =? 0) then
        {| mounted := mounted conn; lastSequence := seq; retries := retries conn;
           sourceOpen := sourceOpen conn; reconnecting := reconnecting conn |}
      else conn
  | None => conn
  end.

(** [handleSSEEvent]; the caller's [onEvent] callback is outside the model. *)
Definition handleSSEEvent (now : Z) (e : MessageEvent) (cs : Connector * Store.t)
    : Connector * Store.t :=
  let '(conn, state) := cs in
  if negb (mounted conn) then cs
  else
    match data e with
    | None => cs
    | Some parsed =>
        let streamId := opt_or (WorkflowEvent.stream_id parsed) (lastEventId e) in
        let event :=
          parsed <| WorkflowEvent.stream_id := if truthy streamId then Some streamId else None |> in
        let conn := noteSequence event conn in
        if isKind (WorkflowEvent.kind event) HEARTBEAT
        then (conn, noteHeartbeat now (Some (WorkflowEvent.ts event)) state)
        else
          let state := addEvent now event state in
          if isKind (WorkflowEvent.kind event) RUN_COMPLETED
             || isKind (WorkflowEvent.kind event) RUN_FAILED
          then ({| mounted := mounted conn; lastSequence := lastSequence conn;
                   retries := retries conn; sourceOpen := false;
                   reconnecting := reconnecting conn |},
                setConnected false state)
          else (conn, state)
    end.

End WithDate.

(** ** An instance of the date interface

    Time stamps in the form [toISOString] writes,
    [YYYY-MM-DDTHH:mm:ss.sssZ], with the proleptic Gregorian calendar.
    Strings in another form are not recognised here. *)
Module IsoDate.

Definition digit (c : ascii) : option Z :=
  let n := Z.of_N (N_of_ascii c) - 48 in
  if (0 <=? n) && (n <=? 9) then Some n else None.

Fixpoint number (acc : Z) (cs : list ascii) : option Z :=
  match cs with
  | [] => Some acc
  | c :: rest => d ← digit c; number (10 * acc + d) rest
  end.

Definition isLeap (y : Z) : bool :=
  ((y mod 4 =? 0) && negb (y mod 100 =? 0)) || (y mod 400 =? 0).

Definition daysInMonth (y m : Z) : Z :=
  if m =? 2 then (if isLeap y then 29 else 28)
  else if (m =? 4) || (m =? 6) || (m =? 9) || (m =? 11) then 30
  else 31.

(** Days from 1970-01-01 to the given civil date. *)
Definition daysFromCivil (y m d : Z) : Z :=
  let y' := if m <=? 2 then y - 1 else y in
  let era := y' / 400 in
  let yoe := y' - era * 400 in
  let doy := (153 * (if 2 <? m then m - 3 else m + 9) + 2) / 5 + d - 1 in
  let doe := yoe * 365 + yoe / 4 - yoe / 100 + doy in
  era * 146097 + doe - 719468.

(** The civil date of a day number. *)
Definition civilFromDays (z : Z) : Z * Z * Z :=
  let z := z + 719468 in
  let era := z / 146097 in
  let doe := z - era * 146097 in
  let yoe := (doe - doe / 1460 + doe / 36524 - doe / 146096) / 365 in
  let doy := doe - (365 * yoe + yoe / 4 - yoe / 100) in
  let mp := (5 * doy + 2) / 153 in
  let d := doy - (153 * mp + 2) / 5 + 1 in
  let m := if mp <? 10 then mp + 3 else mp - 9 in
  let y := yoe + era * 400 in
  ((if m <=? 2 then y + 1 else y), m, d).

Definition parse (s : string) : option Z :=
  match list_ascii_of_string s with
  | [y1; y2; y3; y4; "-"; m1; m2; "-"; d1; d2; "T"; h1; h2; ":"; n1; n2; ":";
     s1; s2; "."; f1; f2; f3; "Z"]%char =>
      y ← number 0 [y1; y2; y3; y4];
      m ← number 0 [m1; m2];
      d ← number 0 [d1; d2];
      h ← number 0 [h1; h2];
      n ← number 0 [n1; n2];
      sec ← number 0 [s1; s2];
      f ← number 0 [f1; f2; f3];
      if (1 <=? m) && (m <=? 12) && (1 <=? d) && (d <=? daysInMonth y m)
         && (h <=? 23) && (n <=? 59) && (sec <=? 59)
      then Some ((((daysFromCivil y m d * 24 + h) * 60 + n) * 60 + sec) * 1000 + f)
      else None
  | _ => None
  end.

(** [z] written with at least [width] digits. *)
Definition padded (width : nat) (z : Z) : string :=
  let s := pretty z in
  String.concat "" (replicate (width - String.length s) "0") +:+ s.

Definition toISOString (ms : Z) : string :=
  let days := ms / 86400000 in
  let rest := ms mod 86400000 in
  let '(y, m, d) := civilFromDays days in
  padded 4 y +:+ "-" +:+ padded 2 m +:+ "-" +:+ padded 2 d +:+ "T"
  +:+ padded 2 (rest / 3600000) +:+ ":" +:+ padded 2 (rest / 60000 mod 60) +:+ ":"
  +:+ padded 2 (rest / 1000 mod 60) +:+ "." +:+ padded 3 (rest mod 1000) +:+ "Z".

#[export] Instance api : DateApi :=
  {| Date_parse := parse; Date_toISOString := toISOString |}.

End IsoDate.

(** ** Inputs and runs used in the statements *)

(** An envelope with the given kind, time stamp and payload. *)
Definition envelope (kind ts : string) (payload : list (string * JValue))
    : WorkflowEvent.t :=
  {| WorkflowEvent.event_id := "evt";
     WorkflowEvent.run_id := "run";
     WorkflowEvent.stream_id := None;
     WorkflowEvent.ts := ts;
     WorkflowEvent.sequence := None;
     WorkflowEvent.level := LInfo;
     WorkflowEvent.kind := kind;
     WorkflowEvent.stage_id := None;
     WorkflowEvent.stage_name := None;
     WorkflowEvent.agent_name := None;
     WorkflowEvent.executor_name := None;
     WorkflowEvent.tool_name := None;
     WorkflowEvent.message := "";
     WorkflowEvent.payload := list_to_map payload;
     WorkflowEvent.actor := None;
     WorkflowEvent.trace_id := None;
     WorkflowEvent.span_id := None;
     WorkflowEvent.parent_span_id := None;
     WorkflowEvent.duration_ms := None |}.

(** A roster entry with the given id and inclusion flag. *)
Definition rosterEntry (id : string) (included : bool) : AgentInfo.t :=
  {| AgentInfo.id := id; AgentInfo.name := id; AgentInfo.icon := "";
     AgentInfo.color := ""; AgentInfo.dataSources := [];
     AgentInfo.included := included; AgentInfo.reason := "" |}.

(** The actions of the store, and the states a sequence of them reaches
    from the state the store is created with. *)
Inductive Action : Type :=
| SetCurrentRunId (runId : option string)
| SetCurrentRun (run : option RunMetadata.t)
| UpdateRunFromEvent (event : WorkflowEvent.t)
| AddEvent (now : Z) (event : WorkflowEvent.t)
| ClearEvents
| SetConnected (connected : bool)
| NoteHeartbeat (now : Z) (ts : option string)
| EvaluateStaleness (now : Z) (nowMs : option Z)
| InitializeAgents (agentInfos : list AgentInfo.t) (scenario : string)
| SetSelectedAgent (agentId : option string)
| ProcessAgentEvent (now : Z) (event : WorkflowEvent.t)
| SetSidebarCollapsed (collapsed : bool)
| SetBottomDrawerTab (tab : DrawerTab)
| SetBottomDrawerOpen (open : bool).

Definition step `{DateApi} (a : Action) (state : Store.t) : Store.t :=
  match a with
  | SetCurrentRunId runId => setCurrentRunId runId state
  | SetCurrentRun run => setCurrentRun run state
  | UpdateRunFromEvent event => updateRunFromEvent event state
  | AddEvent now event => addEvent now event state
  | ClearEvents => clearEvents state
  | SetConnected connected => setConnected connected state
  | NoteHeartbeat now ts => noteHeartbeat now ts state
  | EvaluateStaleness now nowMs => evaluateStaleness now nowMs state
  | InitializeAgents agentInfos scenario => initializeAgents agentInfos scenario state
  | SetSelectedAgent agentId => setSelectedAgent agentId state
  | ProcessAgentEvent now event => processAgentEvent now event state
  | SetSidebarCollapsed collapsed => setSidebarCollapsed collapsed state
  | SetBottomDrawerTab tab => setBottomDrawerTab tab state
  | SetBottomDrawerOpen open => setBottomDrawerOpen open state
  end.

Inductive reachable `{DateApi} : Store.t -> Prop :=
| reachable_init : reachable initialStore
| reachable_step (a : Action) (state : Store.t) :
    reachable state -> reachable (step a state).

(** The run of a list of envelopes through [addEvent], all at time [now]. *)
Definition addEvents `{DateApi} (now : Z) (events : list WorkflowEvent.t)
    (state : Store.t) : Store.t :=
  foldl (fun st e => addEvent now e st) state events.

(** The invariant of the staleness flag. *)
Definition staleOnlyConnected (s : Store.t) : Prop :=
  RunProgress.isStale (Store.runProgress s) = true -> Store.isConnected s = true.

(** The inputs of the scenario: a roster of two agents and four envelopes
    of agent A. *)
Definition rosterAB : list AgentInfo.t := [rosterEntry "A" true; rosterEntry "B" false].

Definition activatedA : WorkflowEvent.t :=
  envelope "agent.activated" "2024-03-01T12:30:00.000Z" [("agentId", JStr "A")].
Definition queryStartA : WorkflowEvent.t :=
  envelope "data_source.query_start" "2024-03-01T12:30:01.000Z"
    [("agentId", JStr "A"); ("sourceType", JStr "SQL")].
Definition queryCompleteA (latencyMs : Z) : WorkflowEvent.t :=
  envelope "data_source.query_complete" "2024-03-01T12:30:02.000Z"
    [("agentId", JStr "A"); ("sourceType", JStr "SQL");
     ("latencyMs", JNum latencyMs); ("resultCount", JNum 7)].
Definition spanEndedA : WorkflowEvent.t :=
  envelope "span.ended" "2024-03-01T12:30:03.000Z"
    [("agentId", JStr "A"); ("success", JBool true)].

(** Envelopes used as concrete inputs. *)
Definition progressUpdate (pct : Z) : WorkflowEvent.t :=
  envelope "progress_update" "2024-03-01T12:30:00.000Z" [("runProgressPct", JNum pct)].
Definition unknownKindEvent : WorkflowEvent.t :=
  envelope "custom.note" "2024-03-01T12:30:00.000Z" [].
Definition spanStartedX : WorkflowEvent.t :=
  envelope "span.started" "2024-03-01T12:30:00.000Z" [("agentId", JStr "X")].
Definition activatedX : WorkflowEvent.t :=
  envelope "agent.activated" "2024-03-01T12:30:00.000Z" [("agentId", JStr "X")].

(** Envelopes and a roster that name properties every object inherits. *)
Definition spanStartedConstructor : WorkflowEvent.t :=
  envelope "span.started" "2024-03-01T12:30:00.000Z" [("agentId", JStr "constructor")].
Definition activatedConstructor : WorkflowEvent.t :=
  envelope "agent.activated" "2024-03-01T12:30:00.000Z" [("agentId", JStr "constructor")].
Definition handoverFromConstructor : WorkflowEvent.t :=
  envelope "handover" "2024-03-01T12:30:00.000Z"
    [("fromAgent", JStr "constructor"); ("toAgent", JStr "B")].
Definition queryStartConstructor : WorkflowEvent.t :=
  envelope "data_source.query_start" "2024-03-01T12:30:01.000Z"
    [("agentId", JStr "A"); ("sourceType", JStr "constructor")].
Definition queryCompleteConstructor : WorkflowEvent.t :=
  envelope "data_source.query_complete" "2024-03-01T12:30:02.000Z"
    [("agentId", JStr "A"); ("sourceType", JStr "constructor"); ("latencyMs", JNum 5)].
Definition queryCompleteByConstructor : WorkflowEvent.t :=
  envelope "data_source.query_complete" "2024-03-01T12:30:02.000Z"
    [("agentId", JStr "constructor"); ("sourceType", JStr "SQL"); ("latencyMs", JNum 5)].
Definition spanStartedProto : WorkflowEvent.t :=
  envelope "span.started" "2024-03-01T12:30:00.000Z" [("agentId", JStr "__proto__")].
Definition spanStartedName : WorkflowEvent.t :=
  envelope "span.started" "2024-03-01T12:30:00.000Z" [("agentId", JStr "name")].
Definition rosterProto : list AgentInfo.t :=
  [rosterEntry "__proto__" true; rosterEntry "A" true].

(** The kinds of the agent life cycle other than activation. *)
Definition lifecycleKinds : list string :=
  [ "span.started"; "span.ended"; "executor.invoked"; "executor.completed";
    "data_source.query_start"; "data_source.query_complete" ].

(** Inputs of the staleness examples: a connected store that admitted an
    envelope stamped 12:30:00, and envelopes stamped later, earlier, and
    before 1970. The clock reads 1709296200000 at 12:30:00. *)
Definition stampedUpdate (ts : string) : WorkflowEvent.t :=
  envelope "progress_update" ts [].
Definition connectedAtNoon : Store.t :=
  addEvent (H:=IsoDate.api) 1709296200000 (stampedUpdate "2024-03-01T12:30:00.000Z")
    (setConnected true initialStore).
Definition connectedBeforeEpoch : Store.t :=
  addEvent (H:=IsoDate.api) 1709296200000 (stampedUpdate "1969-07-20T20:17:00.000Z")
    (setConnected true initialStore).

(** Inputs of the remaining examples: the store after the four envelopes
    of the scenario, a heartbeat message, and a mounted connector. *)
Definition scenarioDone : Store.t :=
  addEvent (H:=IsoDate.api) 1709296203000 spanEndedA
    (addEvent (H:=IsoDate.api) 1709296202000 (queryCompleteA 120)
       (addEvent (H:=IsoDate.api) 1709296201000 queryStartA
          (addEvent (H:=IsoDate.api) 1709296200000 activatedA
             (initializeAgents rosterAB "scenario" initialStore)))).
Definition heartbeatEvent : WorkflowEvent.t :=
  envelope "heartbeat" "2024-03-01T12:30:10.000Z" [].
Definition heartbeatMessage : MessageEvent :=
  {| data := Some heartbeatEvent; lastEventId := "" |}.
Definition mountedConnector : Connector :=
  {| mounted := true; lastSequence := 0; retries := 0; sourceOpen := true;
     reconnecting := false |}.

(** ** The rest of the store, of the connector, and their readers *)

(** *** Computed selectors of the store *)
Definition getStageByName (name : string) (state : Store.t) : option Stage.t :=
  run ← Store.currentRun state;
  List.find (fun s => String.eqb (Stage.stage_name s) name) (RunMetadata.stages run).

(** *** The life cycle of the connection ([hooks/use-sse.ts]) *)

(** [Math.min(1000 * 2 ** (attempt - 1), 30000)], for [attempt >= 1]. *)
Definition reconnectDelay (attempt : Z) : Z :=
  Z.min (1000 * 2 ^ (attempt - 1)) 30000.

(** [eventSource.onopen]. *)
Definition onopen (cs : Connector * Store.t) : Connector * Store.t :=
  let '(conn, state) := cs in
  if negb (mounted conn) then cs
  else ({| mounted := mounted conn; lastSequence := lastSequence conn; retries := 0;
           sourceOpen := sourceOpen conn; reconnecting := false |},
        setConnected true state).

(** [eventSource.onerror]; [enabled] is the prop of the hook. The third
    component is the delay of the reconnect timer that is set, [None]
    when none is set. The caller's [onError] callback is outside the
    model. *)
Definition onerror (enabled : bool) (cs : Connector * Store.t)
    : Connector * Store.t * option Z :=
  let '(conn, state) := cs in
  let closed (retries : Z) (reconnecting : bool) :=
    {| mounted := mounted conn; lastSequence := lastSequence conn; retries := retries;
       sourceOpen := false; reconnecting := reconnecting |} in
  if negb (mounted conn) then (closed (retries conn) (reconnecting conn), state, None)
  else
    let state := setConnected false state in
    if enabled && (retries conn <? MAX_RECONNECT_ATTEMPTS) then
      (closed (retries conn + 1) true, state, Some (reconnectDelay (retries conn + 1)))
    else if MAX_RECONNECT_ATTEMPTS <=? retries conn then
      (closed (retries conn) false, state, None)
    else (closed (retries conn) (reconnecting conn), state, None).

(** [disconnect]: the source is closed, the timers are cleared. *)
Definition disconnect (cs : Connector * Store.t) : Connector * Store.t :=
  let '(conn, state) := cs in
  ({| mounted := mounted conn; lastSequence := lastSequence conn; retries := 0;
      sourceOpen := false; reconnecting := false |},
   setConnected false state).

(** The URL [connect] opens, [None] when it returns without connecting;
    the cursor is the [lastEventId] of the store. *)
Definition connectUrl (enabled : bool) (runId : string) (cs : Connector * Store.t)
    : option string :=
  let '(conn, state) := cs in
  if negb enabled || negb (truthy runId) || negb (mounted conn) then None
  else
    let url := "/api/av/runs/" +:+ runId +:+ "/events" in
    Some (if truthy (nullish (Store.lastEventId state) "")
          then url +:+ "?since=" +:+ nullish (Store.lastEventId state) ""
          else url).

(** *** Readers of the event log ([components/av]) *)

(** [laneForEvent] of the timeline. *)
Definition laneForEvent (event : WorkflowEvent.t) : string :=
  let payload := WorkflowEvent.payload event in
  payloadString payload "agentName" ""
  |? payloadString payload "agentId" ""
  |? payloadString payload "executor_name" ""
  |? payloadString payload "executor_id" ""
  |? opt_or (WorkflowEvent.agent_name event)
       (opt_or (WorkflowEvent.executor_name event) "Orchestrator").

(** [belongsToAgent] of the agent panel; [x === y] with [x] possibly
    [undefined] is false then. *)
Definition belongsToAgent (event : WorkflowEvent.t) (agentId agentName : string) : bool :=
  let payload := WorkflowEvent.payload event in
  String.eqb (payloadString payload "agentId" "") agentId
  || String.eqb (payloadString payload "agentName" "") agentName
  || String.eqb (payloadString payload "executor_id" "") agentId
  || String.eqb (payloadString payload "executor_name" "") agentName
  || bool_decide (WorkflowEvent.agent_name event = Some agentName)
  || bool_decide (WorkflowEvent.executor_name event = Some agentName).

Inductive TimelineFilter : Type :=
| FilterAll | FilterLifecycle | FilterDatastore | FilterTools | FilterErrors
| FilterCompletions.

Definition isLevelError (l : Level) : bool :=
  match l with LError => true | _ => false end.

(** [shouldInclude] of the timeline. *)
Definition shouldInclude (event : WorkflowEvent.t) (filter : TimelineFilter) : bool :=
  let kind := WorkflowEvent.kind event in
  let has := isKind kind in
  match filter with
  | FilterAll => true
  | FilterLifecycle =>
      has RUN_STARTED || has RUN_COMPLETED || has RUN_FAILED || has STAGE_STARTED
      || has STAGE_COMPLETED || has SPAN_STARTED || has SPAN_ENDED || has EXECUTOR_INVOKED
      || has EXECUTOR_COMPLETED || has AGENT_COMPLETED || has AGENT_COMPLETED_LEGACY
  | FilterDatastore =>
      has DATA_SOURCE_QUERY_START || has DATA_SOURCE_QUERY_COMPLETE || has AGENT_EVIDENCE
  | FilterTools =>
      has TOOL_CALLED || has TOOL_COMPLETED || has TOOL_FAILED || has TOOL_CALLED_LEGACY
      || has TOOL_COMPLETED_LEGACY || has TOOL_FAILED_LEGACY
  | FilterErrors =>
      isLevelError (WorkflowEvent.level event) || has RUN_FAILED || has STAGE_FAILED
      || has TOOL_FAILED || has TOOL_FAILED_LEGACY
  | FilterCompletions =>
      includes kind "completed" || has SPAN_ENDED || has RUN_COMPLETED
  end.

(** ** Relations and invariants used in the statements *)

(** What one event may do to an agent already in the registry: the fields
    given at creation stay, traces are only counted up, evidence is only
    appended. *)
Definition agentStep (a a' : AgentNode.t) : Prop :=
  AgentNode.id a' = AgentNode.id a
  /\ AgentNode.name a' = AgentNode.name a
  /\ AgentNode.included a' = AgentNode.included a
  /\ AgentNode.category a' = AgentNode.category a
  /\ AgentNode.dataSources a' = AgentNode.dataSources a
  /\ nullish (AgentNode.traceCount a) 0 <= nullish (AgentNode.traceCount a') 0
  /\ AgentNode.evidence a `prefix_of` AgentNode.evidence a'.

(** The statistics of a data source are those of a count of queries. *)
Definition sourceWellFormed (key : string) (ds : DataSourceActivity.t) : Prop :=
  DataSourceActivity.id ds = key
  /\ 0 <= DataSourceActivity.queryCount ds
  /\ (length (DataSourceActivity.sparkline ds) <= 20)%nat
  /\ Z.of_nat (length (DataSourceActivity.sparkline ds)) <= DataSourceActivity.queryCount ds.

(** The data sources are the eight the store starts with, each well
    formed; what else the registry object holds sits under a name it
    inherits from [Object.prototype]. *)
Definition registryWellFormed (state : Store.t) : Prop :=
  dom (Store.dataSources state) = dom createDefaultDataSources
  /\ (forall key ds, Store.dataSources state !! key = Some ds -> sourceWellFormed key ds)
  /\ (forall key stray,
        Store.strayDataSources state !! key = Some stray -> inherited key = true).

(** The id lists hold no id twice. *)
Definition idListsNoDup (state : Store.t) : Prop :=
  NoDup (Store.activeAgentIds state)
  /\ NoDup (Store.completedAgentIds state)
  /\ NoDup (Store.failedAgentIds state).

(** The log is within its capacity and the rate counts entries of it. *)
Definition logWithinCapacity (state : Store.t) : Prop :=
  (length (Store.events state) <= MAX_STORED_EVENTS)%nat
  /\ 0 <= Store.eventRatePerMin state <= Z.of_nat (length (Store.events state))
  /\ 0 <= RunProgress.eventRatePerMin (Store.runProgress state)
     <= Z.of_nat MAX_STORED_EVENTS.

(** The warning flags are up only while connected, and the staleness flag
    only with the warning. *)
Definition warningFlagsOrdered (state : Store.t) : Prop :=
  (RunProgress.isStale (Store.runProgress state) = true -> Store.noUpdateWarning state = true)
  /\ (Store.noUpdateWarning state = true -> Store.isConnected state = true).

(** A run of messages through the connector, all at time [now]. *)
Definition handleAll `{DateApi} (now : Z) (msgs : list MessageEvent)
    (cs : Connector * Store.t) : Connector * Store.t :=
  foldl (fun cs msg => handleSSEEvent now msg cs) cs msgs.

(** A message that carries a heartbeat. *)
Definition isHeartbeatMessage (msg : MessageEvent) : Prop :=
  exists event, data msg = Some event /\ WorkflowEvent.kind event = "heartbeat".

(** The kinds whose case counts a trace for the agent the envelope names. *)
Definition tracedKinds : list string :=
  [ "agent.activated"; "agent.excluded"; "span.started"; "agent.objective";
    "agent.progress"; "agent.streaming"; "executor.invoked"; "executor.completed";
    "data_source.query_start"; "data_source.query_complete";
    "tool.called"; "tool_called"; "tool.completed"; "tool_completed";
    "tool.failed"; "tool_failed"; "agent.evidence"; "agent.recommendation";
    "span.ended"; "agent.completed"; "agent_completed" ].

(** The kinds that finish a tool call, and those of them that report a
    failure. *)
Definition toolFinishKinds : list string :=
  [ "tool.completed"; "tool_completed"; "tool.failed"; "tool_failed" ].
Definition toolFailureKinds : list string := [ "tool.failed"; "tool_failed" ].

(** A tool call as a finishing envelope leaves it. *)
Definition finishedCall (failed : bool) (event : WorkflowEvent.t) (tc : AgentToolCall.t)
    : AgentToolCall.t :=
  let payload := WorkflowEvent.payload event in
  tc <| AgentToolCall.status := if failed then ToolError else ToolDone |>
     <| AgentToolCall.endedAt := Some (WorkflowEvent.ts event) |>
     <| AgentToolCall.latencyMs :=
          Some (payloadNumber payload "latencyMs" (nullish (AgentToolCall.latencyMs tc) 0)) |>
     <| AgentToolCall.resultCount :=
          Some (payloadNumber payload "resultCount" (nullish (AgentToolCall.resultCount tc) 0)) |>
     <| AgentToolCall.error :=
          if failed then Some (payloadString payload "error" (WorkflowEvent.message event))
          else None |>.

(** A running call of the tool the envelope names. *)
Definition runningCallOf (event : WorkflowEvent.t) (tc : AgentToolCall.t) : bool :=
  String.eqb (AgentToolCall.toolName tc) (toolNameOf event) && isRunning tc.

(** Tool envelopes of agent A used as concrete inputs. *)
Definition toolCalledA : WorkflowEvent.t :=
  envelope "tool.called" "2024-03-01T12:30:05.000Z"
    [("agentId", JStr "A"); ("toolName", JStr "search")].
Definition toolCompletedA : WorkflowEvent.t :=
  envelope "tool.completed" "2024-03-01T12:30:06.000Z"
    [("agentId", JStr "A"); ("toolName", JStr "search"); ("latencyMs", JNum 40)].

(** The option a [recovery.option] envelope describes. *)
Definition optionOf (event : WorkflowEvent.t) : RecoveryOption.t :=
  let payload := WorkflowEvent.payload event in
  let scores := parseRecoveryScores (payload !! "scores") in
  {| RecoveryOption.optionId := payloadString payload "optionId" "";
     RecoveryOption.description := payloadString payload "description" "";
     RecoveryOption.rank := payloadNumber payload "rank" 0;
     RecoveryOption.scores := scores;
     RecoveryOption.overallScore := weightedScore scores |}.

(** All five scores lie between [lo] and [hi]. *)
Definition scoresWithin (lo hi : Z) (scores : Scores.t) : Prop :=
  lo <= Scores.delay_reduction scores <= hi
  /\ lo <= Scores.crew_margin scores <= hi
  /\ lo <= Scores.safety_score scores <= hi
  /\ lo <= Scores.cost_impact scores <= hi
  /\ lo <= Scores.passenger_impact scores <= hi.

(** Recovery envelopes used as concrete inputs. *)
Definition scoresJson (d c s k p : Z) : JValue :=
  JObj (list_to_map [("delay_reduction", JNum d); ("crew_margin", JNum c);
                     ("safety_score", JNum s); ("cost_impact", JNum k);
                     ("passenger_impact", JNum p)]).
Definition recoveryOption1 : WorkflowEvent.t :=
  envelope "recovery.option" "2024-03-01T12:30:07.000Z"
    [("optionId", JStr "opt-1"); ("rank", JNum 2); ("scores", scoresJson 80 60 90 50 70)].
Definition recoveryOption2 : WorkflowEvent.t :=
  envelope "recovery.option" "2024-03-01T12:30:08.000Z"
    [("optionId", JStr "opt-2"); ("rank", JNum 1); ("scores", scoresJson 40 60 90 50 70)].
Definition coordinatorPlan : WorkflowEvent.t :=
  envelope "coordinator.plan" "2024-03-01T12:30:09.000Z"
    [("selectedOptionId", JStr "opt-2"); ("summary", JStr "swap aircraft")].
Definition handoverAB : WorkflowEvent.t :=
  envelope "handover" "2024-03-01T12:30:09.000Z"
    [("fromAgent", JStr "A"); ("toAgent", JStr "B")].

(** A run record of two pending stages, and the completion of the first. *)
Definition pendingStage (id : string) (order : Z) : Stage.t :=
  {| Stage.stage_id := id; Stage.stage_name := id; Stage.stage_order := order;
     Stage.status := StagePending; Stage.started_at := None; Stage.completed_at := None;
     Stage.duration_ms := None; Stage.progress_pct := 0; Stage.artifacts := [];
     Stage.error_message := None |}.
Definition twoStageRun : RunMetadata.t :=
  {| RunMetadata.run_id := "run-1"; RunMetadata.status := RunRunning;
     RunMetadata.problem_description := ""; RunMetadata.created_at := "";
     RunMetadata.started_at := None; RunMetadata.completed_at := None;
     RunMetadata.duration_ms := None; RunMetadata.current_stage := None;
     RunMetadata.stages_completed := 0; RunMetadata.total_stages := 2;
     RunMetadata.progress_pct := Some 0%Q;
     RunMetadata.stages := [pendingStage "plan" 1; pendingStage "solve" 2];
     RunMetadata.error_message := None; RunMetadata.error_stage := None;
     RunMetadata.event_count := 0 |}.
Definition planStageCompleted : WorkflowEvent.t :=
  {| WorkflowEvent.event_id := "evt";
     WorkflowEvent.run_id := "run-1";
     WorkflowEvent.stream_id := None;
     WorkflowEvent.ts := "2024-03-01T12:30:09.000Z";
     WorkflowEvent.sequence := None;
     WorkflowEvent.level := LInfo;
     WorkflowEvent.kind := "stage_completed";
     WorkflowEvent.stage_id := Some "plan";
     WorkflowEvent.stage_name := Some "plan";
     WorkflowEvent.agent_name := None;
     WorkflowEvent.executor_name := None;
     WorkflowEvent.tool_name := None;
     WorkflowEvent.message := "";
     WorkflowEvent.payload := ∅;
     WorkflowEvent.actor := None;
     WorkflowEvent.trace_id := None;
     WorkflowEvent.span_id := None;
     WorkflowEvent.parent_span_id := None;
     WorkflowEvent.duration_ms := Some 1200 |}.


(** * Properties *)

(** ** Sanity checks of the embedding *)

Example iso_parse_epoch : IsoDate.parse "1970-01-01T00:00:20.001Z" = Some 20001.
Proof. reflexivity. Qed.

Example iso_parse_2024 : IsoDate.parse "2024-03-01T12:30:00.000Z" = Some 1709296200000.
Proof. vm_compute. reflexivity. Qed.

Example iso_print_2024 : IsoDate.toISOString 1709296200000 = "2024-03-01T12:30:00.000Z".
Proof. vm_compute. reflexivity. Qed.

Example iso_parse_other : IsoDate.parse "yesterday" = None.
Proof. reflexivity. Qed.

Lemma kindNames_NoDup : NoDup kindNames.
Proof. apply (bool_decide_unpack _). vm_compute. reflexivity. Qed.

Lemma classify_Some (k : string) (c : EventKind) :
  classify k = Some c -> (c, k) ∈ EventKinds.
Proof.
  unfold classify. induction EventKinds as [|[c' n] t IH]; simpl; [done|].
  destruct (String.eqb_spec k n) as [->|Hne].
  - intros [= ->]. left.
  - intros Hc. right. auto.
Qed.


Lemma isKind_name (k : string) (c : EventKind) (n : string) :
  (c, n) ∈ EventKinds -> isKind k c = true <-> k = n.
Proof.
  intros Hin. unfold isKind. split.
  - destruct (classify k) as [c'|] eqn:Hc; [|done].
    intros Hd. apply bool_decide_eq_true in Hd. subst c'.
    apply classify_Some in Hc.
    revert Hin Hc. clear. revert k n c.
    assert (Hall : Forall (fun p => Forall (fun q => p.1 = q.1 -> p.2 = q.2) EventKinds) EventKinds).
    { apply (bool_decide_unpack _). vm_compute. reflexivity. }
    intros k n c Hin Hc. rewrite Forall_forall in Hall.
    specialize (Hall _ Hc). rewrite Forall_forall in Hall.
    specialize (Hall _ Hin). simpl in Hall. auto.
  - intros ->. revert Hin. 
    assert (Hall : Forall (fun p => classify p.2 = Some p.1) EventKinds).
    { apply (bool_decide_unpack _). vm_compute. reflexivity. }
    rewrite Forall_forall in Hall. intros Hin. specialize (Hall _ Hin). simpl in Hall. rewrite Hall.
    by apply bool_decide_eq_true.
Qed.

Lemma isKind_heartbeat (k : string) : isKind k HEARTBEAT = true <-> k = "heartbeat".
Proof. apply isKind_name. apply (bool_decide_unpack _). vm_compute. reflexivity. Qed.

(** ** Names that every object inherits

    The registries at the names of [Object.prototype], traced in the
    source: a guard [agentId && get().agents[agentId]] passes for
    ["constructor"], and the case then builds an entry from a function. *)

(** [span.started] naming ["constructor"], on the empty registry: an
    entry is added under that key. It has the fields the case writes and
    no [id], [name] or [evidence]. *)
Example span_started_constructor :
  let s' := addEvent (H:=IsoDate.api) 1709296200000 spanStartedConstructor initialStore in
  Store.agents s' = ∅
  /\ (StrayAgent.traceCount <$> Store.strayAgents s' !! "constructor") = Some (Some 1)
  /\ (StrayAgent.status <$> Store.strayAgents s' !! "constructor") = Some (Some Thinking)
  /\ Store.activeAgentIds s' = ["constructor"].
Proof. vm_compute. by repeat split. Qed.

(** [agent.activated] naming ["constructor"]: the defaults are not used. *)
Example activated_constructor :
  let s' := addEvent (H:=IsoDate.api) 1709296200000 activatedConstructor initialStore in
  Store.agents s' !! "constructor" = None
  /\ (StrayAgent.status <$> Store.strayAgents s' !! "constructor") = Some (Some Activated)
  /\ (StrayAgent.startedAt <$> Store.strayAgents s' !! "constructor")
     = Some (Some "2024-03-01T12:30:00.000Z").
Proof. vm_compute. by repeat split. Qed.

(** A handover from ["constructor"] adds an entry under that key. *)
Example handover_from_constructor :
  let s' := addEvent (H:=IsoDate.api) 1709296209000 handoverFromConstructor scenarioDone in
  (StrayAgent.traceCount <$> Store.strayAgents s' !! "constructor") = Some (Some 1)
  /\ (StrayAgent.status <$> Store.strayAgents s' !! "constructor") = Some None
  /\ (AgentNode.traceCount <$> Store.agents s' !! "B") = Some (Some 1).
Proof. vm_compute. by repeat split. Qed.

(** [data_source.query_start] with the source type ["constructor"] and a
    known agent adds a ninth entry to the data source registry. *)
Example query_start_constructor :
  let s' := addEvent (H:=IsoDate.api) 1709296204000 queryStartConstructor scenarioDone in
  Store.strayDataSources s' !! "constructor"
  = Some {| StraySource.isActive := Some true;
            StraySource.lastAgentId := Some "A";
            StraySource.lastQuerySummary := Some "Querying constructor...";
            StraySource.provider := None |}
  /\ Store.dataSources s' = Store.dataSources scenarioDone.
Proof. vm_compute. by repeat split. Qed.

(** [data_source.query_complete] with the source type ["constructor"]:
    [ds.sparkline.slice] throws, and the known agent gets no trace. *)
Example query_complete_constructor_source :
  let s' := addEvent (H:=IsoDate.api) 1709296204000 queryCompleteConstructor scenarioDone in
  (AgentNode.traceCount <$> Store.agents scenarioDone !! "A") = Some (Some 4)
  /\ (AgentNode.traceCount <$> Store.agents s' !! "A") = Some (Some 4)
  /\ Store.strayDataSources s' = ∅.
Proof. vm_compute. by repeat split. Qed.

(** [data_source.query_complete] on SQL by the agent ["constructor"]:
    [...agent.evidence] throws, and the query is not counted. *)
Example query_complete_constructor_agent :
  let s' := addEvent (H:=IsoDate.api) 1709296200000 queryCompleteByConstructor initialStore in
  (DataSourceActivity.queryCount <$> Store.dataSources s' !! "SQL") = Some 0
  /\ Store.strayAgents s' = ∅.
Proof. vm_compute. by repeat split. Qed.

(** A roster entry with the id ["__proto__"] becomes the prototype of the
    registry object and is no entry of it. The registry gives it under
    ["__proto__"], and gives its fields under their names: a guard passes
    for the agent id ["name"]. The first case that rebuilds the registry
    drops the prototype. *)
Example roster_with_proto :
  let s1 := initializeAgents rosterProto "scenario" initialStore in
  let s2 := addEvent (H:=IsoDate.api) 1709296200000 spanStartedName s1 in
  let s3 := addEvent (H:=IsoDate.api) 1709296200000 spanStartedProto s1 in
  dom (Store.agents s1) = {[ "A" ]}
  /\ (AgentNode.id <$> Store.agentsProto s1) = Some "__proto__"
  /\ (AgentNode.id <$> nodeOf (agentsAt "__proto__" s1)) = Some "__proto__"
  /\ (StrayAgent.traceCount <$> Store.strayAgents s2 !! "name") = Some (Some 1)
  /\ Store.agentsProto s2 = None
  /\ agentsAt "__proto__" s2 = Stray StrayAgent.blank
  /\ (AgentNode.traceCount <$> Store.agents s3 !! "__proto__") = Some (Some 1).
Proof. vm_compute. by repeat split. Qed.

(** ** Doubles *)

Lemma nearestEven_one n : nearestEven n 1 = n.
Proof.
  unfold nearestEven. rewrite Z.div_1_r, Z.mod_1_r. reflexivity.
Qed.

Lemma nearestEven_floor n d : 0 < d -> n / d <= nearestEven n d.
Proof.
  intros Hd. unfold nearestEven.
  repeat match goal with |- context [if ?b then _ else _] => destruct b end; lia.
Qed.

Lemma exponentOf_int n : 0 < n -> exponentOf n 1 = Z.log2 n.
Proof.
  intros Hn. unfold exponentOf. change (Z.log2 1) with 0. rewrite Z.sub_0_r.
  pose proof (Z.log2_nonneg n) as Hk.
  destruct (Z.leb_spec 0 (Z.log2 n)) as [_|]; [|lia].
  destruct (Z.log2_spec n Hn) as [Hlo _].
  destruct (Z.leb_spec (1 * 2 ^ Z.log2 n) n) as [_|]; [reflexivity | lia].
Qed.

(** An integer below [2^53] in magnitude is a double. *)
Lemma double_int z : Z.abs z < 2 ^ 53 -> (double (inject_Z z) == inject_Z z)%Q.
Proof.
  intros Hz. unfold double. cbn [Qnum Qden inject_Z].
  destruct (Z.eqb_spec (Z.abs z) 0) as [H0|H0].
  { assert (z = 0) as -> by lia. reflexivity. }
  assert (Hn : 0 < Z.abs z) by lia.
  rewrite (exponentOf_int _ Hn).
  destruct (Z.log2_spec _ Hn) as [Hlo Hhi].
  assert (Hk : Z.log2 (Z.abs z) <= 52).
  { destruct (Z.le_gt_cases (Z.log2 (Z.abs z)) 52) as [|Hgt]; [done|].
    assert (2 ^ 53 <= 2 ^ Z.log2 (Z.abs z)) by (apply Z.pow_le_mono_r; lia). lia. }
  pose proof (Z.log2_nonneg (Z.abs z)) as Hk0.
  rewrite Z.max_l by lia.
  destruct (Z.leb_spec 0 (Z.log2 (Z.abs z) - 52)) as [He|He].
  - assert (Z.log2 (Z.abs z) - 52 = 0) as -> by lia.
    replace (1 * 2 ^ 0) with 1 by reflexivity. rewrite nearestEven_one.
    replace (Z.sgn z * Z.abs z * 2 ^ 0) with z; [reflexivity|].
    rewrite (Z.mul_comm (Z.sgn z)), Z.abs_sgn. change (2 ^ 0) with 1. lia.
  - rewrite nearestEven_one.
    unfold Qeq. cbn [Qnum Qden inject_Z].
    assert (Hp : 0 < 2 ^ (- (Z.log2 (Z.abs z) - 52))) by (apply Z.pow_pos_nonneg; lia).
    rewrite Z2Pos.id by done.
    rewrite Z.mul_1_r, Z.mul_assoc, (Z.mul_comm (Z.sgn z)), Z.abs_sgn. reflexivity.
Qed.

(** An integer from [2^53] on is rounded to one from [2^53] on. *)
Lemma double_int_large z : 2 ^ 53 <= z -> 2 ^ 53 <= Qfloor (double (inject_Z z)).
Proof.
  intros Hz. unfold double. cbn [Qnum Qden inject_Z].
  assert (Hn : 0 < z) by lia.
  rewrite (Z.abs_eq z) by lia. rewrite (Z.sgn_pos z Hn).
  destruct (Z.eqb_spec z 0) as [|_]; [lia|].
  rewrite (exponentOf_int _ Hn).
  destruct (Z.log2_spec _ Hn) as [Hlo Hhi].
  assert (Hk : 53 <= Z.log2 z).
  { destruct (Z.le_gt_cases 53 (Z.log2 z)) as [|Hlt]; [done|].
    assert (2 ^ (Z.log2 z + 1) <= 2 ^ 53) by (apply Z.pow_le_mono_r; lia). lia. }
  rewrite Z.max_l by lia.
  destruct (Z.leb_spec 0 (Z.log2 z - 52)) as [_|]; [|lia].
  rewrite Qfloor_Z, !Z.mul_1_l.
  set (e := Z.log2 z - 52).
  assert (He : 1 <= e) by (unfold e; lia).
  assert (Hpe : 0 < 2 ^ e) by (apply Z.pow_pos_nonneg; lia).
  assert (Hsplit : 2 ^ Z.log2 z = 2 ^ 52 * 2 ^ e).
  { replace (Z.log2 z) with (52 + e) by (unfold e; lia). apply Z.pow_add_r; lia. }
  assert (Hm : 2 ^ 52 <= nearestEven z (2 ^ e)).
  { etrans; [|apply nearestEven_floor; done].
    apply Z.div_le_lower_bound; [done|]. lia. }
  assert (H2 : 2 <= 2 ^ e).
  { change 2 with (2 ^ 1) at 1. apply Z.pow_le_mono_r; lia. }
  change (2 ^ 53) with (2 ^ 52 * 2). nia.
Qed.

Lemma js_add_exact a b : Z.abs (a + b) < 2 ^ 53 -> js_add a b = a + b.
Proof. intros Hs. unfold js_add. by rewrite (double_int _ Hs), Qfloor_Z. Qed.

Lemma js_mul_exact a b : Z.abs (a * b) < 2 ^ 53 -> js_mul a b = a * b.
Proof. intros Hs. unfold js_mul. by rewrite (double_int _ Hs), Qfloor_Z. Qed.

(** The rounded sum reaches every bound from 0 to [2^53] that the sum
    reaches. *)
Lemma js_add_lower a b bound :
  0 <= bound <= 2 ^ 53 -> bound <= a + b -> bound <= js_add a b.
Proof.
  intros [Hb0 Hb] Hs.
  destruct (Z.lt_ge_cases (Z.abs (a + b)) (2 ^ 53)) as [Hlt|Hge].
  - by rewrite js_add_exact.
  - unfold js_add. etrans; [exact Hb|]. apply double_int_large. lia.
Qed.

Example double_tenth : (double (1 # 10) == 3602879701896397 # 36028797018963968)%Q.
Proof. vm_compute. reflexivity. Qed.

Example double_sum_past_2_53 : js_add 9007199254740991 2 = 9007199254740992.
Proof. vm_compute. reflexivity. Qed.

Lemma pow2_pos e : 0 <= e -> 0 < 2 ^ e.
Proof. intros. by apply Z.pow_pos_nonneg. Qed.

Lemma pow2_split a b : 0 <= a -> 0 <= b -> 2 ^ (a + b) = 2 ^ a * 2 ^ b.
Proof. intros. by apply Z.pow_add_r. Qed.

(** [exponentOf n d] is the exponent of the power of two at or below
    [n / d]. *)
Lemma exponentOf_spec n d :
  0 < n -> 0 < d ->
  let f := exponentOf n d in
  (0 <= f -> d * 2 ^ f <= n < d * 2 ^ (f + 1))
  /\ (f < 0 -> d <= n * 2 ^ (- f) < 2 * d).
Proof.
  intros Hn Hd. cbv zeta. unfold exponentOf.
  destruct (Z.log2_spec n Hn) as [Hn1 Hn2]. destruct (Z.log2_spec d Hd) as [Hd1 Hd2].
  pose proof (Z.log2_nonneg n) as Ha. pose proof (Z.log2_nonneg d) as Hb.
  set (a := Z.log2 n) in *. set (b := Z.log2 d) in *.
  rewrite <- Z.add_1_r in Hn2, Hd2.
  assert (Ha1 : 2 ^ (a + 1) = 2 * 2 ^ a) by (rewrite pow2_split by lia; lia).
  assert (Hb1 : 2 ^ (b + 1) = 2 * 2 ^ b) by (rewrite pow2_split by lia; lia).
  pose proof (pow2_pos a Ha) as Hpa. pose proof (pow2_pos b Hb) as Hpb.
  destruct (Z.leb_spec 0 (a - b)) as [Hk|Hk].
  - (* a = b + k *)
    assert (Hab : 2 ^ a = 2 ^ b * 2 ^ (a - b)).
    { rewrite <- pow2_split by lia. f_equal. lia. }
    pose proof (pow2_pos (a - b) Hk) as Hpk.
    destruct (Z.leb_spec (d * 2 ^ (a - b)) n) as [Ht|Ht].
    + split; [|lia]. intros _. split; [done|].
      rewrite pow2_split by lia. change (2 ^ 1) with 2. nia.
    + destruct (Z.eq_dec (a - b) 0) as [H0|H0].
      * rewrite H0 in *. change (2 ^ 0) with 1 in *. split; [lia|]. intros _.
        change (- (0 - 1)) with 1. change (2 ^ 1) with 2. nia.
      * split; [|lia]. intros _.
        replace (a - b - 1 + 1) with (a - b) by lia. split; [|done].
        assert (Hk1 : 2 ^ (a - b) = 2 * 2 ^ (a - b - 1)).
        { replace (a - b) with (1 + (a - b - 1)) at 1 by lia.
          rewrite pow2_split by lia. reflexivity. }
        pose proof (pow2_pos (a - b - 1) ltac:(lia)). nia.
  - assert (Hba : 2 ^ b = 2 ^ a * 2 ^ (- (a - b))).
    { rewrite <- pow2_split by lia. f_equal. lia. }
    pose proof (pow2_pos (- (a - b)) ltac:(lia)) as Hpk.
    destruct (Z.leb_spec d (n * 2 ^ (- (a - b)))) as [Ht|Ht].
    + split; [lia|]. intros _. split; [done|]. nia.
    + split; [lia|]. intros _.
      replace (- (a - b - 1)) with (1 + - (a - b)) by lia.
      rewrite pow2_split by lia. change (2 ^ 1) with 2. nia.
Qed.

(** [nearestEven n d] is within one half of [n / d]. *)
Lemma nearestEven_spec n d :
  0 < d -> - d <= 2 * (nearestEven n d * d - n) <= d.
Proof.
  intros Hd. unfold nearestEven.
  pose proof (Z.div_mod n d ltac:(lia)) as Hdm.
  pose proof (Z.mod_pos_bound n d Hd) as Hr.
  repeat match goal with |- context [if ?b then _ else _] => destruct b eqn:? end;
    rewrite ?Z.ltb_lt, ?Z.ltb_ge in *; nia.
Qed.

(** The relative error of rounding a positive rational in the normal
    range is at most [2^-53]. *)
Lemma double_error q :
  (0 < q)%Q ->
  -1022 <= exponentOf (Qnum q) (Z.pos (Qden q)) ->
  (q * (1 - roundoff) <= double q /\ double q <= q * (1 + roundoff))%Q.
Proof.
  destruct q as [n d]. unfold Qlt. cbn [Qnum Qden]. rewrite Z.mul_1_r. change (0 * _) with 0.
  intros Hn Hf. unfold double. cbn [Qnum Qden].
  rewrite (Z.abs_eq n) by lia. rewrite (Z.sgn_pos n Hn).
  destruct (Z.eqb_spec n 0) as [|_]; [lia|].
  destruct (exponentOf_spec n (Z.pos d) Hn ltac:(lia)) as [Hpos Hneg].
  set (f := exponentOf n (Z.pos d)) in *.
  rewrite Z.max_l by lia. rewrite !Z.mul_1_l.
  assert (H52 : 2 ^ 52 = 4503599627370496) by reflexivity.
  destruct (Z.leb_spec 0 (f - 52)) as [He|He].
  - set (e := f - 52) in *.
    pose proof (pow2_pos e He) as Hpe.
    assert (Hfe : 2 ^ f = 2 ^ 52 * 2 ^ e).
    { rewrite <- pow2_split by lia. f_equal. unfold e. lia. }
    destruct (Hpos ltac:(lia)) as [Hlo _].
    pose proof (nearestEven_spec n (Z.pos d * 2 ^ e) ltac:(nia)) as Hm.
    set (m := nearestEven n (Z.pos d * 2 ^ e)) in *.
    unfold Qle, roundoff. cbn. rewrite ?Pos2Z.inj_mul. cbn.
    set (D := Z.pos d) in *. set (P := 2 ^ e) in *.
    rewrite Hfe, H52 in Hlo.
    split; nia.
  - set (e := f - 52) in *.
    pose proof (pow2_pos (- e) ltac:(lia)) as Hpe.
    assert (Hlo : Z.pos d * 2 ^ 52 <= n * 2 ^ (- e)).
    { destruct (Z.le_gt_cases 0 f) as [Hf0|Hf0].
      - destruct (Hpos Hf0) as [Hlo _].
        assert (H := pow2_split f (- e) Hf0 ltac:(lia)).
        replace (f + - e) with 52 in H by (unfold e; lia).
        pose proof (pow2_pos f Hf0). nia.
      - destruct (Hneg Hf0) as [Hlo _].
        assert (H := pow2_split (- f) 52 ltac:(lia) ltac:(lia)).
        replace (- f + 52) with (- e) in H by (unfold e; lia).
        rewrite H. nia. }
    pose proof (nearestEven_spec (n * 2 ^ (- e)) (Z.pos d) ltac:(lia)) as Hm.
    set (m := nearestEven (n * 2 ^ (- e)) (Z.pos d)) in *.
    unfold Qle, roundoff. cbn. rewrite ?Pos2Z.inj_mul, Z2Pos.id by done. cbn.
    set (D := Z.pos d) in *. set (P := 2 ^ (- e)) in *.
    rewrite H52 in Hlo.
    split; nia.
Qed.

Lemma exponentOf_sized n d :
  0 < n -> 0 < d -> d <= n * 2 ^ 100 -> -1022 <= exponentOf n d.
Proof.
  intros Hn Hd Hle.
  destruct (exponentOf_spec n d Hn Hd) as [_ Hneg].
  destruct (Z.le_gt_cases (-1022) (exponentOf n d)) as [|Hlt]; [done|exfalso].
  destruct (Hneg ltac:(lia)) as [_ Hhi].
  assert (H := pow2_split 102 (- exponentOf n d - 102) ltac:(lia) ltac:(lia)).
  replace (102 + (- exponentOf n d - 102)) with (- exponentOf n d) in H by lia.
  pose proof (pow2_pos (- exponentOf n d - 102) ltac:(lia)).
  assert (2 ^ 102 = 4 * 2 ^ 100) by reflexivity.
  pose proof (pow2_pos 100 ltac:(lia)). nia.
Qed.

(** Rounding a number that is zero or at least [2^-100]: the relative
    error is at most [2^-53], and the result is zero or at least half
    the bound. *)
Lemma double_sized t q :
  (1 # 2 ^ 100 <= t)%Q -> sized t q ->
  (q * (1 - roundoff) <= double q /\ double q <= q * (1 + roundoff))%Q
  /\ sized (t * (1 # 2)) (double q).
Proof.
  intros Ht [H0|Hq].
  - assert (Hz : double q = 0%Q).
    { unfold double. destruct q as [n d]. unfold Qeq in H0. cbn in *.
      assert (n = 0) as -> by lia. reflexivity. }
    rewrite Hz. split; [rewrite H0; split; vm_compute; discriminate | by left].
  - assert (Hpos : (0 < q)%Q).
    { eapply Qlt_le_trans; [|exact Hq]. eapply Qlt_le_trans; [|exact Ht]. reflexivity. }
    assert (Hexp : -1022 <= exponentOf (Qnum q) (Z.pos (Qden q))).
    { assert (Hq' : (1 # 2 ^ 100 <= q)%Q) by (eapply Qle_trans; done).
      destruct q as [n d]. unfold Qle, Qlt in *. cbn in *.
      apply exponentOf_sized; lia. }
    destruct (double_error q Hpos Hexp) as [Hlo Hhi].
    split; [done|]. right. unfold roundoff in Hlo. lra.
Qed.

Lemma sized_sum t a b :
  (0 <= a)%Q -> (0 <= b)%Q -> sized t a -> sized t b -> sized t (a + b).
Proof. unfold sized. intros Ha Hb [Ha0|Hat] [Hb0|Hbt]; [left|right..]; lra. Qed.

Lemma sized_product t (score : Z) (c : Q) :
  0 <= score -> (t <= c)%Q -> (0 <= t)%Q -> sized t (inject_Z score * c).
Proof.
  intros Hs Hc Ht. destruct (Z.eq_dec score 0) as [->|Hne].
  - left. ring.
  - right. assert (H1 : (1 <= inject_Z score)%Q) by (change 1%Q with (inject_Z 1); rewrite <- Zle_Qle; lia).
    nra.
Qed.

Lemma sized_weaken t t' q : (t' <= t)%Q -> sized t q -> sized t' q.
Proof. unfold sized. intros Ht [H0|Hq]; [by left | right; lra]. Qed.

(** ** What the reducer leaves alone *)

Ltac unfold_cases :=
  unfold case_AGENT_ACTIVATED, case_AGENT_EXCLUDED, case_SPAN_STARTED,
    case_AGENT_OBJECTIVE, case_AGENT_PROGRESS, case_EXECUTOR_INVOKED,
    case_EXECUTOR_COMPLETED, case_DATA_SOURCE_QUERY_START,
    case_DATA_SOURCE_QUERY_COMPLETE, case_TOOL_CALLED, case_TOOL_FINISHED,
    case_AGENT_EVIDENCE, case_AGENT_RECOMMENDATION, case_SPAN_ENDED,
    case_AGENT_COMPLETED, case_HANDOVER, case_COORDINATOR_SCORING,
    case_COORDINATOR_PLAN, case_RECOVERY_OPTION, case_ORCHESTRATOR,
    case_WORKFLOW_STATUS, case_PROGRESS_UPDATE, case_RUN_STARTED,
    case_RUN_COMPLETED, case_RUN_FAILED in *.

(** Closes a goal about fields a case does not write, whatever its guard. *)
Ltac frame_case e s :=
  first
    [ by repeat split
    | by destruct (agentEntry (agentIdOf e) s); repeat split
    | by destruct (negb (truthy (agentIdOf e))); [|destruct (agentsAt (agentIdOf e) s)];
         repeat split
    | by match goal with
         | |- context [if ?b && ?c then _ else _] => destruct (b && c); repeat split
         end
    | by match goal with
         | |- context [if ?b || ?c then _ else _] => destruct (b || c); repeat split
         end ].

Lemma processAgentEvent_frame now e s :
  let s' := processAgentEvent now e s in
  Store.events s' = Store.events s
  /\ Store.isConnected s' = Store.isConnected s
  /\ Store.lastMeaningfulEventAt s' = Store.lastMeaningfulEventAt s
  /\ Store.lastHeartbeatAt s' = Store.lastHeartbeatAt s
  /\ Store.lastEventId s' = Store.lastEventId s
  /\ Store.currentRun s' = Store.currentRun s
  /\ RunProgress.lastHeartbeatAt (Store.runProgress s')
     = RunProgress.lastHeartbeatAt (Store.runProgress s).
Proof.
  unfold processAgentEvent.
  destruct (classify (WorkflowEvent.kind e)) as [[]|]; cbn; unfold_cases;
    frame_case e s.
Qed.

(** The reducer never raises the staleness flag. *)
Lemma processAgentEvent_isStale now e s :
  RunProgress.isStale (Store.runProgress (processAgentEvent now e s)) = true ->
  RunProgress.isStale (Store.runProgress s) = true.
Proof.
  unfold processAgentEvent.
  destruct (classify (WorkflowEvent.kind e)) as [[]|]; cbn; unfold_cases;
    first
      [ done
      | by destruct (agentEntry (agentIdOf e) s)
      | by destruct (negb (truthy (agentIdOf e))); [|destruct (agentsAt (agentIdOf e) s)]
      | by match goal with
           | |- context [if ?b && ?c then _ else _] => destruct (b && c)
           end
      | by match goal with
           | |- context [if ?b || ?c then _ else _] => destruct (b || c)
           end ].
Qed.

Lemma updateRunFromEvent_frame e s :
  let s' := updateRunFromEvent e s in
  Store.events s' = Store.events s
  /\ Store.isConnected s' = Store.isConnected s
  /\ Store.lastMeaningfulEventAt s' = Store.lastMeaningfulEventAt s
  /\ Store.lastHeartbeatAt s' = Store.lastHeartbeatAt s
  /\ Store.lastEventId s' = Store.lastEventId s
  /\ Store.runProgress s' = Store.runProgress s
  /\ Store.agents s' = Store.agents s
  /\ Store.dataSources s' = Store.dataSources s
  /\ Store.recoveryPlan s' = Store.recoveryPlan s
  /\ Store.recoveryOptions s' = Store.recoveryOptions s
  /\ Store.activeAgentIds s' = Store.activeAgentIds s
  /\ Store.completedAgentIds s' = Store.completedAgentIds s
  /\ Store.failedAgentIds s' = Store.failedAgentIds s
  /\ Store.strayAgents s' = Store.strayAgents s
  /\ Store.agentsProto s' = Store.agentsProto s
  /\ Store.strayDataSources s' = Store.strayDataSources s.
Proof. unfold updateRunFromEvent. by destruct (Store.currentRun s). Qed.

(** ** The bounded event log *)

Lemma slice_last_length {A : Type} (n : nat) (l : list A) :
  (length (slice_last n l) <= n)%nat.
Proof. unfold slice_last. rewrite length_drop. lia. Qed.

Lemma slice_last_suffix {A : Type} (n : nat) (l : list A) :
  l = take (length l - n) l ++ slice_last n l.
Proof. unfold slice_last. by rewrite take_drop. Qed.

Lemma slice_last_fits {A : Type} (n : nat) (l : list A) :
  (length l <= n)%nat -> slice_last n l = l.
Proof.
  intros Hle. unfold slice_last.
  replace (length l - n)%nat with O by lia. reflexivity.
Qed.

Lemma slice_last_snoc {A : Type} (n : nat) (l : list A) (x : A) :
  last (slice_last (S n) (l ++ [x])) = Some x.
Proof.
  unfold slice_last. rewrite length_app. simpl.
  rewrite drop_app_le by lia. apply last_snoc.
Qed.

Section Log.
Context `{DateApi}.

Lemma addEvent_events now e s :
  Store.events (addEvent now e s)
  = slice_last MAX_STORED_EVENTS (Store.events s ++ [e]).
Proof.
  unfold addEvent.
  destruct (processAgentEvent_frame now e (updateRunFromEvent e (recordEvent now e s)))
    as [-> _].
  destruct (updateRunFromEvent_frame e (recordEvent now e s)) as [-> _].
  reflexivity.
Qed.

(** C9. After an envelope is admitted the log holds at most
    [MAX_STORED_EVENTS] = 1500 envelopes; what it holds is the end of the
    old log followed by the envelope, so the envelopes that are missing are
    the oldest ones, and exactly as many as exceed the capacity; the
    admitted envelope is the newest entry. *)
Theorem event_log_bounded now e s :
  let log := Store.events (addEvent now e s) in
  MAX_STORED_EVENTS = 1500%nat
  /\ (length log <= MAX_STORED_EVENTS)%nat
  /\ last log = Some e
  /\ exists evicted,
       Store.events s ++ [e] = evicted ++ log
       /\ length evicted = (length (Store.events s ++ [e]) - MAX_STORED_EVENTS)%nat.
Proof.
  cbn zeta. rewrite addEvent_events. split; [reflexivity|].
  split; [apply slice_last_length|].
  split; [apply slice_last_snoc|].
  exists (take (length (Store.events s ++ [e]) - MAX_STORED_EVENTS) (Store.events s ++ [e])).
  split; [apply slice_last_suffix|].
  rewrite length_take. lia.
Qed.

End Log.

(** ** Heartbeats *)

Section Heartbeat.
Context `{DateApi}.


End Heartbeat.

(** ** Staleness is only flagged while connected *)

Section StaleConnected.
Context `{DateApi}.

Lemma addEvent_isConnected now e s :
  Store.isConnected (addEvent now e s) = Store.isConnected s.
Proof.
  unfold addEvent.
  destruct (processAgentEvent_frame now e (updateRunFromEvent e (recordEvent now e s)))
    as (_ & -> & _).
  by destruct (updateRunFromEvent_frame e (recordEvent now e s)) as (_ & -> & _).
Qed.

Lemma addEvent_isStale now e s :
  RunProgress.isStale (Store.runProgress (addEvent now e s)) = true ->
  RunProgress.isStale (Store.runProgress s) = true.
Proof.
  unfold addEvent. intros Hs. apply processAgentEvent_isStale in Hs.
  destruct (updateRunFromEvent_frame e (recordEvent now e s)) as (_ & _ & _ & _ & _ & Hrp & _).
  by rewrite Hrp in Hs.
Qed.

Lemma processAgentEvent_terminal now e s :
  WorkflowEvent.kind e = "run_completed" \/ WorkflowEvent.kind e = "run_failed" ->
  RunProgress.isStale (Store.runProgress (processAgentEvent now e s)) = false.
Proof.
  unfold processAgentEvent. by intros [-> | ->].
Qed.

Lemma step_staleOnlyConnected a s :
  staleOnlyConnected s -> staleOnlyConnected (step a s).
Proof.
  unfold staleOnlyConnected. intros Hinv.
  destruct a; simpl step; try exact Hinv.
  - unfold setCurrentRunId. destruct (truthy _); [exact Hinv | done].
  - destruct (updateRunFromEvent_frame event s) as (_ & -> & _ & _ & _ & -> & _).
    exact Hinv.
  - rewrite addEvent_isConnected. intros Hs. by apply Hinv, (addEvent_isStale now event).
  - done.
  - destruct connected; [intros _; reflexivity | done].
  - unfold evaluateStaleness. simpl. by intros [? _]%andb_true_iff.
  - destruct (processAgentEvent_frame now event s) as (_ & -> & _).
    intros Hs. by apply Hinv, (processAgentEvent_isStale now event).
Qed.

Lemma reachable_staleOnlyConnected s : reachable s -> staleOnlyConnected s.
Proof.
  induction 1 as [|a s _ IH]; [done|]. by apply step_staleOnlyConnected.
Qed.

(** C10. In every state a sequence of store actions reaches from the
    initial state, [isStale] implies [isConnected]. Disconnecting,
    clearing the events, and admitting a [run_completed] or [run_failed]
    envelope each leave [isStale] false, and after any action a store
    that is disconnected is not stale. *)
Theorem stale_implies_connected s :
  reachable s ->
  (RunProgress.isStale (Store.runProgress s) = true -> Store.isConnected s = true)
  /\ RunProgress.isStale (Store.runProgress (setConnected false s)) = false
  /\ RunProgress.isStale (Store.runProgress (clearEvents s)) = false
  /\ (forall now e,
        WorkflowEvent.kind e = "run_completed" \/ WorkflowEvent.kind e = "run_failed" ->
        RunProgress.isStale (Store.runProgress (addEvent now e s)) = false)
  /\ (forall a,
        Store.isConnected (step a s) = false ->
        RunProgress.isStale (Store.runProgress (step a s)) = false).
Proof.
  intros Hr. split; [by apply reachable_staleOnlyConnected|].
  split; [done|]. split; [done|]. split.
  - intros now e Hk. unfold addEvent. by apply processAgentEvent_terminal.
  - intros a Hd.
    pose proof (step_staleOnlyConnected a s (reachable_staleOnlyConnected s Hr)) as Hinv.
    unfold staleOnlyConnected in Hinv.
    destruct (RunProgress.isStale (Store.runProgress (step a s))); [|done].
    rewrite Hinv in Hd; done.
Qed.

End StaleConnected.

(** ** The roster scenario *)

Section Scenario.
Context `{DateApi}.

(** C2. From the store initialised with the roster [A (included),
    B (excluded)], admitting [agent.activated(A)],
    [data_source.query_start(A, SQL)], [data_source.query_complete(A, SQL,
    latencyMs = 120, resultCount = 7)] and [span.ended(A, success)] in
    this order, at any times, gives: A is done with one evidence entry,
    SQL has [queryCount] 1 and [avgLatencyMs] 120, and B is excluded. *)
Theorem roster_scenario (t1 t2 t3 t4 : Z) :
  let s0 := initializeAgents rosterAB "scenario" initialStore in
  let s :=
    addEvent t4 spanEndedA
      (addEvent t3 (queryCompleteA 120)
         (addEvent t2 queryStartA (addEvent t1 activatedA s0))) in
  AgentNode.status <$> Store.agents s !! "A" = Some Done
  /\ (fun a => length (AgentNode.evidence a)) <$> Store.agents s !! "A" = Some 1%nat
  /\ DataSourceActivity.queryCount <$> Store.dataSources s !! "SQL" = Some 1
  /\ DataSourceActivity.avgLatencyMs <$> Store.dataSources s !! "SQL" = Some 120
  /\ AgentNode.status <$> Store.agents s !! "B" = Some Excluded.
Proof.
  vm_compute. repeat split; reflexivity.
Qed.

End Scenario.

(** ** Run progress *)

Section Progress.
Context `{DateApi}.

(** The [set] of [addEvent] keeps the greater of the stored and the
    reported percentage. *)
Lemma recordEvent_overallPct_floor now e s :
  RunProgress.overallPct (Store.runProgress s)
  <= RunProgress.overallPct (Store.runProgress (recordEvent now e s)).
Proof. cbn. lia. Qed.

(** The [progress_update] case then writes the reported percentage as it
    is, whenever it is not negative. *)
Lemma progress_update_overwrites now e s :
  WorkflowEvent.kind e = "progress_update" ->
  0 <= reportedRunPct e ->
  RunProgress.overallPct (Store.runProgress (addEvent now e s)) = reportedRunPct e.
Proof.
  intros Hk Hp. unfold addEvent, processAgentEvent. rewrite Hk.
  change (classify "progress_update") with (Some PROGRESS_UPDATE).
  cbn. destruct (Z.leb_spec 0 (reportedRunPct e)); [done | lia].
Qed.

(** C1, evaluated: after a [progress_update] reporting 50 the stored
    percentage is 50, and after a further one reporting 30 it is 30: the
    observed value has gone down without a reset. *)
Theorem overallPct_goes_down (t1 t2 : Z) :
  let s1 := addEvent t1 (progressUpdate 50) initialStore in
  let s2 := addEvent t2 (progressUpdate 30) s1 in
  RunProgress.overallPct (Store.runProgress s1) = 50
  /\ RunProgress.overallPct (Store.runProgress s2) = 30.
Proof. vm_compute. split; reflexivity. Qed.

End Progress.

(** ** Unknown kinds *)

Section UnknownKind.
Context `{DateApi}.



End UnknownKind.



(** ** Events that name an agent the registry lacks *)

Lemma agentsAt_frame id s s' :
  Store.agents s' = Store.agents s ->
  Store.strayAgents s' = Store.strayAgents s ->
  Store.agentsProto s' = Store.agentsProto s ->
  agentsAt id s' = agentsAt id s.
Proof. unfold agentsAt. by intros -> -> ->. Qed.

Lemma dataSourcesAt_frame key s s' :
  Store.dataSources s' = Store.dataSources s ->
  Store.strayDataSources s' = Store.strayDataSources s ->
  dataSourcesAt key s' = dataSourcesAt key s.
Proof. unfold dataSourcesAt. by intros -> ->. Qed.

Lemma knownAgent_entry id s agent :
  knownAgent id s = Some agent -> agentEntry id s = Node agent.
Proof.
  unfold knownAgent, agentEntry, agentsAt. destruct (truthy id); [|done].
  by intros ->.
Qed.

(** An id that is neither an own entry nor a name the object inherits. *)
Lemma agentsAt_plain id s :
  Store.agents s !! id = None ->
  Store.strayAgents s !! id = None ->
  Store.agentsProto s = None ->
  inherited id = false ->
  agentsAt id s = Absent.
Proof. unfold agentsAt. by intros -> -> -> ->. Qed.

Lemma agentsAt_Absent id s :
  agentsAt id s = Absent ->
  Store.agents s !! id = None /\ Store.strayAgents s !! id = None.
Proof.
  unfold agentsAt. destruct (Store.agents s !! id); [done|].
  by destruct (Store.strayAgents s !! id).
Qed.

Lemma agentsAt_own id s agent :
  Store.agents s !! id = Some agent -> agentsAt id s = Node agent.
Proof. unfold agentsAt. by intros ->. Qed.

(** What [state.agents["__proto__"]] is when a roster entry is the
    prototype of the registry object. *)
Lemma agentsAt_proto s proto :
  Store.agents s !! "__proto__" = None ->
  Store.strayAgents s !! "__proto__" = None ->
  Store.agentsProto s = Some proto ->
  agentsAt "__proto__" s = Node proto.
Proof. unfold agentsAt. by intros -> -> ->. Qed.

Lemma agentsAt_Node id s agent :
  agentsAt id s = Node agent ->
  Store.agents s !! id = Some agent \/ Store.agents s !! id = None.
Proof.
  unfold agentsAt. destruct (Store.agents s !! id); [intros [= ->]; by left | by right].
Qed.

Lemma agentEntry_Node id s agent :
  agentEntry id s = Node agent ->
  Store.agents s !! id = Some agent \/ Store.agents s !! id = None.
Proof. unfold agentEntry. destruct (truthy id); [apply agentsAt_Node | done]. Qed.

Section UnknownAgent.
Context `{DateApi}.

Lemma recordEvent_agents now e s : Store.agents (recordEvent now e s) = Store.agents s.
Proof. reflexivity. Qed.

Lemma knownAgent_None id s : Store.agents s !! id = None -> knownAgent id s = None.
Proof. unfold knownAgent. intros ->. by destruct (truthy id). Qed.

Lemma knownAgent_updateRun id e s :
  knownAgent id (updateRunFromEvent e s) = knownAgent id s.
Proof.
  unfold knownAgent.
  by destruct (updateRunFromEvent_frame e s) as (_ & _ & _ & _ & _ & _ & -> & _).
Qed.

(** The registries as [processAgentEvent] finds them in [addEvent]. *)
Lemma agentsAt_recorded now e s id :
  agentsAt id (updateRunFromEvent e (recordEvent now e s)) = agentsAt id s.
Proof.
  destruct (updateRunFromEvent_frame e (recordEvent now e s))
    as (_ & _ & _ & _ & _ & _ & Hag & _ & _ & _ & _ & _ & _ & Hst & Hpr & _).
  transitivity (agentsAt id (recordEvent now e s)); [|reflexivity].
  by apply agentsAt_frame.
Qed.

Lemma agentEntry_recorded now e s id :
  agentEntry id (updateRunFromEvent e (recordEvent now e s)) = agentEntry id s.
Proof. unfold agentEntry. by rewrite agentsAt_recorded. Qed.

Lemma dataSourcesAt_recorded now e s key :
  dataSourcesAt key (updateRunFromEvent e (recordEvent now e s)) = dataSourcesAt key s.
Proof.
  destruct (updateRunFromEvent_frame e (recordEvent now e s))
    as (_ & _ & _ & _ & _ & _ & _ & Hds & _ & _ & _ & _ & _ & _ & _ & Hst).
  transitivity (dataSourcesAt key (recordEvent now e s)); [|reflexivity].
  by apply dataSourcesAt_frame.
Qed.

(** C4, as amended. Take a life-cycle event that names an agent id under
    which the registry object has nothing: no own entry, and no property
    it inherits under that name. If the event is [agent.activated] and the
    id is not empty, the agent is created: the new entry is [lazyAgent]
    with one trace counted, in status [activated], started at the time of
    the event, and the other entries are as before. If it is
    [span.started], [span.ended], [executor.invoked],
    [executor.completed], [data_source.query_start] or
    [data_source.query_complete], the registry is left as it is, and for
    the first five of these kinds the event routing changes nothing at
    all: the store is as the bookkeeping of [addEvent] leaves it. *)
Theorem only_activation_creates_agent now e s :
  agentsAt (agentIdOf e) s = Absent ->
  let s' := addEvent now e s in
  (WorkflowEvent.kind e = "agent.activated" ->
   agentIdOf e <> "" ->
   Store.agents s'
   = <[ agentIdOf e :=
          (incrementAgentTrace (lazyAgent e) (WorkflowEvent.ts e))
            <| AgentNode.status := Activated |>
            <| AgentNode.startedAt := Some (WorkflowEvent.ts e) |>
            <| AgentNode.lastAction := Some "activated" |> ]> (Store.agents s)
   /\ Store.strayAgents s' = Store.strayAgents s)
  /\ (WorkflowEvent.kind e ∈ lifecycleKinds ->
      Store.agents s' = Store.agents s
      /\ Store.strayAgents s' = Store.strayAgents s
      /\ (WorkflowEvent.kind e <> "data_source.query_complete" ->
          s' = updateRunFromEvent e (recordEvent now e s))).
Proof.
  intros Hnone. cbn zeta. unfold addEvent, processAgentEvent.
  set (s0 := updateRunFromEvent e (recordEvent now e s)).
  assert (Hat : agentsAt (agentIdOf e) s0 = Absent)
    by (unfold s0; by rewrite agentsAt_recorded).
  assert (Hentry : agentEntry (agentIdOf e) s0 = Absent)
    by (unfold agentEntry; rewrite Hat; by destruct (truthy _)).
  destruct (updateRunFromEvent_frame e (recordEvent now e s))
    as (_ & _ & _ & _ & _ & _ & Hag & _ & _ & _ & _ & _ & _ & Hst & _).
  fold s0 in Hag, Hst.
  change (Store.agents (recordEvent now e s)) with (Store.agents s) in Hag.
  change (Store.strayAgents (recordEvent now e s)) with (Store.strayAgents s) in Hst.
  split.
  - intros -> Hid.
    change (classify "agent.activated") with (Some AGENT_ACTIVATED). cbv iota beta.
    unfold case_AGENT_ACTIVATED.
    assert (truthy (agentIdOf e) = true) as ->.
    { unfold truthy. by destruct (String.eqb_spec (agentIdOf e) ""). }
    cbn [negb]. cbv iota. rewrite Hat. cbv zeta.
    cbn [Store.agents Store.strayAgents upd Store.set_agents Store.set_agentsProto
         Store.set_runProgress Store.set_activeAgentIds nodeOf nullish mbind option_bind
         opt_or].
    split; [by rewrite Hag | exact Hst].
  - intros Hk.
    unfold lifecycleKinds in Hk. rewrite !elem_of_cons in Hk.
    destruct Hk as [-> | [-> | [-> | [-> | [-> | [-> | Hk]]]]]];
      [..|by apply elem_of_nil in Hk].
    + change (classify "span.started") with (Some SPAN_STARTED). cbv iota beta.
      unfold case_SPAN_STARTED. by rewrite Hentry.
    + change (classify "span.ended") with (Some SPAN_ENDED). cbv iota beta.
      unfold case_SPAN_ENDED. by rewrite Hentry.
    + change (classify "executor.invoked") with (Some EXECUTOR_INVOKED). cbv iota beta.
      unfold case_EXECUTOR_INVOKED. by rewrite Hentry.
    + change (classify "executor.completed") with (Some EXECUTOR_COMPLETED). cbv iota beta.
      unfold case_EXECUTOR_COMPLETED. by rewrite Hentry.
    + change (classify "data_source.query_start") with (Some DATA_SOURCE_QUERY_START).
      cbv iota beta. unfold case_DATA_SOURCE_QUERY_START. by rewrite Hentry.
    + change (classify "data_source.query_complete") with (Some DATA_SOURCE_QUERY_COMPLETE).
      cbv iota beta. unfold case_DATA_SOURCE_QUERY_COMPLETE. rewrite Hentry.
      cbv zeta. destruct (isStray (dataSourcesAt _ s0) || isStray Absent); by repeat split.
Qed.

End UnknownAgent.

(** C4, as stated, fails: a [span.started] envelope that names the agent
    ["X"], admitted into the initial store, whose registry is empty, does
    not create the agent. *)
Lemma span_started_creates_no_agent :
  WorkflowEvent.kind spanStartedX = "span.started"
  /\ agentIdOf spanStartedX = "X"
  /\ Store.agents initialStore !! "X" = None
  /\ Store.agents (addEvent (H:=IsoDate.api) 1709296200000 spanStartedX initialStore) !! "X"
     = None
  /\ agentsAt "X" (addEvent (H:=IsoDate.api) 1709296200000 spanStartedX initialStore)
     = Absent.
Proof. vm_compute. by repeat split. Qed.

(** The amended statement at two inputs: an activation creates ["X"]. *)
Lemma only_activation_creates_agent_witness :
  AgentNode.status
    <$> Store.agents (addEvent (H:=IsoDate.api) 1709296200000 activatedX initialStore) !! "X"
  = Some Activated.
Proof.
  assert (Hnone : agentsAt (agentIdOf activatedX) initialStore = Absent)
    by (vm_compute; reflexivity).
  destruct (only_activation_creates_agent (H:=IsoDate.api)
              1709296200000 activatedX initialStore Hnone) as [Hact _].
  destruct Hact as [Hact _]; [reflexivity | vm_compute; discriminate |].
  rewrite Hact. vm_compute. reflexivity.
Defined.

(** ** The staleness watchdog *)

Section Staleness.
Context `{DateApi}.

Lemma addEvent_lastMeaningfulEventAt now e s :
  Store.lastMeaningfulEventAt (addEvent now e s)
  = if isMeaningfulEvent (WorkflowEvent.kind e)
    then Some (WorkflowEvent.ts e |? Date_toISOString now)
    else Store.lastMeaningfulEventAt s.
Proof.
  unfold addEvent.
  destruct (processAgentEvent_frame now e (updateRunFromEvent e (recordEvent now e s)))
    as (_ & _ & -> & _).
  by destruct (updateRunFromEvent_frame e (recordEvent now e s)) as (_ & _ & -> & _).
Qed.

Lemma isMeaningfulEvent_true k : k <> "heartbeat" -> isMeaningfulEvent k = true.
Proof.
  intros Hk. unfold isMeaningfulEvent.
  destruct (isKind k HEARTBEAT) eqn:E; [|done].
  by apply isKind_heartbeat in E.
Qed.

Lemma evaluateStaleness_isStale now nowMs s :
  RunProgress.isStale (Store.runProgress (evaluateStaleness now nowMs s))
  = Store.isConnected s
    && match lastMeaningfulMs s with
       | Some ms => (0 <? ms) && (20000 <? nullish nowMs now - ms)
       | None => false
       end.
Proof. reflexivity. Qed.

(** C5, as amended. A staleness evaluation at the poll time sets
    [isStale] exactly when the store is connected, a time of the last
    meaningful event is recorded, it parses to a time after 1970-01-01,
    and the poll time is more than 20000 ms after it. After a meaningful
    envelope is admitted, the next evaluation leaves [isStale] false
    provided the time stamp of the envelope (the admission time when it
    has none) does not parse, or parses to a time that is not positive
    or is at most 20000 ms before the poll time. *)
Theorem staleness_rule now nowMs s :
  (RunProgress.isStale (Store.runProgress (evaluateStaleness now nowMs s)) = true
   <-> Store.isConnected s = true
       /\ exists at_ ms,
            Store.lastMeaningfulEventAt s = Some at_ /\ at_ <> ""
            /\ Date_parse at_ = Some ms /\ 0 < ms
            /\ 20000 < nullish nowMs now - ms)
  /\ (forall t e,
        WorkflowEvent.kind e <> "heartbeat" ->
        (forall ms, Date_parse (WorkflowEvent.ts e |? Date_toISOString t) = Some ms ->
                    ms <= 0 \/ nullish nowMs now - ms <= 20000) ->
        RunProgress.isStale
          (Store.runProgress (evaluateStaleness now nowMs (addEvent t e s))) = false).
Proof.
  split.
  - rewrite evaluateStaleness_isStale, andb_true_iff. unfold lastMeaningfulMs.
    split.
    + intros [Hc Hm]. split; [done|].
      destruct (Store.lastMeaningfulEventAt s) as [at_|]; [|done].
      unfold truthy in Hm. destruct (String.eqb_spec at_ ""); [done|]. simpl in Hm.
      destruct (Date_parse at_) as [ms|] eqn:Hp; [|done].
      apply andb_true_iff in Hm as [H0%Z.ltb_lt H1%Z.ltb_lt].
      by exists at_, ms.
    + intros [Hc (at_ & ms & -> & Hne & Hp & H0 & H1)]. split; [done|].
      unfold truthy. destruct (String.eqb_spec at_ ""); [done|]. simpl.
      rewrite Hp. apply andb_true_iff. split; [by apply Z.ltb_lt | by apply Z.ltb_lt].
  - intros t e Hk Hts. rewrite evaluateStaleness_isStale. unfold lastMeaningfulMs.
    rewrite addEvent_lastMeaningfulEventAt, isMeaningfulEvent_true by done.
    destruct (truthy (WorkflowEvent.ts e |? Date_toISOString t));
      [|by rewrite andb_false_r].
    destruct (Date_parse _) as [ms|] eqn:Hp; [|by rewrite andb_false_r].
    apply andb_false_iff. right. apply andb_false_iff.
    destruct (Hts ms eq_refl); [left; by apply Z.ltb_ge | right; by apply Z.ltb_ge].
Qed.

End Staleness.

(** C5, as stated, fails in both halves. A connected store whose last
    meaningful envelope is stamped before 1970 is not flagged at a poll
    long after; and a store flagged stale at 12:30:30 stays flagged at
    the poll of 12:30:35 although a meaningful envelope, stamped
    12:30:05, was admitted at 12:30:31. *)
Lemma staleness_rule_fails :
  let poll (ms : Z) := evaluateStaleness (H:=IsoDate.api) ms (Some ms) in
  let isStale (s : Store.t) := RunProgress.isStale (Store.runProgress s) in
  (Store.isConnected connectedBeforeEpoch = true
   /\ (IsoDate.parse <$> Store.lastMeaningfulEventAt connectedBeforeEpoch)
      = Some (Some (-14182980000))
   /\ 20000 < 1709296200000 - -14182980000
   /\ isStale (poll 1709296200000 connectedBeforeEpoch) = false)
  /\ (isStale (poll 1709296230000 connectedAtNoon) = true
      /\ isMeaningfulEvent (WorkflowEvent.kind (stampedUpdate "2024-03-01T12:30:05.000Z")) = true
      /\ isStale
           (poll 1709296235000
              (addEvent (H:=IsoDate.api) 1709296231000 (stampedUpdate "2024-03-01T12:30:05.000Z")
                 (poll 1709296230000 connectedAtNoon))) = true).
Proof. vm_compute. by repeat split. Qed.

(** The amended statement at the scenario of the specification: 21 s
    after the last meaningful envelope the connected store is flagged, and
    an envelope stamped 12:30:21 clears the flag at the next poll. *)
Lemma staleness_rule_witness :
  RunProgress.isStale
    (Store.runProgress
       (evaluateStaleness (H:=IsoDate.api) 1709296221000 None connectedAtNoon)) = true
  /\ RunProgress.isStale
       (Store.runProgress
          (evaluateStaleness (H:=IsoDate.api) 1709296226000 None
             (addEvent (H:=IsoDate.api) 1709296221500 (stampedUpdate "2024-03-01T12:30:21.000Z")
                (evaluateStaleness (H:=IsoDate.api) 1709296221000 None connectedAtNoon))))
     = false.
Proof.
  split.
  - destruct (staleness_rule (H:=IsoDate.api) 1709296221000 None connectedAtNoon)
      as [[_ Hflag] _].
    apply Hflag. split; [vm_compute; reflexivity|].
    exists "2024-03-01T12:30:00.000Z", 1709296200000.
    split; [vm_compute; reflexivity|].
    split; [discriminate|].
    split; [vm_compute; reflexivity|].
    split; [reflexivity | reflexivity].
  - destruct (staleness_rule (H:=IsoDate.api) 1709296226000 None
                (evaluateStaleness (H:=IsoDate.api) 1709296221000 None connectedAtNoon))
      as [_ Hclear].
    apply Hclear.
    + discriminate.
    + intros ms Hms. vm_compute in Hms. injection Hms as <-. right. vm_compute. discriminate.
Defined.

(** ** Data source statistics *)

Lemma Math_round_nearest (q : Q) :
  (q - (1 # 2) < inject_Z (Math_round q) /\ inject_Z (Math_round q) <= q + (1 # 2))%Q.
Proof.
  unfold Math_round.
  pose proof (Qfloor_le (q + (1 # 2))) as Hle.
  pose proof (Qlt_floor (q + (1 # 2))) as Hlt.
  rewrite inject_Z_plus in Hlt. change (inject_Z 1) with 1%Q in Hlt.
  split; lra.
Qed.

Lemma slice_last_app_length {A : Type} (n : nat) (l : list A) (x : A) :
  (length (slice_last n l ++ [x]) <= S n)%nat.
Proof. rewrite length_app. pose proof (slice_last_length n l). simpl. lia. Qed.

Section Statistics.
Context `{DateApi}.

(** What [data_source.query_complete] does to the sources, unless its
    update throws. *)
Lemma addEvent_query_complete_dataSources now e s :
  WorkflowEvent.kind e = "data_source.query_complete" ->
  isStray (dataSourcesAt (payloadString (WorkflowEvent.payload e) "sourceType" "") s) = false ->
  isStray (agentEntry (agentIdOf e) s) = false ->
  Store.dataSources (addEvent now e s)
  = let sourceType := payloadString (WorkflowEvent.payload e) "sourceType" "" in
    match Store.dataSources s !! sourceType with
    | Some ds => <[ sourceType := completeQuery e ds ]> (Store.dataSources s)
    | None => Store.dataSources s
    end.
Proof.
  intros Hk Hsrc Hag. unfold addEvent, processAgentEvent. rewrite Hk.
  change (classify "data_source.query_complete") with (Some DATA_SOURCE_QUERY_COMPLETE).
  cbv iota beta. unfold case_DATA_SOURCE_QUERY_COMPLETE.
  rewrite dataSourcesAt_recorded, agentEntry_recorded, Hsrc, Hag.
  destruct (updateRunFromEvent_frame e (recordEvent now e s))
    as (_ & _ & _ & _ & _ & _ & _ & Hds & _).
  cbn [orb]. cbv iota.
  cbn [Store.dataSources upd Store.set_dataSources Store.set_agents Store.set_agentsProto
       Store.set_runProgress].
  rewrite Hds. change (Store.dataSources (recordEvent now e s)) with (Store.dataSources s).
  cbv zeta. by destruct (Store.dataSources s !! _).
Qed.

(** When the update of [data_source.query_complete] throws, the event
    routing changes nothing. *)
Lemma processAgentEvent_query_complete_throws now e s :
  WorkflowEvent.kind e = "data_source.query_complete" ->
  isStray (dataSourcesAt (payloadString (WorkflowEvent.payload e) "sourceType" "") s)
  || isStray (agentEntry (agentIdOf e) s) = true ->
  processAgentEvent now e s = s.
Proof.
  intros Hk Hthrow. unfold processAgentEvent. rewrite Hk.
  change (classify "data_source.query_complete") with (Some DATA_SOURCE_QUERY_COMPLETE).
  cbv iota beta. unfold case_DATA_SOURCE_QUERY_COMPLETE. cbv zeta. by rewrite Hthrow.
Qed.

(** C7, as amended. Take a [data_source.query_complete] event with latency
    [L] on a known source with [queryCount >= 0], whose agent id, if any,
    is not a name under which the agent registry holds or inherits
    something other than an agent, and let the numbers be integers that
    double arithmetic keeps exact: [avgLatencyMs * queryCount], that
    product plus [L] and [queryCount + 1] are below [2^53] in magnitude.
    Then [queryCount] grows by one, the average latency becomes
    [(avgLatencyMs * queryCount + L) / (queryCount + 1)], the quotient a
    double, rounded to the nearest integer by [Math.round] (so at most one
    half away from that double), the sparkline becomes its last 19 entries
    followed by [L] (at most 20 entries), and [isActive] is cleared. *)
Theorem query_complete_statistics now e s ds :
  WorkflowEvent.kind e = "data_source.query_complete" ->
  Store.dataSources s !! payloadString (WorkflowEvent.payload e) "sourceType" "" = Some ds ->
  isStray (agentEntry (agentIdOf e) s) = false ->
  0 <= DataSourceActivity.queryCount ds ->
  let L := payloadNumber (WorkflowEvent.payload e) "latencyMs" 0 in
  let total := DataSourceActivity.avgLatencyMs ds * DataSourceActivity.queryCount ds + L in
  Z.abs (DataSourceActivity.avgLatencyMs ds * DataSourceActivity.queryCount ds) < 2 ^ 53 ->
  Z.abs total < 2 ^ 53 ->
  DataSourceActivity.queryCount ds + 1 < 2 ^ 53 ->
  let q := double (inject_Z total / inject_Z (DataSourceActivity.queryCount ds + 1)) in
  exists ds',
    Store.dataSources (addEvent now e s)
      !! payloadString (WorkflowEvent.payload e) "sourceType" "" = Some ds'
    /\ DataSourceActivity.queryCount ds' = DataSourceActivity.queryCount ds + 1
    /\ DataSourceActivity.avgLatencyMs ds' = Math_round q
    /\ (q - (1 # 2) < inject_Z (DataSourceActivity.avgLatencyMs ds')
        /\ inject_Z (DataSourceActivity.avgLatencyMs ds') <= q + (1 # 2))%Q
    /\ DataSourceActivity.sparkline ds'
       = slice_last 19 (DataSourceActivity.sparkline ds) ++ [L]
    /\ (length (DataSourceActivity.sparkline ds') <= 20)%nat
    /\ DataSourceActivity.isActive ds' = false.
Proof.
  intros Hk Hds Hag Hcount L total Hprod Htotal Hnext q.
  exists (completeQuery e ds).
  rewrite (addEvent_query_complete_dataSources now e s Hk); [|  | exact Hag].
  2: { unfold dataSourcesAt. by rewrite Hds. }
  cbv zeta. rewrite Hds, lookup_insert_eq.
  assert (Hc : js_add (DataSourceActivity.queryCount ds) 1
               = DataSourceActivity.queryCount ds + 1) by (apply js_add_exact; lia).
  assert (Havg : DataSourceActivity.avgLatencyMs (completeQuery e ds) = Math_round q).
  { unfold completeQuery.
    cbn [DataSourceActivity.avgLatencyMs upd DataSourceActivity.set_queryCount
         DataSourceActivity.set_totalResults DataSourceActivity.set_avgLatencyMs
         DataSourceActivity.set_isActive DataSourceActivity.set_lastQueryTime
         DataSourceActivity.set_lastQuerySummary DataSourceActivity.set_lastAgentId
         DataSourceActivity.set_provider DataSourceActivity.set_sparkline].
    rewrite Hc, (js_mul_exact _ _ Hprod).
    fold L. rewrite (js_add_exact _ L Htotal). reflexivity. }
  split; [reflexivity|]. split; [exact Hc|]. split; [exact Havg|].
  split; [rewrite Havg; apply Math_round_nearest|].
  split; [reflexivity|]. split; [apply slice_last_app_length | reflexivity].
Qed.

End Statistics.

(** C7, as stated, fails: after a query of 120 ms the SQL source has
    [queryCount] 1 and [avgLatencyMs] 120; a second query of 121 ms stores
    the average 121, which is not [(120 * 1 + 121) / (1 + 1)]. *)
Lemma average_latency_is_rounded :
  let s1 := addEvent (H:=IsoDate.api) 1709296200000 (queryCompleteA 120) initialStore in
  let s2 := addEvent (H:=IsoDate.api) 1709296200000 (queryCompleteA 121) s1 in
  DataSourceActivity.queryCount <$> Store.dataSources s1 !! "SQL" = Some 1
  /\ DataSourceActivity.avgLatencyMs <$> Store.dataSources s1 !! "SQL" = Some 120
  /\ DataSourceActivity.avgLatencyMs <$> Store.dataSources s2 !! "SQL" = Some 121
  /\ ~ (inject_Z 121 == inject_Z (120 * 1 + 121) / inject_Z (1 + 1))%Q.
Proof.
  cbv zeta. split; [vm_compute; reflexivity|]. split; [vm_compute; reflexivity|].
  split; [vm_compute; reflexivity|]. intros Heq. vm_compute in Heq. discriminate.
Qed.

(** The amended statement at the same second query. *)
Lemma query_complete_statistics_witness :
  DataSourceActivity.avgLatencyMs
    <$> Store.dataSources
          (addEvent (H:=IsoDate.api) 1709296200000 (queryCompleteA 121)
             (addEvent (H:=IsoDate.api) 1709296200000 (queryCompleteA 120) initialStore))
        !! "SQL"
  = Some (Math_round (double (241 # 2))).
Proof.
  pose (s1 := addEvent (H:=IsoDate.api) 1709296200000 (queryCompleteA 120) initialStore).
  assert (Hds : exists ds, Store.dataSources s1 !! "SQL" = Some ds
                           /\ DataSourceActivity.queryCount ds = 1
                           /\ DataSourceActivity.avgLatencyMs ds = 120).
  { vm_compute. eexists. split; [reflexivity|]. split; reflexivity. }
  destruct Hds as (ds & Hds & Hc & Ha).
  destruct (query_complete_statistics (H:=IsoDate.api) 1709296200000 (queryCompleteA 121) s1 ds)
    as (ds' & Hds' & _ & Havg & _).
  - reflexivity.
  - exact Hds.
  - vm_compute. reflexivity.
  - rewrite Hc. discriminate.
  - rewrite Hc, Ha. vm_compute. reflexivity.
  - rewrite Hc, Ha. vm_compute. reflexivity.
  - rewrite Hc. vm_compute. reflexivity.
  - change (payloadString (WorkflowEvent.payload (queryCompleteA 121)) "sourceType" "")
      with "SQL" in Hds'.
    fold s1. rewrite Hds'.
    transitivity (Some (DataSourceActivity.avgLatencyMs ds')); [reflexivity|].
    rewrite Havg, Hc, Ha. reflexivity.
Defined.

(** ** Duplicate completion events *)

Section Duplicates.
Context `{DateApi}.

Lemma knownAgent_Some id s agent :
  knownAgent id s = Some agent -> truthy id = true /\ Store.agents s !! id = Some agent.
Proof. unfold knownAgent. by destruct (truthy id). Qed.

Lemma addEvent_span_ended now e s agent :
  WorkflowEvent.kind e = "span.ended" ->
  successOf e = true ->
  knownAgent (agentIdOf e) s = Some agent ->
  exists agent',
    knownAgent (agentIdOf e) (addEvent now e s) = Some agent'
    /\ AgentNode.status agent' = Done
    /\ AgentNode.percentComplete agent' = Some 100
    /\ AgentNode.traceCount agent' = Some (nullish (AgentNode.traceCount agent) 0 + 1).
Proof.
  intros Hk Hs Hknown. unfold addEvent, processAgentEvent. rewrite Hk.
  change (classify "span.ended") with (Some SPAN_ENDED). cbv iota beta.
  unfold case_SPAN_ENDED. rewrite agentEntry_recorded, (knownAgent_entry _ _ _ Hknown), Hs.
  apply knownAgent_Some in Hknown as [Ht _].
  eexists. split.
  - unfold knownAgent. rewrite Ht.
    cbn [Store.agents upd Store.set_agents Store.set_agentsProto Store.set_runProgress
         Store.set_activeAgentIds Store.set_completedAgentIds Store.set_failedAgentIds].
    apply lookup_insert_eq.
  - by repeat split.
Qed.

(** C8. Admitting a [span.ended] envelope that reports success (its
    payload has no [success: false]) for a known agent, whatever the
    status of the agent — in particular when it is already done — leaves
    the agent done at 100 percent with one more trace counted; admitting
    the same envelope again leaves it done at 100 percent and counts one
    more trace again. *)
Theorem duplicate_span_ended_keeps_done now1 now2 e s agent :
  WorkflowEvent.kind e = "span.ended" ->
  successOf e = true ->
  knownAgent (agentIdOf e) s = Some agent ->
  let once := addEvent now1 e s in
  let twice := addEvent now2 e once in
  exists a1 a2,
    Store.agents once !! agentIdOf e = Some a1
    /\ Store.agents twice !! agentIdOf e = Some a2
    /\ AgentNode.status a1 = Done /\ AgentNode.status a2 = Done
    /\ AgentNode.percentComplete a1 = Some 100
    /\ AgentNode.percentComplete a2 = Some 100
    /\ AgentNode.traceCount a1 = Some (nullish (AgentNode.traceCount agent) 0 + 1)
    /\ AgentNode.traceCount a2 = Some (nullish (AgentNode.traceCount agent) 0 + 2).
Proof.
  intros Hk Hs Hknown. cbv zeta.
  destruct (addEvent_span_ended now1 e s agent Hk Hs Hknown)
    as (a1 & Hk1 & Hst1 & Hp1 & Ht1).
  destruct (addEvent_span_ended now2 e _ a1 Hk Hs Hk1)
    as (a2 & Hk2 & Hst2 & Hp2 & Ht2).
  apply knownAgent_Some in Hk1 as [_ Hl1]. apply knownAgent_Some in Hk2 as [_ Hl2].
  exists a1, a2. rewrite Ht1 in Ht2. simpl in Ht2.
  repeat split; try done. rewrite Ht2. f_equal. lia.
Qed.

End Duplicates.

(** C8 at the end of the scenario: agent A is done with 4 traces, and a
    repeated [span.ended] leaves it done with 5 and then 6. *)
Lemma duplicate_span_ended_witness :
  exists a1 a2,
    Store.agents (addEvent (H:=IsoDate.api) 1709296204000 spanEndedA scenarioDone) !! "A"
    = Some a1
    /\ Store.agents
         (addEvent (H:=IsoDate.api) 1709296205000 spanEndedA
            (addEvent (H:=IsoDate.api) 1709296204000 spanEndedA scenarioDone)) !! "A"
       = Some a2
    /\ AgentNode.status a1 = Done /\ AgentNode.status a2 = Done
    /\ AgentNode.traceCount a1 = Some 5 /\ AgentNode.traceCount a2 = Some 6.
Proof.
  assert (Hagent : exists agent, knownAgent (agentIdOf spanEndedA) scenarioDone = Some agent
                                 /\ AgentNode.status agent = Done
                                 /\ AgentNode.traceCount agent = Some 4).
  { vm_compute. eexists. split; [reflexivity|]. split; reflexivity. }
  destruct Hagent as (agent & Hknown & _ & Htrace).
  destruct (duplicate_span_ended_keeps_done (H:=IsoDate.api) 1709296204000 1709296205000
              spanEndedA scenarioDone agent eq_refl eq_refl Hknown)
    as (a1 & a2 & H1 & H2 & Hs1 & Hs2 & _ & _ & Ht1 & Ht2).
  exists a1, a2. rewrite Htrace in Ht1, Ht2.
  split; [exact H1|]. split; [exact H2|]. split; [exact Hs1|]. split; [exact Hs2|].
  split; [exact Ht1 | exact Ht2].
Defined.


(** C10 at a reachable state: connected, one envelope admitted, polled
    long after. *)
Lemma stale_implies_connected_witness :
  let s := evaluateStaleness (H:=IsoDate.api) 1709296230000 None connectedAtNoon in
  RunProgress.isStale (Store.runProgress s) = true /\ Store.isConnected s = true.
Proof.
  cbv zeta.
  assert (Hr : reachable (H:=IsoDate.api)
                 (evaluateStaleness (H:=IsoDate.api) 1709296230000 None connectedAtNoon)).
  { apply (reachable_step (H:=IsoDate.api) (EvaluateStaleness 1709296230000 None)).
    apply (reachable_step (H:=IsoDate.api)
             (AddEvent 1709296200000 (stampedUpdate "2024-03-01T12:30:00.000Z"))).
    apply (reachable_step (H:=IsoDate.api) (SetConnected true)).
    apply reachable_init. }
  destruct (stale_implies_connected (H:=IsoDate.api) _ Hr) as [Himp _].
  assert (Hs : RunProgress.isStale
                 (Store.runProgress
                    (evaluateStaleness (H:=IsoDate.api) 1709296230000 None connectedAtNoon))
               = true) by (vm_compute; reflexivity).
  split; [exact Hs | exact (Himp Hs)].
Defined.

(** * Further properties of the connector *)

(** ** Reconnection *)

(** X1. From the first attempt on the reconnect delay starts at 1000 ms,
    doubles up to the fifth attempt, is 30000 ms from the sixth on, and
    never goes down from one attempt to the next. *)
Theorem reconnect_delay_bounds (attempt : Z) :
  1 <= attempt ->
  1000 <= reconnectDelay attempt <= 30000
  /\ reconnectDelay attempt <= reconnectDelay (attempt + 1)
  /\ (attempt <= 5 -> reconnectDelay (attempt + 1) = 2 * reconnectDelay attempt
                      \/ reconnectDelay (attempt + 1) = 30000)
  /\ (attempt <= 5 -> reconnectDelay attempt = 1000 * 2 ^ (attempt - 1))
  /\ (6 <= attempt -> reconnectDelay attempt = 30000).
Proof.
  intros Ha. unfold reconnectDelay.
  assert (Hpos : 1 <= 2 ^ (attempt - 1)) by (apply (Z.pow_le_mono_r 2 0); lia).
  assert (Hsucc : 2 ^ (attempt + 1 - 1) = 2 * 2 ^ (attempt - 1)).
  { replace (attempt + 1 - 1) with (Z.succ (attempt - 1)) by lia.
    apply Z.pow_succ_r. lia. }
  rewrite Hsucc.
  split; [lia|]. split; [lia|]. split; [|split].
  - intros H5.
    assert (Hle : 2 ^ (attempt - 1) <= 2 ^ 4) by (apply Z.pow_le_mono_r; lia).
    change (2 ^ 4) with 16 in Hle. lia.
  - intros H5.
    assert (Hle : 2 ^ (attempt - 1) <= 2 ^ 4) by (apply Z.pow_le_mono_r; lia).
    change (2 ^ 4) with 16 in Hle. lia.
  - intros H6.
    assert (Hge : 2 ^ 5 <= 2 ^ (attempt - 1)) by (apply Z.pow_le_mono_r; lia).
    change (2 ^ 5) with 32 in Hge. lia.
Qed.

Lemma reconnect_delay_bounds_witness :
  reconnectDelay 1 = 1000 /\ reconnectDelay 5 = 16000 /\ reconnectDelay 6 = 30000.
Proof.
  destruct (reconnect_delay_bounds 1 ltac:(lia)) as (_ & _ & _ & H1 & _).
  destruct (reconnect_delay_bounds 5 ltac:(lia)) as (_ & _ & _ & H5 & _).
  destruct (reconnect_delay_bounds 6 ltac:(lia)) as (_ & _ & _ & _ & H6).
  split; [rewrite H1 by lia; reflexivity|].
  split; [rewrite H5 by lia; reflexivity | apply H6; lia].
Defined.

Lemma onerror_mounted enabled conn state :
  mounted conn = true ->
  mounted (onerror enabled (conn, state)).1.1 = true.
Proof.
  intros Hm. unfold onerror. rewrite Hm. simpl.
  destruct (enabled && _); [done|]. by destruct (_ <=? _).
Qed.

(** X2. With the hook mounted and enabled, [n] transport errors in a row
    after an open leave the retry counter at [min n 10]; the next error
    sets a reconnect timer, with the delay of attempt [n + 1], exactly
    when [n < 10], and after each error the store is disconnected. *)
Theorem reconnects_stop_at_ceiling (n : nat) conn state :
  mounted conn = true ->
  retries conn = 0 ->
  let cs := Nat.iter n (fun cs => (onerror true cs).1) (conn, state) in
  mounted cs.1 = true
  /\ retries cs.1 = Z.min (Z.of_nat n) MAX_RECONNECT_ATTEMPTS
  /\ (onerror true cs).2
     = (if Z.of_nat n <? MAX_RECONNECT_ATTEMPTS
        then Some (reconnectDelay (Z.of_nat n + 1)) else None)
  /\ Store.isConnected (onerror true cs).1.2 = false
  /\ sourceOpen (onerror true cs).1.1 = false.
Proof.
  intros Hm Hr. cbv zeta.
  assert (Hiter : mounted (Nat.iter n (fun cs => (onerror true cs).1) (conn, state)).1 = true
                  /\ retries (Nat.iter n (fun cs => (onerror true cs).1) (conn, state)).1
                     = Z.min (Z.of_nat n) MAX_RECONNECT_ATTEMPTS).
  { induction n as [|n [IHm IHr]].
    - simpl. rewrite Hr. by split.
    - rewrite Nat.iter_succ.
      destruct (Nat.iter n _ (conn, state)) as [c s] eqn:E. simpl in IHm, IHr.
      split; [by apply onerror_mounted|].
      unfold onerror. rewrite IHm. simpl. rewrite IHr. unfold MAX_RECONNECT_ATTEMPTS.
      destruct (Z.ltb_spec (Z.min (Z.of_nat n) 10) 10); simpl; [lia|].
      destruct (Z.leb_spec 10 (Z.min (Z.of_nat n) 10)); simpl; lia. }
  destruct Hiter as [Him Hir].
  destruct (Nat.iter n _ (conn, state)) as [c s] eqn:E. simpl in Him, Hir. simpl fst.
  split; [done|]. split; [done|].
  unfold onerror. rewrite Him. simpl. rewrite Hir. unfold MAX_RECONNECT_ATTEMPTS.
  destruct (Z.ltb_spec (Z.min (Z.of_nat n) 10) 10); simpl.
  - destruct (Z.ltb_spec (Z.of_nat n) 10); [|lia].
    replace (Z.min (Z.of_nat n) 10) with (Z.of_nat n) by lia. done.
  - destruct (Z.ltb_spec (Z.of_nat n) 10); [lia|].
    by destruct (Z.leb_spec 10 (Z.min (Z.of_nat n) 10)).
Qed.

Lemma reconnects_stop_at_ceiling_witness :
  (onerror true (Nat.iter 9 (fun cs => (onerror true cs).1) (mountedConnector, initialStore))).2
  = Some 30000
  /\ (onerror true (Nat.iter 10 (fun cs => (onerror true cs).1) (mountedConnector, initialStore))).2
     = None.
Proof.
  destruct (reconnects_stop_at_ceiling 9 mountedConnector initialStore eq_refl eq_refl)
    as (_ & _ & H9 & _).
  destruct (reconnects_stop_at_ceiling 10 mountedConnector initialStore eq_refl eq_refl)
    as (_ & _ & H10 & _).
  split; [rewrite H9; reflexivity | rewrite H10; reflexivity].
Defined.

(** X3. An open while mounted connects the store and gives the full
    retry budget back: whatever the counter was, the next error sets a
    timer of 1000 ms. *)
Theorem open_resets_backoff conn state :
  mounted conn = true ->
  let cs := onopen (conn, state) in
  retries cs.1 = 0
  /\ reconnecting cs.1 = false
  /\ Store.isConnected cs.2 = true
  /\ RunProgress.isLive (Store.runProgress cs.2) = true
  /\ (onerror true cs).2 = Some 1000.
Proof.
  intros Hm. cbv zeta. unfold onopen. rewrite Hm. simpl.
  by repeat split.
Qed.

Lemma open_resets_backoff_witness :
  let exhausted :=
    {| mounted := true; lastSequence := 0; retries := 10; sourceOpen := false;
       reconnecting := false |} in
  (onerror true (exhausted, initialStore)).2 = None
  /\ (onerror true (onopen (exhausted, initialStore))).2 = Some 1000.
Proof.
  intros exhausted. split; [reflexivity|].
  destruct (open_resets_backoff exhausted initialStore eq_refl) as (_ & _ & _ & _ & H).
  exact H.
Defined.

(** X4. [disconnect] can be repeated: a second call changes nothing, and
    after it the source is closed, the counter is 0, and the store is
    disconnected with its liveness, staleness and warning flags down. *)
Theorem disconnect_idempotent cs :
  disconnect (disconnect cs) = disconnect cs
  /\ sourceOpen (disconnect cs).1 = false
  /\ retries (disconnect cs).1 = 0
  /\ reconnecting (disconnect cs).1 = false
  /\ Store.isConnected (disconnect cs).2 = false
  /\ RunProgress.isLive (Store.runProgress (disconnect cs).2) = false
  /\ RunProgress.isStale (Store.runProgress (disconnect cs).2) = false
  /\ Store.noUpdateWarning (disconnect cs).2 = false.
Proof. destruct cs as [conn state]. by repeat split. Qed.

(** ** The message handler *)

Section Handler.
Context `{DateApi}.

Lemma addEvent_lastEventId now e s :
  Store.lastEventId (addEvent now e s)
  = Some (opt_or (WorkflowEvent.stream_id e) (WorkflowEvent.event_id e)).
Proof.
  unfold addEvent.
  destruct (processAgentEvent_frame now e (updateRunFromEvent e (recordEvent now e s)))
    as (_ & _ & _ & _ & -> & _).
  by destruct (updateRunFromEvent_frame e (recordEvent now e s)) as (_ & _ & _ & _ & -> & _).
Qed.

Lemma noteSequence_mounted e conn : mounted (noteSequence e conn) = mounted conn.
Proof.
  unfold noteSequence. destruct (WorkflowEvent.sequence e) as [seq|]; [|done].
  destruct (negb (seq =? 0) && (seq <=? lastSequence conn)); [done|].
  by destruct (negb (seq =? 0)).
Qed.

Lemma noteSequence_lastSequence e conn :
  lastSequence conn <= lastSequence (noteSequence e conn).
Proof.
  unfold noteSequence. destruct (WorkflowEvent.sequence e) as [seq|]; [|done].
  destruct (Z.eqb_spec seq 0); simpl; [done|].
  destruct (Z.leb_spec seq (lastSequence conn)); simpl; lia.
Qed.

(** The store a message leaves, with the stream id filled in from the
    message when the envelope has none. *)
Lemma handleSSEEvent_store now msg event conn s :
  mounted conn = true ->
  data msg = Some event ->
  let streamId := opt_or (WorkflowEvent.stream_id event) (lastEventId msg) in
  let event' :=
    event <| WorkflowEvent.stream_id := if truthy streamId then Some streamId else None |> in
  (handleSSEEvent now msg (conn, s)).2
  = if isKind (WorkflowEvent.kind event) HEARTBEAT
    then noteHeartbeat now (Some (WorkflowEvent.ts event)) s
    else if isKind (WorkflowEvent.kind event) RUN_COMPLETED
            || isKind (WorkflowEvent.kind event) RUN_FAILED
         then setConnected false (addEvent now event' s)
         else addEvent now event' s.
Proof.
  intros Hm Hd. cbv zeta. unfold handleSSEEvent. rewrite Hm, Hd. simpl negb. cbv iota.
  change (WorkflowEvent.kind (event <| WorkflowEvent.stream_id := _ |>))
    with (WorkflowEvent.kind event).
  destruct (isKind (WorkflowEvent.kind event) HEARTBEAT); [done|].
  by destruct (_ || _).
Qed.

(** X5. The resume cursor. After a mounted connector handled a parsed
    envelope that is no heartbeat, a reconnect of the enabled hook asks
    for the events since the stream id of the envelope, else since the id
    the message carried, else since the event id of the envelope; when all
    three are empty it asks for the whole stream. *)
Theorem reconnect_resumes_after_last_envelope now msg event conn s runId :
  mounted conn = true ->
  data msg = Some event ->
  WorkflowEvent.kind event <> "heartbeat" ->
  runId <> "" ->
  let cursor :=
    opt_or (WorkflowEvent.stream_id event) (lastEventId msg) |? WorkflowEvent.event_id event in
  connectUrl true runId (handleSSEEvent now msg (conn, s))
  = Some (if truthy cursor
          then ("/api/av/runs/" +:+ runId +:+ "/events") +:+ "?since=" +:+ cursor
          else "/api/av/runs/" +:+ runId +:+ "/events").
Proof.
  intros Hm Hd Hk Hrun. cbv zeta.
  assert (Hmounted : mounted (handleSSEEvent now msg (conn, s)).1 = true).
  { unfold handleSSEEvent. rewrite Hm, Hd. simpl negb. cbv iota.
    destruct (isKind _ HEARTBEAT); cbn [fst]; [by rewrite noteSequence_mounted|].
    destruct (_ || _); cbn [fst mounted]; by rewrite noteSequence_mounted. }
  assert (Hid : Store.lastEventId (handleSSEEvent now msg (conn, s)).2
                = Some (opt_or (WorkflowEvent.stream_id event) (lastEventId msg)
                        |? WorkflowEvent.event_id event)).
  { rewrite (handleSSEEvent_store now msg event conn s Hm Hd). cbv zeta.
    destruct (isKind (WorkflowEvent.kind event) HEARTBEAT) eqn:Ehb;
      [by apply isKind_heartbeat in Ehb|].
    assert (Hadd : forall e', WorkflowEvent.stream_id e'
                     = (if truthy (opt_or (WorkflowEvent.stream_id event) (lastEventId msg))
                        then Some (opt_or (WorkflowEvent.stream_id event) (lastEventId msg))
                        else None) ->
                   WorkflowEvent.event_id e' = WorkflowEvent.event_id event ->
                   Store.lastEventId (addEvent now e' s)
                   = Some (opt_or (WorkflowEvent.stream_id event) (lastEventId msg)
                           |? WorkflowEvent.event_id event)).
    { intros e' Hs He. rewrite addEvent_lastEventId, Hs, He. f_equal.
      destruct (truthy (opt_or _ _)) eqn:Et; simpl; [done|].
      unfold str_or. by rewrite Et. }
    destruct (_ || _); [change (Store.lastEventId (setConnected false ?x))
                          with (Store.lastEventId x)|]; by apply Hadd. }
  destruct (handleSSEEvent now msg (conn, s)) as [conn' s']. simpl in Hmounted, Hid.
  unfold connectUrl. rewrite Hmounted, Hid. simpl.
  unfold truthy at 1. destruct (String.eqb_spec runId ""); [done|]. reflexivity.
Qed.

(** X6. The sequence bookkeeping only warns: the highest sequence seen
    never goes down, and the store a message leaves does not depend on
    it, so an envelope that arrives out of order is applied like any
    other. *)
Theorem out_of_order_envelope_is_applied now msg conn conn' s :
  mounted conn' = mounted conn ->
  lastSequence conn <= lastSequence (handleSSEEvent now msg (conn, s)).1
  /\ (handleSSEEvent now msg (conn', s)).2 = (handleSSEEvent now msg (conn, s)).2.
Proof.
  intros Hm. split.
  - unfold handleSSEEvent. destruct (mounted conn); simpl; [|done].
    destruct (data msg) as [event|]; [|done].
    destruct (isKind _ HEARTBEAT); cbn [fst]; [apply noteSequence_lastSequence|].
    destruct (_ || _); cbn [fst lastSequence]; apply noteSequence_lastSequence.
  - unfold handleSSEEvent. rewrite Hm. destruct (mounted conn); simpl; [|done].
    destruct (data msg) as [event|]; [|done].
    destruct (isKind _ HEARTBEAT); [done|]. by destruct (_ || _).
Qed.

(** X7. A message that does not parse, or that arrives after the hook
    was unmounted, changes neither the connector nor the store. *)
Theorem unparsed_or_unmounted_message_is_dropped now msg conn s :
  data msg = None \/ mounted conn = false ->
  handleSSEEvent now msg (conn, s) = (conn, s).
Proof.
  intros [Hd | Hm]; unfold handleSSEEvent.
  - rewrite Hd. by destruct (mounted conn).
  - by rewrite Hm.
Qed.

(** X8. A terminal envelope closes the stream for good: after a mounted
    connector handled [run_completed] or [run_failed], the source is
    closed and the store is disconnected, neither live nor stale, with
    the run status completed and failed respectively; [run_completed]
    leaves the progress at 100. *)
Theorem terminal_envelope_closes_stream now msg event conn s :
  mounted conn = true ->
  data msg = Some event ->
  WorkflowEvent.kind event = "run_completed" \/ WorkflowEvent.kind event = "run_failed" ->
  let cs := handleSSEEvent now msg (conn, s) in
  sourceOpen cs.1 = false
  /\ Store.isConnected cs.2 = false
  /\ RunProgress.isLive (Store.runProgress cs.2) = false
  /\ RunProgress.isStale (Store.runProgress cs.2) = false
  /\ Store.noUpdateWarning cs.2 = false
  /\ RunProgress.status (Store.runProgress cs.2)
     = (if String.eqb (WorkflowEvent.kind event) "run_completed"
        then RunCompleted else RunFailed)
  /\ (WorkflowEvent.kind event = "run_completed" ->
      RunProgress.overallPct (Store.runProgress cs.2) = 100).
Proof.
  intros Hm Hd Hk. cbv zeta. unfold handleSSEEvent. rewrite Hm, Hd. simpl negb. cbv iota.
  change (WorkflowEvent.kind (event <| WorkflowEvent.stream_id := _ |>))
    with (WorkflowEvent.kind event).
  destruct Hk as [Hk | Hk]; rewrite Hk.
  - change (isKind "run_completed" HEARTBEAT) with false.
    change (isKind "run_completed" RUN_COMPLETED) with true. cbv iota. simpl orb. cbv iota.
    unfold addEvent, processAgentEvent.
    change (WorkflowEvent.kind (event <| WorkflowEvent.stream_id := _ |>))
      with (WorkflowEvent.kind event).
    rewrite Hk. by repeat split.
  - change (isKind "run_failed" HEARTBEAT) with false.
    change (isKind "run_failed" RUN_COMPLETED) with false.
    change (isKind "run_failed" RUN_FAILED) with true. cbv iota. simpl orb. cbv iota.
    unfold addEvent, processAgentEvent.
    change (WorkflowEvent.kind (event <| WorkflowEvent.stream_id := _ |>))
      with (WorkflowEvent.kind event).
    rewrite Hk. by repeat split.
Qed.

Lemma handleSSEEvent_heartbeat now msg conn s :
  isHeartbeatMessage msg ->
  let s' := (handleSSEEvent now msg (conn, s)).2 in
  Store.isConnected s' = Store.isConnected s
  /\ Store.lastMeaningfulEventAt s' = Store.lastMeaningfulEventAt s
  /\ Store.events s' = Store.events s.
Proof.
  intros (event & Hd & Hk). cbv zeta. unfold handleSSEEvent. rewrite Hd.
  destruct (mounted conn); [|done]. simpl negb. cbv iota.
  change (WorkflowEvent.kind (event <| WorkflowEvent.stream_id := _ |>))
    with (WorkflowEvent.kind event).
  rewrite Hk. change (isKind "heartbeat" HEARTBEAT) with true. done.
Qed.

(** X9. Heartbeats prove no progress: after any run of heartbeat
    messages the event log is the same and a staleness evaluation gives
    the verdict it would have given without them, so a stream of
    heartbeats alone is flagged stale like a silent one. *)
Theorem heartbeats_do_not_postpone_staleness t msgs conn s now nowMs :
  Forall isHeartbeatMessage msgs ->
  let s' := (handleAll t msgs (conn, s)).2 in
  Store.events s' = Store.events s
  /\ RunProgress.isStale (Store.runProgress (evaluateStaleness now nowMs s'))
     = RunProgress.isStale (Store.runProgress (evaluateStaleness now nowMs s)).
Proof.
  intros Hall. cbv zeta. revert conn s.
  induction Hall as [|msg msgs Hmsg _ IH]; intros conn s; [done|].
  change (handleAll t (msg :: msgs) (conn, s))
    with (handleAll t msgs (handleSSEEvent t msg (conn, s))).
  destruct (handleSSEEvent_heartbeat t msg conn s Hmsg) as (Hc & Hl & He).
  destruct (handleSSEEvent t msg (conn, s)) as [conn1 s1]. simpl in Hc, Hl, He.
  destruct (IH conn1 s1) as [IHe IHs]. split; [congruence|].
  rewrite IHs. rewrite !evaluateStaleness_isStale. unfold lastMeaningfulMs.
  by rewrite Hc, Hl.
Qed.

End Handler.

Lemma reconnect_resumes_witness :
  connectUrl true "run-1"
    (handleSSEEvent (H:=IsoDate.api) 1709296200000
       {| data := Some (progressUpdate 50); lastEventId := "1709296200000-0" |}
       (mountedConnector, initialStore))
  = Some "/api/av/runs/run-1/events?since=1709296200000-0".
Proof.
  rewrite (reconnect_resumes_after_last_envelope (H:=IsoDate.api) 1709296200000
             {| data := Some (progressUpdate 50); lastEventId := "1709296200000-0" |}
             (progressUpdate 50) mountedConnector initialStore "run-1"
             eq_refl eq_refl ltac:(discriminate) ltac:(discriminate)).
  vm_compute. reflexivity.
Defined.

Lemma out_of_order_witness :
  let late :=
    {| data := Some ((progressUpdate 50) <| WorkflowEvent.stream_id := Some "7" |>);
       lastEventId := "" |} in
  let ahead :=
    {| mounted := true; lastSequence := 99; retries := 0; sourceOpen := true;
       reconnecting := false |} in
  (handleSSEEvent (H:=IsoDate.api) 1709296200000 late (ahead, initialStore)).2
  = (handleSSEEvent (H:=IsoDate.api) 1709296200000 late (mountedConnector, initialStore)).2.
Proof.
  intros late ahead.
  exact (proj2 (out_of_order_envelope_is_applied (H:=IsoDate.api) 1709296200000 late
                  mountedConnector ahead initialStore eq_refl)).
Defined.

Lemma unparsed_message_witness :
  handleSSEEvent (H:=IsoDate.api) 1709296200000 {| data := None; lastEventId := "" |}
    (mountedConnector, scenarioDone)
  = (mountedConnector, scenarioDone).
Proof.
  apply (unparsed_or_unmounted_message_is_dropped (H:=IsoDate.api)). left. reflexivity.
Defined.

Lemma terminal_envelope_witness :
  let cs :=
    handleSSEEvent (H:=IsoDate.api) 1709296204000
      {| data := Some (envelope "run_completed" "2024-03-01T12:30:04.000Z" []);
         lastEventId := "" |}
      (mountedConnector, setConnected true scenarioDone) in
  Store.isConnected cs.2 = false
  /\ RunProgress.overallPct (Store.runProgress cs.2) = 100.
Proof.
  cbv zeta.
  destruct (terminal_envelope_closes_stream (H:=IsoDate.api) 1709296204000
              {| data := Some (envelope "run_completed" "2024-03-01T12:30:04.000Z" []);
                 lastEventId := "" |}
              (envelope "run_completed" "2024-03-01T12:30:04.000Z" [])
              mountedConnector (setConnected true scenarioDone) eq_refl eq_refl
              (or_introl eq_refl))
    as (_ & Hc & _ & _ & _ & _ & Hp).
  split; [exact Hc | exact (Hp eq_refl)].
Defined.

Lemma heartbeats_witness :
  RunProgress.isStale
    (Store.runProgress
       (evaluateStaleness (H:=IsoDate.api) 1709296230000 None
          (handleAll (H:=IsoDate.api) 1709296210000 [heartbeatMessage; heartbeatMessage]
             (mountedConnector, connectedAtNoon)).2))
  = true.
Proof.
  assert (Hhb : Forall isHeartbeatMessage [heartbeatMessage; heartbeatMessage]).
  { repeat constructor; exists heartbeatEvent; split; reflexivity. }
  destruct (heartbeats_do_not_postpone_staleness (H:=IsoDate.api) 1709296210000
              [heartbeatMessage; heartbeatMessage] mountedConnector connectedAtNoon
              1709296230000 None Hhb) as [_ Hs].
  rewrite Hs. vm_compute. reflexivity.
Defined.

(** * Further properties of the store *)

(** ** Agents are kept, traces counted up, evidence appended *)

Lemma agentStep_refl a : agentStep a a.
Proof. unfold agentStep. by repeat split. Qed.

Lemma agentStep_trans a b c : agentStep a b -> agentStep b c -> agentStep a c.
Proof.
  unfold agentStep.
  intros (-> & -> & -> & -> & -> & Ht1 & He1) (-> & -> & -> & -> & -> & Ht2 & He2).
  repeat split; try done; [lia | by etrans].
Qed.

Lemma incrementAgentTrace_step a ts : agentStep a (incrementAgentTrace a ts).
Proof.
  unfold agentStep, incrementAgentTrace. cbn.
  repeat split; try done. destruct (AgentNode.traceCount a); simpl; lia.
Qed.

(** Closes [agentStep a a'] where [a'] is [a] with a trace counted and
    fields other than the fixed ones written. *)
Ltac agent_step :=
  unfold agentStep, incrementAgentTrace; cbn;
  repeat split; try done;
  try (match goal with
       | |- context [AgentNode.traceCount ?a] => destruct (AgentNode.traceCount a)
       end; simpl; lia);
  try (by apply prefix_app_r).

(** An insertion at [key] of a successor of the agent that was there. *)
Lemma insert_agentStep (agents : gmap string AgentNode.t) key agent agent' id a :
  agents !! key = Some agent \/ agents !! key = None ->
  agentStep agent agent' ->
  agents !! id = Some a ->
  exists a', <[ key := agent' ]> agents !! id = Some a' /\ agentStep a a'.
Proof.
  intros Hkey Hstep Hid. destruct (decide (key = id)) as [->|Hne].
  - rewrite lookup_insert_eq. exists agent'. split; [done|].
    destruct Hkey; congruence.
  - rewrite lookup_insert_ne by done. exists a. split; [done | apply agentStep_refl].
Qed.

Ltac agents_of_store :=
  cbn [Store.agents upd Store.set_agents Store.set_strayAgents Store.set_agentsProto
       Store.set_runProgress Store.set_activeAgentIds
       Store.set_completedAgentIds Store.set_failedAgentIds Store.set_dataSources
       Store.set_strayDataSources
       Store.set_agentEdges Store.set_recoveryOptions Store.set_recoveryPlan
       Store.set_bottomDrawerTab Store.set_bottomDrawerOpen].

(** The registry after a trace is counted for the entry under [key]. *)
Lemma traced_agentStep s ts key (agents : gmap string AgentNode.t) id a a1 :
  Store.agents s !! id = Some a ->
  agents !! id = Some a1 ->
  a1 = a \/ a1 = incrementAgentTrace a ts ->
  exists a2,
    match agentsAt key s with
    | Node agent => <[ key := incrementAgentTrace agent ts ]> agents
    | _ => agents
    end !! id = Some a2
    /\ (a2 = a \/ a2 = incrementAgentTrace a ts).
Proof.
  intros Hid H1 Ha1.
  destruct (agentsAt key s) as [agent| |] eqn:Hat; [|by exists a1..].
  destruct (decide (key = id)) as [->|Hne].
  - rewrite lookup_insert_eq. eexists. split; [done|]. right.
    apply agentsAt_Node in Hat as [Hat|Hat]; congruence.
  - rewrite lookup_insert_ne by done. by exists a1.
Qed.

Lemma processAgentEvent_agentStep now e s id a :
  Store.agents s !! id = Some a ->
  exists a', Store.agents (processAgentEvent now e s) !! id = Some a' /\ agentStep a a'.
Proof.
  intros Hid.
  assert (Hsame : exists a', Store.agents s !! id = Some a' /\ agentStep a a')
    by (exists a; split; [done | apply agentStep_refl]).
  unfold processAgentEvent.
  destruct (classify (WorkflowEvent.kind e)) as [[]|]; try exact Hsame; unfold_cases;
    try (destruct (agentEntry (agentIdOf e) s) as [agent|stray|] eqn:Hentry;
         [ apply agentEntry_Node in Hentry; agents_of_store;
           eapply insert_agentStep; [exact Hentry | agent_step | exact Hid]
         | first [exact Hsame | agents_of_store; exact Hsame]
         | exact Hsame ]).
  - (* agent.activated *)
    destruct (negb (truthy (agentIdOf e))); [exact Hsame|].
    destruct (agentsAt (agentIdOf e) s) as [agent|stray|] eqn:Hat; agents_of_store.
    + apply agentsAt_Node in Hat.
      eapply insert_agentStep; [exact Hat | agent_step | exact Hid].
    + exact Hsame.
    + apply agentsAt_Absent in Hat as [Hat _].
      rewrite lookup_insert_ne by congruence. exact Hsame.
  - (* data_source.query_complete *)
    destruct (_ || _); [exact Hsame|]. agents_of_store.
    destruct (agentEntry (agentIdOf e) s) as [agent|stray|] eqn:Hentry;
      cbn [nodeOf fmap option_fmap option_map]; [|exact Hsame..].
    apply agentEntry_Node in Hentry.
    eapply insert_agentStep; [exact Hentry | agent_step | exact Hid].
  - (* handover *)
    destruct (_ && _); [|exact Hsame]. agents_of_store.
    set (from := payloadString (WorkflowEvent.payload e) "fromAgent" "").
    set (to := payloadString (WorkflowEvent.payload e) "toAgent" "").
    destruct (traced_agentStep s (WorkflowEvent.ts e) from (Store.agents s) id a a
                Hid Hid (or_introl eq_refl)) as (a1 & H1 & Ha1).
    destruct (traced_agentStep s (WorkflowEvent.ts e) to _ id a a1 Hid H1 Ha1)
      as (a2 & H2 & Ha2).
    exists a2. split; [exact H2|].
    destruct Ha2 as [-> | ->]; [apply agentStep_refl | apply incrementAgentTrace_step].
  - (* workflow.status *)
    agents_of_store.
    destruct (agentEntry _ s) as [agent|stray|] eqn:Hentry; [|exact Hsame..].
    apply agentEntry_Node in Hentry.
    eapply insert_agentStep; [exact Hentry | apply incrementAgentTrace_step | exact Hid].
Qed.

(** Evaluates [classify] at the literal kind in the goal. *)
Ltac classify_literal :=
  match goal with
  | |- context [classify ?k] =>
      let c := eval vm_compute in (classify k) in change (classify k) with c
  end.

Section Agents.
Context `{DateApi}.

Lemma addEvent_agentStep now e s id a :
  Store.agents s !! id = Some a ->
  exists a', Store.agents (addEvent now e s) !! id = Some a' /\ agentStep a a'.
Proof.
  intros Hid. unfold addEvent. apply processAgentEvent_agentStep.
  by destruct (updateRunFromEvent_frame e (recordEvent now e s))
    as (_ & _ & _ & _ & _ & _ & -> & _).
Qed.

Lemma addEvents_agentStep now events s id a :
  Store.agents s !! id = Some a ->
  exists a', Store.agents (addEvents now events s) !! id = Some a' /\ agentStep a a'.
Proof.
  revert s a. induction events as [|e events IH]; intros s a Hid.
  - exists a. split; [done | apply agentStep_refl].
  - change (addEvents now (e :: events) s) with (addEvents now events (addEvent now e s)).
    destruct (addEvent_agentStep now e s id a Hid) as (a1 & H1 & Hs1).
    destruct (IH _ _ H1) as (a2 & H2 & Hs2).
    exists a2. split; [done | by eapply agentStep_trans].
Qed.

(** X10. No envelope removes an agent or changes what it was created
    with: an agent in the registry is still there after any run of
    admitted envelopes, with the same id, name, inclusion flag, category
    and assigned data sources. *)
Theorem agents_are_never_removed now events s id a :
  Store.agents s !! id = Some a ->
  exists a',
    Store.agents (addEvents now events s) !! id = Some a'
    /\ AgentNode.id a' = AgentNode.id a
    /\ AgentNode.name a' = AgentNode.name a
    /\ AgentNode.included a' = AgentNode.included a
    /\ AgentNode.category a' = AgentNode.category a
    /\ AgentNode.dataSources a' = AgentNode.dataSources a.
Proof.
  intros Hid.
  destruct (addEvents_agentStep now events s id a Hid)
    as (a' & Hl & Hi & Hn & Hinc & Hc & Hd & _).
  by exists a'.
Qed.

(** X11. Evidence is only appended and traces are only counted up: after
    any run of admitted envelopes the evidence list of an agent starts
    with the list it had, and its trace count is not lower. *)
Theorem evidence_is_append_only now events s id a :
  Store.agents s !! id = Some a ->
  exists a',
    Store.agents (addEvents now events s) !! id = Some a'
    /\ AgentNode.evidence a `prefix_of` AgentNode.evidence a'
    /\ (length (AgentNode.evidence a) <= length (AgentNode.evidence a'))%nat
    /\ nullish (AgentNode.traceCount a) 0 <= nullish (AgentNode.traceCount a') 0.
Proof.
  intros Hid.
  destruct (addEvents_agentStep now events s id a Hid)
    as (a' & Hl & _ & _ & _ & _ & _ & Ht & He).
  exists a'. repeat split; try done. by apply prefix_length.
Qed.

(** X12. An envelope of a kind that is attributed to an agent counts
    exactly one trace for the agent it names, when that agent is known,
    stamps the trace with the time of the envelope, and touches no other
    agent. For [data_source.query_complete] this holds unless the update
    throws, that is, when the source type is not a name under which the
    data source registry holds or inherits something other than a data
    source. *)
Theorem one_trace_per_envelope now e s a :
  WorkflowEvent.kind e ∈ tracedKinds ->
  knownAgent (agentIdOf e) s = Some a ->
  (WorkflowEvent.kind e = "data_source.query_complete" ->
   isStray (dataSourcesAt (payloadString (WorkflowEvent.payload e) "sourceType" "") s)
   = false) ->
  exists a',
    Store.agents (addEvent now e s) !! agentIdOf e = Some a'
    /\ AgentNode.traceCount a' = Some (nullish (AgentNode.traceCount a) 0 + 1)
    /\ AgentNode.lastTraceAt a' = Some (WorkflowEvent.ts e)
    /\ forall id, id <> agentIdOf e ->
                  Store.agents (addEvent now e s) !! id = Store.agents s !! id.
Proof.
  intros Hk Hknown Hsource. unfold addEvent.
  assert (Hentry : agentEntry (agentIdOf e) (updateRunFromEvent e (recordEvent now e s))
                   = Node a) by (rewrite agentEntry_recorded; by apply knownAgent_entry).
  assert (Hat : agentsAt (agentIdOf e) (updateRunFromEvent e (recordEvent now e s))
                = Node a).
  { revert Hentry. unfold agentEntry.
    by destruct (knownAgent_Some _ _ _ Hknown) as [-> _]. }
  assert (Hsrc : WorkflowEvent.kind e = "data_source.query_complete" ->
                 isStray (dataSourcesAt
                            (payloadString (WorkflowEvent.payload e) "sourceType" "")
                            (updateRunFromEvent e (recordEvent now e s))) = false)
    by (intros Hq; rewrite dataSourcesAt_recorded; auto).
  assert (Hagents : Store.agents (updateRunFromEvent e (recordEvent now e s)) = Store.agents s)
    by by destruct (updateRunFromEvent_frame e (recordEvent now e s))
         as (_ & _ & _ & _ & _ & _ & -> & _).
  revert Hentry Hat Hsrc Hagents.
  generalize (updateRunFromEvent e (recordEvent now e s)) as s1.
  intros s1 Hentry Hat Hsrc Hagents. rewrite <- Hagents.
  pose proof (knownAgent_Some _ _ _ Hknown) as [Htruthy _].
  unfold processAgentEvent, tracedKinds in *.
  rewrite !elem_of_cons, elem_of_nil in Hk.
  repeat (destruct Hk as [Hk | Hk];
    [ rewrite Hk; classify_literal; cbv iota beta; unfold_cases; cbv zeta;
      try rewrite (Hsrc Hk);
      rewrite ?Hentry, ?Htruthy, ?Hat; cbv iota beta zeta; simpl negb; simpl orb;
      cbv iota;
      agents_of_store; cbn [nodeOf nullish fmap option_fmap option_map];
      (eexists; split; [apply lookup_insert_eq|];
       split; [reflexivity|]; split; [reflexivity|];
       intros id Hne; by rewrite lookup_insert_ne) |]).
  done.
Qed.

End Agents.

Lemma agents_are_never_removed_witness :
  exists a',
    Store.agents
      (addEvents (H:=IsoDate.api) 1709296204000 [spanEndedA; unknownKindEvent; spanStartedX]
         scenarioDone) !! "B" = Some a'
    /\ AgentNode.included a' = false.
Proof.
  assert (HB : exists b, Store.agents scenarioDone !! "B" = Some b
                         /\ AgentNode.included b = false)
    by (vm_compute; eexists; split; reflexivity).
  destruct HB as (b & HB & Hinc).
  destruct (agents_are_never_removed (H:=IsoDate.api) 1709296204000
              [spanEndedA; unknownKindEvent; spanStartedX] scenarioDone "B" b HB)
    as (a' & Hl & _ & _ & Hi & _).
  exists a'. split; [exact Hl | by rewrite Hi].
Defined.

Lemma evidence_is_append_only_witness :
  exists a',
    Store.agents
      (addEvents (H:=IsoDate.api) 1709296204000 [queryCompleteA 80; spanEndedA] scenarioDone)
      !! "A" = Some a'
    /\ (1 <= length (AgentNode.evidence a'))%nat.
Proof.
  assert (HA : exists a, Store.agents scenarioDone !! "A" = Some a
                         /\ length (AgentNode.evidence a) = 1%nat)
    by (vm_compute; eexists; split; reflexivity).
  destruct HA as (a & HA & Hlen).
  destruct (evidence_is_append_only (H:=IsoDate.api) 1709296204000
              [queryCompleteA 80; spanEndedA] scenarioDone "A" a HA)
    as (a' & Hl & _ & Hle & _).
  exists a'. split; [exact Hl | by rewrite <- Hlen].
Defined.

Lemma one_trace_per_envelope_witness :
  exists a',
    Store.agents (addEvent (H:=IsoDate.api) 1709296204000 (queryCompleteA 80) scenarioDone)
    !! "A" = Some a'
    /\ AgentNode.traceCount a' = Some 5.
Proof.
  assert (HA : exists a, knownAgent (agentIdOf (queryCompleteA 80)) scenarioDone = Some a
                         /\ AgentNode.traceCount a = Some 4)
    by (vm_compute; eexists; split; reflexivity).
  destruct HA as (a & HA & Htc).
  destruct (one_trace_per_envelope (H:=IsoDate.api) 1709296204000 (queryCompleteA 80)
              scenarioDone a)
    as (a' & Hl & Ht & _).
  - unfold tracedKinds. rewrite !elem_of_cons. do 9 right. left. reflexivity.
  - exact HA.
  - intros _. vm_compute. reflexivity.
  - exists a'. split; [exact Hl|]. rewrite Ht, Htc. reflexivity.
Defined.

(** ** Invariants of the reachable states *)

Lemma set_from_spec (l seen : list string) :
  NoDup (set_from seen l) /\ forall x, x ∈ set_from seen l -> (x ∉ seen) /\ (x ∈ l).
Proof.
  revert seen. induction l as [|y l IH]; intros seen; simpl.
  - split; [constructor | intros x Hx; by apply elem_of_nil in Hx].
  - case_bool_decide as Hy.
    + destruct (IH seen) as [Hnd Hin]. split; [done|].
      intros x Hx. destruct (Hin x Hx). split; [done | by right].
    + destruct (IH (y :: seen)) as [Hnd Hin]. split.
      * constructor; [|done]. intros Hx. destruct (Hin y Hx) as [Hn _].
        apply Hn. left.
      * intros x [->|Hx]%elem_of_cons; [split; [done | left]|].
        destruct (Hin x Hx) as [Hn Hl]. split; [|by right].
        intros Hs. apply Hn. by right.
Qed.

Lemma Array_from_Set_NoDup (l : list string) : NoDup (Array_from_Set l).
Proof. apply set_from_spec. Qed.

Lemma without_NoDup id (l : list string) : NoDup l -> NoDup (without id l).
Proof.
  unfold without. induction 1 as [|x l Hx Hnd IH]; simpl; [constructor|].
  destruct (negb (x =? id)%string); [|done].
  constructor; [|done]. rewrite list_elem_of_In, filter_In, <- list_elem_of_In. tauto.
Qed.

Lemma processAgentEvent_idLists now e s :
  idListsNoDup s -> idListsNoDup (processAgentEvent now e s).
Proof.
  unfold idListsNoDup. intros (Ha & Hc & Hf).
  pose proof Array_from_Set_NoDup. pose proof without_NoDup.
  unfold processAgentEvent.
  destruct (classify (WorkflowEvent.kind e)) as [[]|]; try done; unfold_cases;
    try solve [ lazymatch goal with |- context [agentEntry (agentIdOf e) s] => idtac end;
                destruct (agentEntry (agentIdOf e) s); try done; cbn; repeat split; auto;
                match goal with
                | |- context [if ?b then _ else _] => destruct b
                end; simpl; auto ].
  - destruct (negb (truthy (agentIdOf e))); [done|].
    destruct (agentsAt (agentIdOf e) s); cbn; auto.
  - by destruct (_ && _).
Qed.

(** The rates and the warning flag under the reducer. *)
Lemma processAgentEvent_flags now e s :
  let s' := processAgentEvent now e s in
  Store.eventRatePerMin s' = Store.eventRatePerMin s
  /\ RunProgress.eventRatePerMin (Store.runProgress s')
     = RunProgress.eventRatePerMin (Store.runProgress s)
  /\ ((RunProgress.isStale (Store.runProgress s') = RunProgress.isStale (Store.runProgress s)
       /\ Store.noUpdateWarning s' = Store.noUpdateWarning s)
      \/ (RunProgress.isStale (Store.runProgress s') = false
          /\ Store.noUpdateWarning s' = false)).
Proof.
  unfold processAgentEvent.
  destruct (classify (WorkflowEvent.kind e)) as [[]|]; cbn; unfold_cases;
    first
      [ by repeat split; auto
      | by destruct (agentEntry (agentIdOf e) s); repeat split; auto
      | by destruct (negb (truthy (agentIdOf e))); [|destruct (agentsAt (agentIdOf e) s)];
           repeat split; auto
      | by match goal with
           | |- context [if ?b && ?c then _ else _] => destruct (b && c); repeat split; auto
           end
      | by match goal with
           | |- context [if ?b || ?c then _ else _] => destruct (b || c); repeat split; auto
           end ].
Qed.

Lemma sourceWellFormed_update key ds ds' :
  sourceWellFormed key ds ->
  DataSourceActivity.id ds' = DataSourceActivity.id ds ->
  DataSourceActivity.queryCount ds' = DataSourceActivity.queryCount ds ->
  DataSourceActivity.sparkline ds' = DataSourceActivity.sparkline ds ->
  sourceWellFormed key ds'.
Proof. unfold sourceWellFormed. intros (? & ? & ? & ?) -> -> ->. done. Qed.

Lemma sourceWellFormed_completeQuery key e ds :
  sourceWellFormed key ds -> sourceWellFormed key (completeQuery e ds).
Proof.
  unfold sourceWellFormed. intros (Hid & Hc & Hl & Hq). cbn.
  pose proof (slice_last_length 19 (DataSourceActivity.sparkline ds)) as H19.
  assert (Hsl : (length (slice_last 19 (DataSourceActivity.sparkline ds))
                 <= length (DataSourceActivity.sparkline ds))%nat).
  { unfold slice_last. rewrite length_drop. lia. }
  rewrite length_app. simpl.
  assert (H53 : 20 <= 2 ^ 53) by (vm_compute; discriminate).
  repeat split; try done; [apply js_add_lower | lia | apply js_add_lower]; lia.
Qed.

Lemma registryWellFormed_insert s key ds ds' :
  registryWellFormed s ->
  Store.dataSources s !! key = Some ds ->
  sourceWellFormed key ds' ->
  dom (<[ key := ds' ]> (Store.dataSources s)) = dom createDefaultDataSources
  /\ forall k d, <[ key := ds' ]> (Store.dataSources s) !! k = Some d -> sourceWellFormed k d.
Proof.
  intros (Hdom & Hwf & _) Hkey Hds'. split.
  - rewrite dom_insert_L, <- Hdom.
    apply subseteq_union_1_L, singleton_subseteq_l, elem_of_dom. eauto.
  - intros k d. destruct (decide (key = k)) as [<-|Hne].
    + rewrite lookup_insert_eq. by intros [= <-].
    + rewrite lookup_insert_ne by done. apply Hwf.
Qed.

Lemma dataSourcesAt_Stray key s stray :
  registryWellFormed s -> dataSourcesAt key s = Stray stray -> inherited key = true.
Proof.
  intros (_ & _ & Hstray). unfold dataSourcesAt.
  destruct (Store.dataSources s !! key); [done|].
  destruct (Store.strayDataSources s !! key) as [st|] eqn:Hst; [by eauto|].
  by destruct (inherited key).
Qed.

(** The sources under the [query_start] case. *)
Lemma query_start_registry s sourceType (f : DataSourceActivity.t -> DataSourceActivity.t)
    (g : StraySource.t -> StraySource.t)
    (sources : gmap string DataSourceActivity.t) (strays : gmap string StraySource.t) :
  registryWellFormed s ->
  (forall ds, DataSourceActivity.id (f ds) = DataSourceActivity.id ds
              /\ DataSourceActivity.queryCount (f ds) = DataSourceActivity.queryCount ds
              /\ DataSourceActivity.sparkline (f ds) = DataSourceActivity.sparkline ds) ->
  sources = match (if truthy sourceType then Store.dataSources s !! sourceType else None) with
            | Some ds => <[ sourceType := f ds ]> (Store.dataSources s)
            | None => Store.dataSources s
            end ->
  strays = match (if truthy sourceType then dataSourcesAt sourceType s else Absent) with
           | Stray source => <[ sourceType := g source ]> (Store.strayDataSources s)
           | _ => Store.strayDataSources s
           end ->
  dom sources = dom createDefaultDataSources
  /\ (forall key ds, sources !! key = Some ds -> sourceWellFormed key ds)
  /\ (forall key stray, strays !! key = Some stray -> inherited key = true).
Proof.
  intros Hwf Hf -> ->. pose proof Hwf as (Hdom & Hsrc & Hstray).
  destruct (truthy sourceType); [|done].
  assert (Hs : forall key stray,
             match dataSourcesAt sourceType s with
             | Stray source => <[ sourceType := g source ]> (Store.strayDataSources s)
             | _ => Store.strayDataSources s
             end !! key = Some stray -> inherited key = true).
  { destruct (dataSourcesAt sourceType s) as [|source|] eqn:Hat; [done| |done].
    intros key stray. destruct (decide (sourceType = key)) as [<-|Hne].
    - intros _. by eapply dataSourcesAt_Stray.
    - rewrite lookup_insert_ne by done. apply Hstray. }
  destruct (Store.dataSources s !! sourceType) as [ds|] eqn:Hds; [|done].
  destruct (registryWellFormed_insert s sourceType ds (f ds) Hwf Hds) as [Hd1 Hw1].
  { destruct (Hf ds) as (Hi & Hq & Hsp).
    eapply sourceWellFormed_update; [by apply Hsrc | done..]. }
  done.
Qed.

Lemma processAgentEvent_registry now e s :
  registryWellFormed s -> registryWellFormed (processAgentEvent now e s).
Proof.
  intros Hwf. unfold processAgentEvent.
  destruct (classify (WorkflowEvent.kind e)) as [[]|]; try exact Hwf; unfold_cases;
    try (destruct (agentEntry (agentIdOf e) s); exact Hwf).
  - destruct (negb (truthy (agentIdOf e))); [exact Hwf|].
    destruct (agentsAt (agentIdOf e) s); exact Hwf.
  - (* data_source.query_start *)
    destruct (agentEntry (agentIdOf e) s); [| |exact Hwf];
      unfold registryWellFormed;
      cbn [Store.dataSources Store.strayDataSources upd Store.set_agents
           Store.set_strayAgents Store.set_agentsProto Store.set_dataSources
           Store.set_strayDataSources Store.set_runProgress];
      eapply (query_start_registry s); [exact Hwf | | reflexivity | reflexivity | exact Hwf
                                        | | reflexivity | reflexivity]; by intros ds.
  - (* data_source.query_complete *)
    destruct (_ || _); [exact Hwf|].
    unfold registryWellFormed. cbn.
    destruct (Store.dataSources s !! _) as [ds|] eqn:Hds; [|exact Hwf]. simpl.
    destruct (registryWellFormed_insert s _ ds (completeQuery e ds) Hwf Hds) as [Hd Hw].
    { apply sourceWellFormed_completeQuery. by apply Hwf. }
    split; [exact Hd|]. split; [exact Hw | apply Hwf].
  - destruct (truthy _ && truthy _); exact Hwf.
Qed.

Lemma createDefaultDataSources_wellFormed key ds :
  createDefaultDataSources !! key = Some ds -> sourceWellFormed key ds.
Proof.
  unfold createDefaultDataSources. simpl foldl.
  rewrite !lookup_insert. repeat case_decide; subst;
    try (intros [= <-]; unfold sourceWellFormed; cbn; repeat split; done || lia).
Qed.

Lemma updateRunFromEvent_rate e s :
  Store.eventRatePerMin (updateRunFromEvent e s) = Store.eventRatePerMin s.
Proof. unfold updateRunFromEvent. by destruct (Store.currentRun s). Qed.

Section Invariants.
Context `{DateApi}.

Lemma recordEvent_rate now e s :
  0 <= Store.eventRatePerMin (recordEvent now e s)
  <= Z.of_nat (length (Store.events (recordEvent now e s)))
  /\ Store.eventRatePerMin (recordEvent now e s)
     = RunProgress.eventRatePerMin (Store.runProgress (recordEvent now e s)).
Proof.
  cbn. split; [|done].
  pose proof (List.filter_length_le (countsForRate (now - 60000))
                (slice_last MAX_STORED_EVENTS (Store.events s ++ [e]))).
  lia.
Qed.

(** X13. In every reachable state the three id lists of the store
    (active, completed, failed agents) hold no id twice. *)
Theorem id_lists_have_no_duplicates s :
  reachable s -> idListsNoDup s.
Proof.
  induction 1 as [|a s _ IH]; [repeat split; constructor|].
  destruct a; simpl step; try exact IH.
  - by destruct (updateRunFromEvent_frame event s)
      as (_ & _ & _ & _ & _ & _ & _ & _ & _ & _ & Ha & Hc & Hf & _);
      unfold idListsNoDup; rewrite Ha, Hc, Hf.
  - unfold addEvent. apply processAgentEvent_idLists.
    by destruct (updateRunFromEvent_frame event (recordEvent now event s))
      as (_ & _ & _ & _ & _ & _ & _ & _ & _ & _ & Ha & Hc & Hf & _);
      unfold idListsNoDup; rewrite Ha, Hc, Hf.
  - repeat split; constructor.
  - repeat split; constructor.
  - by apply processAgentEvent_idLists.
Qed.

(** X14. In every reachable state the event log holds at most 1500
    envelopes, and the event rate of the store lies between 0 and the
    length of the log; the rate shown in the run progress lies between 0
    and 1500. *)
Theorem log_and_rate_are_bounded s :
  reachable s -> logWithinCapacity s.
Proof.
  unfold logWithinCapacity, MAX_STORED_EVENTS.
  induction 1 as [|a s _ IH]; [cbn; lia|].
  destruct a; simpl step; try exact IH.
  - unfold setCurrentRunId. destruct (truthy _); cbn; [exact IH|].
    split; [apply IH|]. split; [apply IH | lia].
  - rewrite updateRunFromEvent_rate.
    by destruct (updateRunFromEvent_frame event s) as (-> & _ & _ & _ & _ & -> & _).
  - unfold addEvent.
    destruct (processAgentEvent_frame now event
                (updateRunFromEvent event (recordEvent now event s))) as (-> & _).
    destruct (processAgentEvent_flags now event
                (updateRunFromEvent event (recordEvent now event s))) as (-> & -> & _).
    destruct (updateRunFromEvent_frame event (recordEvent now event s))
      as (-> & _ & _ & _ & _ & -> & _).
    rewrite updateRunFromEvent_rate.
    destruct (recordEvent_rate now event s) as [Hr <-].
    pose proof (slice_last_length 1500 (Store.events s ++ [event])) as Hlen.
    change (Store.events (recordEvent now event s))
      with (slice_last 1500 (Store.events s ++ [event])) in *.
    lia.
  - cbn. lia.
  - destruct (processAgentEvent_frame now event s) as (-> & _).
    by destruct (processAgentEvent_flags now event s) as (-> & -> & _).
Qed.

(** X15. In every reachable state the data sources are the eight of the
    registry the store starts with, each under its own id, with a
    query count that is not negative and a sparkline of at most 20
    entries, no more than there were queries; whatever else the registry
    object has come to hold sits under a name it inherits from
    [Object.prototype], where a [data_source.query_start] put it. *)
Theorem data_source_registry_is_fixed s :
  reachable s -> registryWellFormed s.
Proof.
  assert (Hinit : registryWellFormed initialStore).
  { split; [done|]. split; [apply createDefaultDataSources_wellFormed|].
    intros key stray Hl. exfalso. revert Hl. apply lookup_empty_Some. }
  induction 1 as [|a s _ IH]; [exact Hinit|].
  destruct a; simpl step; try exact IH.
  - by destruct (updateRunFromEvent_frame event s)
      as (_ & _ & _ & _ & _ & _ & _ & Hd & _ & _ & _ & _ & _ & _ & _ & Hs);
      unfold registryWellFormed; rewrite Hd, Hs.
  - unfold addEvent. apply processAgentEvent_registry.
    by destruct (updateRunFromEvent_frame event (recordEvent now event s))
      as (_ & _ & _ & _ & _ & _ & _ & Hd & _ & _ & _ & _ & _ & _ & _ & Hs);
      unfold registryWellFormed; rewrite Hd, Hs.
  - exact Hinit.
  - by apply processAgentEvent_registry.
Qed.

(** X16. In every reachable state the staleness flag of the run progress
    is up only together with the warning flag of the store, and the
    warning flag only while the store is connected. *)
Theorem warning_flags_are_ordered s :
  reachable s -> warningFlagsOrdered s.
Proof.
  unfold warningFlagsOrdered.
  induction 1 as [|a s _ IH]; [done|].
  assert (Hred : forall now event s0,
            ((RunProgress.isStale (Store.runProgress s0) = true ->
              Store.noUpdateWarning s0 = true)
             /\ (Store.noUpdateWarning s0 = true -> Store.isConnected s0 = true)) ->
            (RunProgress.isStale (Store.runProgress (processAgentEvent now event s0)) = true ->
             Store.noUpdateWarning (processAgentEvent now event s0) = true)
            /\ (Store.noUpdateWarning (processAgentEvent now event s0) = true ->
                Store.isConnected (processAgentEvent now event s0) = true)).
  { intros now event s0 IH0.
    destruct (processAgentEvent_frame now event s0) as (_ & -> & _).
    destruct (processAgentEvent_flags now event s0) as (_ & _ & [[-> ->] | [-> ->]]);
      [exact IH0 | done]. }
  destruct a; simpl step; try exact IH.
  - unfold setCurrentRunId. destruct (truthy _); cbn; [exact IH|]. split; [done | apply IH].
  - unfold updateRunFromEvent. by destruct (Store.currentRun s).
  - unfold addEvent. apply Hred.
    unfold updateRunFromEvent. by destruct (Store.currentRun _).
  - by cbn.
  - destruct connected; cbn; [split; [apply IH | done] | done].
  - unfold evaluateStaleness. cbn. split; [done|]. by intros [? _]%andb_true_iff.
  - by apply Hred.
Qed.

End Invariants.

Lemma scenarioDone_reachable : reachable (H:=IsoDate.api) scenarioDone.
Proof.
  apply (reachable_step (H:=IsoDate.api) (AddEvent 1709296203000 spanEndedA)).
  apply (reachable_step (H:=IsoDate.api) (AddEvent 1709296202000 (queryCompleteA 120))).
  apply (reachable_step (H:=IsoDate.api) (AddEvent 1709296201000 queryStartA)).
  apply (reachable_step (H:=IsoDate.api) (AddEvent 1709296200000 activatedA)).
  apply (reachable_step (H:=IsoDate.api) (InitializeAgents rosterAB "scenario")).
  apply reachable_init.
Qed.

Lemma id_lists_witness :
  NoDup (Store.activeAgentIds scenarioDone) /\ Store.completedAgentIds scenarioDone = ["A"].
Proof.
  destruct (id_lists_have_no_duplicates (H:=IsoDate.api) scenarioDone scenarioDone_reachable)
    as (Ha & _).
  split; [exact Ha | vm_compute; reflexivity].
Defined.

Lemma log_and_rate_witness :
  (length (Store.events scenarioDone) <= 1500)%nat
  /\ Store.eventRatePerMin scenarioDone <= Z.of_nat (length (Store.events scenarioDone)).
Proof.
  destruct (log_and_rate_are_bounded (H:=IsoDate.api) scenarioDone scenarioDone_reachable)
    as (Hlen & [_ Hrate] & _).
  split; [exact Hlen | exact Hrate].
Defined.

Lemma data_source_registry_witness :
  exists ds, Store.dataSources scenarioDone !! "SQL" = Some ds /\ sourceWellFormed "SQL" ds.
Proof.
  destruct (data_source_registry_is_fixed (H:=IsoDate.api) scenarioDone scenarioDone_reachable)
    as (_ & Hwf & _).
  assert (Hds : exists ds, Store.dataSources scenarioDone !! "SQL" = Some ds)
    by (vm_compute; eexists; reflexivity).
  destruct Hds as [ds Hds]. exists ds. split; [exact Hds | exact (Hwf "SQL" ds Hds)].
Defined.

Lemma warning_flags_witness :
  let s := evaluateStaleness (H:=IsoDate.api) 1709296230000 None connectedAtNoon in
  Store.noUpdateWarning s = true /\ Store.isConnected s = true.
Proof.
  cbv zeta.
  assert (Hr : reachable (H:=IsoDate.api)
                 (evaluateStaleness (H:=IsoDate.api) 1709296230000 None connectedAtNoon)).
  { apply (reachable_step (H:=IsoDate.api) (EvaluateStaleness 1709296230000 None)).
    apply (reachable_step (H:=IsoDate.api)
             (AddEvent 1709296200000 (stampedUpdate "2024-03-01T12:30:00.000Z"))).
    apply (reachable_step (H:=IsoDate.api) (SetConnected true)).
    apply reachable_init. }
  destruct (warning_flags_are_ordered (H:=IsoDate.api) _ Hr) as [Hsw Hwc].
  assert (Hs : RunProgress.isStale
                 (Store.runProgress
                    (evaluateStaleness (H:=IsoDate.api) 1709296230000 None connectedAtNoon))
               = true) by (vm_compute; reflexivity).
  split; [exact (Hsw Hs) | exact (Hwc (Hsw Hs))].
Defined.

(** ** Resets, progress and frames *)

(** X17. Clearing the events puts the store back into the state it was
    created with, except for the connection flag and the three layout
    fields, which it keeps; clearing twice is clearing once. The run
    progress is the default one, so [isLive] is false afterwards even
    while the store is connected. *)
Theorem clearEvents_resets_to_initial s :
  clearEvents s
  = initialStore <| Store.isConnected := Store.isConnected s |>
                 <| Store.sidebarCollapsed := Store.sidebarCollapsed s |>
                 <| Store.bottomDrawerTab := Store.bottomDrawerTab s |>
                 <| Store.bottomDrawerOpen := Store.bottomDrawerOpen s |>
  /\ clearEvents (clearEvents s) = clearEvents s
  /\ RunProgress.isLive (Store.runProgress (clearEvents s)) = false.
Proof. by repeat split. Qed.

Lemma processAgentEvent_overallPct_floor now e s lo :
  lo <= RunProgress.overallPct (Store.runProgress s) ->
  lo <= 100 ->
  reportedRunPct e < 0 \/ lo <= reportedRunPct e ->
  lo <= RunProgress.overallPct (Store.runProgress (processAgentEvent now e s)).
Proof.
  intros Hlo H100 Hrep. unfold processAgentEvent.
  destruct (classify (WorkflowEvent.kind e)) as [[]|]; try done; unfold_cases;
    try (lazymatch goal with |- context [agentEntry (agentIdOf e) s] => idtac end;
         destruct (agentEntry (agentIdOf e) s); try done);
    try (destruct (negb (truthy (agentIdOf e))); [done|];
         destruct (agentsAt (agentIdOf e) s));
    try (destruct (truthy _ && truthy _); [|done]);
    try (destruct (_ || _); [done|]);
    cbn; try done;
    destruct (Z.leb_spec 0 (reportedRunPct e)); lia.
Qed.

Section ProgressFloor.
Context `{DateApi}.

(** X18. Where the stored percentage is at most 100, admitting an
    envelope does not lower it unless the envelope reports a percentage
    that is not negative and lower than the stored one. *)
Theorem progress_drops_only_when_undercut now e s :
  RunProgress.overallPct (Store.runProgress s) <= 100 ->
  reportedRunPct e < 0
  \/ RunProgress.overallPct (Store.runProgress s) <= reportedRunPct e ->
  RunProgress.overallPct (Store.runProgress s)
  <= RunProgress.overallPct (Store.runProgress (addEvent now e s)).
Proof.
  intros H100 Hrep. unfold addEvent.
  apply processAgentEvent_overallPct_floor; [|done|done].
  destruct (updateRunFromEvent_frame e (recordEvent now e s))
    as (_ & _ & _ & _ & _ & -> & _).
  apply recordEvent_overallPct_floor.
Qed.



End ProgressFloor.

Lemma progress_drops_only_when_undercut_witness :
  50 <= RunProgress.overallPct
          (Store.runProgress
             (addEvent (H:=IsoDate.api) 1709296201000 (progressUpdate 70)
                (addEvent (H:=IsoDate.api) 1709296200000 (progressUpdate 50) initialStore))).
Proof.
  assert (H50 : RunProgress.overallPct
                  (Store.runProgress
                     (addEvent (H:=IsoDate.api) 1709296200000 (progressUpdate 50) initialStore))
                = 50) by (vm_compute; reflexivity).
  pose proof (progress_drops_only_when_undercut (H:=IsoDate.api) 1709296201000
                (progressUpdate 70)
                (addEvent (H:=IsoDate.api) 1709296200000 (progressUpdate 50) initialStore))
    as Hthm.
  rewrite H50 in Hthm. apply Hthm; [discriminate|]. right. vm_compute. discriminate.
Defined.


(** ** Tool calls *)

Lemma findLastIndex_latest {A : Type} (p : A -> bool) (l1 l2 : list A) (x : A) :
  p x = true ->
  Forall (fun y => p y = false) l2 ->
  findLastIndex p (l1 ++ x :: l2) = Some (length l1).
Proof.
  intros Hx Hl2.
  assert (Hnone : findLastIndex p l2 = None).
  { induction Hl2 as [|y l2 Hy _ IH]; [done|]. simpl. by rewrite IH, Hy. }
  induction l1 as [|z l1 IH]; simpl.
  - by rewrite Hnone, Hx.
  - by rewrite IH.
Qed.

Lemma findLastIndex_None {A : Type} (p : A -> bool) (l : list A) :
  findLastIndex p l = None <-> Forall (fun y => p y = false) l.
Proof.
  induction l as [|y l IH]; simpl; [by split; [constructor|]|].
  destruct (findLastIndex p l) as [i|].
  - split; [done|]. intros [_ Hl]%Forall_cons. by apply IH in Hl.
  - destruct (p y) eqn:Hy.
    + split; [done|]. intros [Hf _]%Forall_cons. congruence.
    + split; [|done]. intros _. constructor; [done | by apply IH].
Qed.

Lemma alter_middle {A : Type} (f : A -> A) (l1 l2 : list A) (x : A) :
  alter f (length l1) (l1 ++ x :: l2) = l1 ++ f x :: l2.
Proof. rewrite alter_app_r_alt by lia. by rewrite Nat.sub_diag. Qed.

Section Tools.
Context `{DateApi}.

Lemma addEvent_tool_finished now e s a :
  WorkflowEvent.kind e ∈ toolFinishKinds ->
  knownAgent (agentIdOf e) s = Some a ->
  payloadString (WorkflowEvent.payload e) "toolId" "" = "" ->
  exists a',
    Store.agents (addEvent now e s) !! agentIdOf e = Some a'
    /\ AgentNode.toolCalls a'
       = match findLastIndex (runningCallOf e) (AgentNode.toolCalls a) with
         | Some i =>
             alter (finishedCall (bool_decide (WorkflowEvent.kind e ∈ toolFailureKinds)) e) i
               (AgentNode.toolCalls a)
         | None => AgentNode.toolCalls a
         end.
Proof.
  intros Hk Hknown Hid. unfold addEvent.
  assert (Hknown' : knownAgent (agentIdOf e) (updateRunFromEvent e (recordEvent now e s))
                    = Some a) by by rewrite knownAgent_updateRun.
  revert Hknown'. generalize (updateRunFromEvent e (recordEvent now e s)) as s1.
  intros s1 Hknown'.
  unfold processAgentEvent, toolFinishKinds in *.
  rewrite !elem_of_cons, elem_of_nil in Hk.
  repeat (destruct Hk as [Hk | Hk];
    [ rewrite Hk; classify_literal; cbv iota beta; unfold case_TOOL_FINISHED;
      rewrite (knownAgent_entry _ _ _ Hknown'), Hid; cbn [truthy String.eqb negb]; cbv iota;
      agents_of_store; eexists; split; [apply lookup_insert_eq|];
      by destruct (findLastIndex _ _) |]).
  done.
Qed.

(** X20. A finishing tool envelope without a tool id is matched with the
    most recent call of that tool that is still running: that call is
    marked done (or failed) and stamped, the calls before and after it
    are left as they are; with no such call the list is left as it is. *)
Theorem tool_completion_marks_latest_running_call now e s a :
  WorkflowEvent.kind e ∈ toolFinishKinds ->
  knownAgent (agentIdOf e) s = Some a ->
  payloadString (WorkflowEvent.payload e) "toolId" "" = "" ->
  exists a',
    Store.agents (addEvent now e s) !! agentIdOf e = Some a'
    /\ (forall l1 tc l2,
          AgentNode.toolCalls a = l1 ++ tc :: l2 ->
          runningCallOf e tc = true ->
          Forall (fun c => runningCallOf e c = false) l2 ->
          AgentNode.toolCalls a'
          = l1 ++ finishedCall (bool_decide (WorkflowEvent.kind e ∈ toolFailureKinds)) e tc
               :: l2)
    /\ (Forall (fun c => runningCallOf e c = false) (AgentNode.toolCalls a) ->
        AgentNode.toolCalls a' = AgentNode.toolCalls a)
    /\ length (AgentNode.toolCalls a') = length (AgentNode.toolCalls a).
Proof.
  intros Hk Hknown Hid.
  destruct (addEvent_tool_finished now e s a Hk Hknown Hid) as (a' & Hl & Hcalls).
  exists a'. split; [done|]. split; [|split].
  - intros l1 tc l2 Hsplit Hrun Hafter. rewrite Hcalls, Hsplit.
    rewrite (findLastIndex_latest _ l1 l2 tc Hrun Hafter). apply alter_middle.
  - intros Hnone. rewrite Hcalls. by apply findLastIndex_None in Hnone as ->.
  - rewrite Hcalls. destruct (findLastIndex _ _); [apply length_alter | done].
Qed.

Lemma addEvent_tool_called now e s a :
  WorkflowEvent.kind e = "tool.called" \/ WorkflowEvent.kind e = "tool_called" ->
  knownAgent (agentIdOf e) s = Some a ->
  exists a' tc,
    knownAgent (agentIdOf e) (addEvent now e s) = Some a'
    /\ AgentNode.toolCalls a' = AgentNode.toolCalls a ++ [tc]
    /\ AgentToolCall.toolName tc = toolNameOf e
    /\ AgentToolCall.status tc = ToolRunning.
Proof.
  intros Hk Hknown. unfold addEvent.
  assert (Hknown' : knownAgent (agentIdOf e) (updateRunFromEvent e (recordEvent now e s))
                    = Some a) by by rewrite knownAgent_updateRun.
  revert Hknown'. generalize (updateRunFromEvent e (recordEvent now e s)) as s1.
  intros s1 Hknown'.
  pose proof (knownAgent_Some _ _ _ Hknown') as [Htruthy _].
  unfold processAgentEvent.
  destruct Hk as [Hk | Hk]; rewrite Hk; classify_literal; cbv iota beta;
    unfold case_TOOL_CALLED; rewrite (knownAgent_entry _ _ _ Hknown');
    (eexists; eexists; split;
     [ unfold knownAgent; rewrite Htruthy; agents_of_store; apply lookup_insert_eq
     | by repeat split ]).
Qed.

(** X21. A call and its completion pair up: after a [tool.called]
    envelope and then a completion for the same agent and tool name that
    carries no tool id, the call that was added is the last of the list
    and is done; the calls the agent had before are as they were. *)
Theorem tool_call_then_completion now1 now2 called completed s a :
  WorkflowEvent.kind called = "tool.called" \/ WorkflowEvent.kind called = "tool_called" ->
  WorkflowEvent.kind completed = "tool.completed"
  \/ WorkflowEvent.kind completed = "tool_completed" ->
  agentIdOf completed = agentIdOf called ->
  toolNameOf completed = toolNameOf called ->
  payloadString (WorkflowEvent.payload completed) "toolId" "" = "" ->
  knownAgent (agentIdOf called) s = Some a ->
  exists a' tc,
    Store.agents (addEvent now2 completed (addEvent now1 called s)) !! agentIdOf called
    = Some a'
    /\ AgentNode.toolCalls a' = AgentNode.toolCalls a ++ [tc]
    /\ AgentToolCall.toolName tc = toolNameOf called
    /\ AgentToolCall.status tc = ToolDone
    /\ AgentToolCall.endedAt tc = Some (WorkflowEvent.ts completed).
Proof.
  intros Hk1 Hk2 Hagent Htool Hid Hknown.
  destruct (addEvent_tool_called now1 called s a Hk1 Hknown)
    as (a1 & tc & Hknown1 & Hcalls1 & Hname & Hrun).
  rewrite <- Hagent in Hknown1.
  assert (Hfin : WorkflowEvent.kind completed ∈ toolFinishKinds).
  { unfold toolFinishKinds. rewrite !elem_of_cons. tauto. }
  destruct (addEvent_tool_finished now2 completed _ a1 Hfin Hknown1 Hid)
    as (a2 & Hl2 & Hcalls2).
  assert (Hnotfail : bool_decide (WorkflowEvent.kind completed ∈ toolFailureKinds) = false).
  { apply bool_decide_eq_false. unfold toolFailureKinds.
    rewrite !elem_of_cons, elem_of_nil. destruct Hk2 as [-> | ->]; intuition discriminate. }
  assert (Hmatch : runningCallOf completed tc = true).
  { unfold runningCallOf, isRunning. rewrite Hname, Htool, Hrun.
    by rewrite String.eqb_refl. }
  rewrite Hcalls1 in Hcalls2.
  rewrite (findLastIndex_latest _ (AgentNode.toolCalls a) [] tc Hmatch) in Hcalls2
    by constructor.
  rewrite alter_middle, Hnotfail in Hcalls2.
  rewrite Hagent in Hl2.
  exists a2, (finishedCall false completed tc).
  split; [done|]. split; [done|]. by repeat split.
Qed.

End Tools.

Lemma tool_completion_witness :
  exists a',
    Store.agents
      (addEvent (H:=IsoDate.api) 1709296207000 toolCompletedA
         (addEvent (H:=IsoDate.api) 1709296206000 toolCalledA
            (addEvent (H:=IsoDate.api) 1709296205000 toolCalledA scenarioDone))) !! "A"
    = Some a'
    /\ AgentToolCall.status <$> AgentNode.toolCalls a' = [ToolRunning; ToolDone].
Proof.
  pose (s2 := addEvent (H:=IsoDate.api) 1709296206000 toolCalledA
                (addEvent (H:=IsoDate.api) 1709296205000 toolCalledA scenarioDone)).
  assert (Hs2 : exists a c1 c2,
             knownAgent (agentIdOf toolCompletedA) s2 = Some a
             /\ AgentNode.toolCalls a = [c1] ++ c2 :: []
             /\ runningCallOf toolCompletedA c2 = true
             /\ AgentToolCall.status c1 = ToolRunning).
  { vm_compute. do 3 eexists. split; [reflexivity|]. split; [reflexivity|].
    split; reflexivity. }
  destruct Hs2 as (a & c1 & c2 & Hknown & Hcalls & Hrun & Hc1).
  destruct (tool_completion_marks_latest_running_call (H:=IsoDate.api) 1709296207000
              toolCompletedA s2 a)
    as (a' & Hl & Hlatest & _).
  - unfold toolFinishKinds. rewrite !elem_of_cons. left. reflexivity.
  - exact Hknown.
  - reflexivity.
  - exists a'. split; [exact Hl|].
    rewrite (Hlatest [c1] c2 [] Hcalls Hrun ltac:(constructor)).
    transitivity [AgentToolCall.status c1; ToolDone]; [reflexivity | by rewrite Hc1].
Defined.

Lemma tool_call_then_completion_witness :
  exists a' tc,
    Store.agents
      (addEvent (H:=IsoDate.api) 1709296206000 toolCompletedA
         (addEvent (H:=IsoDate.api) 1709296205000 toolCalledA scenarioDone)) !! "A"
    = Some a'
    /\ AgentNode.toolCalls a' = [tc]
    /\ AgentToolCall.status tc = ToolDone.
Proof.
  assert (Hs : exists a, knownAgent (agentIdOf toolCalledA) scenarioDone = Some a
                         /\ AgentNode.toolCalls a = [])
    by (vm_compute; eexists; split; reflexivity).
  destruct Hs as (a & Hknown & Hnil).
  destruct (tool_call_then_completion (H:=IsoDate.api) 1709296205000 1709296206000
              toolCalledA toolCompletedA scenarioDone a
              (or_introl eq_refl) (or_introl eq_refl) eq_refl eq_refl eq_refl Hknown)
    as (a' & tc & Hl & Hcalls & _ & Hst & _).
  exists a', tc. rewrite Hnil in Hcalls. split; [exact Hl|]. split; [exact Hcalls | exact Hst].
Defined.

(** ** The recovery plan *)

(** X22. The overall score of an option is the weighted sum of its five
    scores in double arithmetic, each product and each partial sum
    rounded. For scores that are integers between [0] and [2^53] it is
    a weighted mean up to rounding: if the five scores lie between
    [lo] and [hi], the overall score lies between [lo * (1 - 2^-50)]
    and [hi * (1 + 2^-50)]. *)
Theorem weighted_score_is_a_mean_up_to_rounding (scores : Scores.t) (lo hi : Z) :
  scoresWithin lo hi scores ->
  0 <= lo -> hi <= 2 ^ 53 ->
  (inject_Z lo * (1 - (1 # 2 ^ 50)) <= weightedScore scores
   /\ weightedScore scores <= inject_Z hi * (1 + (1 # 2 ^ 50)))%Q.
Proof.
  unfold scoresWithin, weightedScore.
  intros ([Hd1 Hd2] & [Hc1 Hc2] & [Hs1 Hs2] & [Hk1 Hk2] & [Hp1 Hp2]) Hlo _.
  set (c25 := double (25 # 100)). set (c15 := double (15 # 100)).
  set (c20 := double (20 # 100)).
  assert (E25 : (c25 == 1 # 4)%Q) by (vm_compute; reflexivity).
  assert (E15 : (c15 == 5404319552844595 # 36028797018963968)%Q) by (vm_compute; reflexivity).
  assert (E20 : (c20 == 3602879701896397 # 18014398509481984)%Q) by (vm_compute; reflexivity).
  assert (Hterm : forall (score : Z) (c : Q),
             lo <= score -> (1 # 8 <= c)%Q ->
             (inject_Z score * c * (1 - roundoff) <= double (inject_Z score * c)
              /\ double (inject_Z score * c) <= inject_Z score * c * (1 + roundoff))%Q
             /\ sized (1 # 16) (double (inject_Z score * c))
             /\ (0 <= double (inject_Z score * c))%Q).
  { intros score c Hs Hc.
    destruct (double_sized (1 # 8) (inject_Z score * c)) as [Hb Hz];
      [vm_compute; discriminate | apply sized_product; [lia | done | vm_compute; discriminate] |].
    split; [done|]. split; [exact Hz|].
    assert (H0 : (0 <= inject_Z score)%Q) by (change 0%Q with (inject_Z 0); rewrite <- Zle_Qle; lia).
    unfold roundoff in Hb. nra. }
  assert (Hsum : forall t a b,
             (1 # 2 ^ 100 <= t)%Q -> (0 <= a)%Q -> (0 <= b)%Q -> sized t a -> sized t b ->
             ((a + b) * (1 - roundoff) <= double (a + b)
              /\ double (a + b) <= (a + b) * (1 + roundoff))%Q
             /\ sized (t * (1 # 2)) (double (a + b))
             /\ (0 <= double (a + b))%Q).
  { intros t a b Ht Ha Hb Hsa Hsb.
    destruct (double_sized t (a + b) Ht (sized_sum t a b Ha Hb Hsa Hsb)) as [Hbd Hz].
    split; [done|]. split; [exact Hz|]. unfold roundoff in Hbd. lra. }
  destruct (Hterm (Scores.delay_reduction scores) c25) as (B1 & Z1 & P1); [lia | lra |].
  destruct (Hterm (Scores.crew_margin scores) c15) as (B2 & Z2 & P2); [lia | lra |].
  destruct (Hterm (Scores.safety_score scores) c25) as (B3 & Z3 & P3); [lia | lra |].
  destruct (Hterm (Scores.cost_impact scores) c15) as (B4 & Z4 & P4); [lia | lra |].
  destruct (Hterm (Scores.passenger_impact scores) c20) as (B5 & Z5 & P5); [lia | lra |].
  set (t1 := double (inject_Z (Scores.delay_reduction scores) * c25)) in *.
  set (t2 := double (inject_Z (Scores.crew_margin scores) * c15)) in *.
  set (t3 := double (inject_Z (Scores.safety_score scores) * c25)) in *.
  set (t4 := double (inject_Z (Scores.cost_impact scores) * c15)) in *.
  set (t5 := double (inject_Z (Scores.passenger_impact scores) * c20)) in *.
  destruct (Hsum (1 # 16) t1 t2) as (S1 & Y1 & Q1); [vm_compute; discriminate | done..|].
  set (s1 := double (t1 + t2)) in *.
  destruct (Hsum (1 # 32) s1 t3) as (S2 & Y2 & Q2);
    [vm_compute; discriminate | done | done | exact Y1
     | eapply sized_weaken; [|exact Z3]; vm_compute; discriminate |].
  set (s2 := double (s1 + t3)) in *.
  destruct (Hsum (1 # 64) s2 t4) as (S3 & Y3 & Q3);
    [vm_compute; discriminate | done | done | exact Y2
     | eapply sized_weaken; [|exact Z4]; vm_compute; discriminate |].
  set (s3 := double (s2 + t4)) in *.
  destruct (Hsum (1 # 128) s3 t5) as (S4 & Y4 & Q4);
    [vm_compute; discriminate | done | done | exact Y3
     | eapply sized_weaken; [|exact Z5]; vm_compute; discriminate |].
  set (s4 := double (s3 + t5)) in *.
  rewrite Zle_Qle in Hd1, Hd2, Hc1, Hc2, Hs1, Hs2, Hk1, Hk2, Hp1, Hp2, Hlo.
  change (inject_Z 0) with 0%Q in Hlo.
  change (2 ^ 50)%positive with 1125899906842624%positive.
  unfold roundoff in *.
  clear Z1 Z2 Z3 Z4 Z5 Y1 Y2 Y3 Y4 Hterm Hsum.
  split; nra.
Qed.

Lemma weighted_score_witness :
  (weightedScore (RecoveryOption.scores (optionOf recoveryOption1)) == 73)%Q
  /\ (inject_Z 50 * (1 - (1 # 2 ^ 50))
      <= weightedScore (RecoveryOption.scores (optionOf recoveryOption1)))%Q.
Proof.
  split; [vm_compute; reflexivity|].
  assert (Hin : scoresWithin 50 90 (RecoveryOption.scores (optionOf recoveryOption1)))
    by (vm_compute; repeat split; discriminate).
  assert (Hhi : 90 <= 2 ^ 53) by (vm_compute; discriminate).
  destruct (weighted_score_is_a_mean_up_to_rounding _ 50 90 Hin ltac:(lia) Hhi) as [Hlo _].
  exact Hlo.
Defined.

(** The rounding is visible on ordinary scores: five scores of 29 give
    [29 + 2^-48], five of 57 give [57 - 2^-47]. *)
Example weighted_score_above_common_value :
  (weightedScore (Scores.Mk 29 29 29 29 29) == 29 + (1 # 2 ^ 48))%Q.
Proof. vm_compute. reflexivity. Qed.

Example weighted_score_below_common_value :
  (weightedScore (Scores.Mk 57 57 57 57 57) == 57 - (1 # 2 ^ 47))%Q.
Proof. vm_compute. reflexivity. Qed.

Section Recovery.
Context `{DateApi}.

Lemma addEvent_recoveryOptions_other now e s :
  Store.recoveryOptions (updateRunFromEvent e (recordEvent now e s)) = Store.recoveryOptions s
  /\ Store.recoveryPlan (updateRunFromEvent e (recordEvent now e s)) = Store.recoveryPlan s.
Proof.
  by destruct (updateRunFromEvent_frame e (recordEvent now e s))
    as (_ & _ & _ & _ & _ & _ & _ & _ & -> & -> & _).
Qed.

Lemma addEvent_recovery_option now e s :
  WorkflowEvent.kind e = "recovery.option" ->
  Store.recoveryOptions (addEvent now e s) = Store.recoveryOptions s ++ [OptBuilt (optionOf e)]
  /\ Store.recoveryPlan (addEvent now e s) = Store.recoveryPlan s.
Proof.
  intros Hk. unfold addEvent, processAgentEvent. rewrite Hk. classify_literal.
  cbv iota beta. unfold case_RECOVERY_OPTION.
  destruct (addEvent_recoveryOptions_other now e s) as [Ho Hp].
  split; [|exact Hp].
  transitivity (Store.recoveryOptions (updateRunFromEvent e (recordEvent now e s))
                ++ [OptBuilt (optionOf e)]); [reflexivity | by rewrite Ho].
Qed.

(** X23. Options that arrive before the plan are the options of the plan:
    after two [recovery.option] envelopes and a [coordinator.plan]
    envelope the plan lists the options the store held, followed by the
    two new ones in the order they arrived, each with its weighted
    overall score, and any options in the payload of the plan are not
    used. *)
Theorem plan_takes_options_in_arrival_order now1 now2 now3 e1 e2 plan s :
  WorkflowEvent.kind e1 = "recovery.option" ->
  WorkflowEvent.kind e2 = "recovery.option" ->
  WorkflowEvent.kind plan = "coordinator.plan" ->
  let s' := addEvent now3 plan (addEvent now2 e2 (addEvent now1 e1 s)) in
  Store.recoveryOptions s'
  = Store.recoveryOptions s ++ [OptBuilt (optionOf e1); OptBuilt (optionOf e2)]
  /\ RecoveryPlan.options <$> Store.recoveryPlan s' = Some (Store.recoveryOptions s')
  /\ RecoveryPlan.selectedOptionId <$> Store.recoveryPlan s'
     = Some (payloadString (WorkflowEvent.payload plan) "selectedOptionId" "")
  /\ RecoveryOption.overallScore (optionOf e1)
     = weightedScore (RecoveryOption.scores (optionOf e1)).
Proof.
  intros Hk1 Hk2 Hkp. cbv zeta.
  destruct (addEvent_recovery_option now1 e1 s Hk1) as [Ho1 _].
  destruct (addEvent_recovery_option now2 e2 (addEvent now1 e1 s) Hk2) as [Ho2 _].
  rewrite Ho1, <- app_assoc in Ho2. simpl app in Ho2.
  generalize dependent (addEvent now2 e2 (addEvent now1 e1 s)). intros s2 Ho2.
  unfold addEvent, processAgentEvent. rewrite Hkp. classify_literal.
  cbv iota beta. unfold case_COORDINATOR_PLAN.
  destruct (addEvent_recoveryOptions_other now3 plan s2) as [Ho Hp].
  rewrite Ho2 in Ho.
  split; [exact Ho|]. split; [|done].
  transitivity
    (Some match Store.recoveryOptions (updateRunFromEvent plan (recordEvent now3 plan s2)) with
          | _ :: _ => Store.recoveryOptions (updateRunFromEvent plan (recordEvent now3 plan s2))
          | [] => OptRaw <$> payloadArray (WorkflowEvent.payload plan) "options"
          end); [reflexivity|].
  transitivity (Some (Store.recoveryOptions
                        (updateRunFromEvent plan (recordEvent now3 plan s2))));
    [|reflexivity].
  rewrite Ho. by destruct (Store.recoveryOptions s).
Qed.

(** X24. A handover links agents without changing them: with both ends
    named it adds one edge from the one to the other; it leaves every
    agent in the registry, with the status it has, and puts no entry
    under an id for which the registry object has nothing, neither an own
    entry nor a property it inherits; with an end missing it changes
    neither the registry nor the edges. *)
Theorem handover_keeps_agent_status now e s :
  WorkflowEvent.kind e = "handover" ->
  let fromAgent := payloadString (WorkflowEvent.payload e) "fromAgent" "" in
  let toAgent := payloadString (WorkflowEvent.payload e) "toAgent" "" in
  let s' := addEvent now e s in
  (forall id a, Store.agents s !! id = Some a ->
     AgentNode.status <$> Store.agents s' !! id = Some (AgentNode.status a))
  /\ (forall id, agentsAt id s = Absent ->
       Store.agents s' !! id = None /\ Store.strayAgents s' !! id = None)
  /\ (fromAgent <> "" -> toAgent <> "" ->
      exists edge,
        Store.agentEdges s' = Store.agentEdges s ++ [edge]
        /\ AgentEdge.source edge = fromAgent
        /\ AgentEdge.target edge = toAgent)
  /\ (fromAgent = "" \/ toAgent = "" ->
      Store.agentEdges s' = Store.agentEdges s
      /\ Store.agents s' = Store.agents s
      /\ Store.strayAgents s' = Store.strayAgents s).
Proof.
  intros Hk. cbv zeta. unfold addEvent, processAgentEvent. rewrite Hk. classify_literal.
  cbv iota beta.
  assert (Hfr : Store.agents (updateRunFromEvent e (recordEvent now e s)) = Store.agents s
                /\ Store.strayAgents (updateRunFromEvent e (recordEvent now e s))
                   = Store.strayAgents s
                /\ Store.agentEdges (updateRunFromEvent e (recordEvent now e s))
                   = Store.agentEdges s
                /\ forall id, agentsAt id (updateRunFromEvent e (recordEvent now e s))
                              = agentsAt id s).
  { split; [|split; [|split]]; [..|intros id; apply agentsAt_recorded];
      unfold updateRunFromEvent; by destruct (Store.currentRun _). }
  destruct Hfr as (Hag & Hst & Hed & Hat).
  generalize dependent (updateRunFromEvent e (recordEvent now e s)). intros s1 Hag Hst Hed Hat.
  unfold case_HANDOVER. rewrite <- Hag, <- Hst, <- Hed.
  set (from := payloadString (WorkflowEvent.payload e) "fromAgent" "").
  set (to := payloadString (WorkflowEvent.payload e) "toAgent" "").
  unfold truthy.
  destruct (String.eqb_spec from "") as [Hf|Hf]; simpl.
  { split; [intros id a Hid; by rewrite Hid|]. split; [|split; [done | by repeat split]].
    intros id Habs. rewrite <- Hat in Habs. by apply agentsAt_Absent. }
  destruct (String.eqb_spec to "") as [Ht|Ht]; simpl.
  { split; [intros id a Hid; by rewrite Hid|]. split; [|split; [done | by repeat split]].
    intros id Habs. rewrite <- Hat in Habs. by apply agentsAt_Absent. }
  split; [|split; [|split]].
  - intros id a Hid. agents_of_store.
    assert (Hkeep : forall key (m : gmap string AgentNode.t) a1,
               m !! id = Some a1 -> AgentNode.status a1 = AgentNode.status a ->
               exists a2,
                 match agentsAt key s1 with
                 | Node agent => <[ key := incrementAgentTrace agent (WorkflowEvent.ts e) ]> m
                 | _ => m
                 end !! id = Some a2 /\ AgentNode.status a2 = AgentNode.status a).
    { intros key m a1 H1 Hs1.
      destruct (agentsAt key s1) as [agent| |] eqn:Hkey; [|by exists a1..].
      destruct (decide (key = id)) as [->|Hne].
      - rewrite lookup_insert_eq. eexists. split; [done|].
        apply agentsAt_Node in Hkey as [Hkey|Hkey]; [|congruence].
        assert (agent = a) as -> by congruence. reflexivity.
      - rewrite lookup_insert_ne by done. by exists a1. }
    destruct (Hkeep from (Store.agents s1) a Hid eq_refl) as (a1 & H1 & Hs1).
    destruct (Hkeep to _ a1 H1 Hs1) as (a2 & H2 & Hs2).
    rewrite H2. exact (f_equal Some Hs2).
  - intros id Habs. rewrite <- Hat in Habs.
    pose proof (agentsAt_Absent _ _ Habs) as [Hn Hs].
    agents_of_store.
    cbn [Store.strayAgents upd Store.set_agents Store.set_strayAgents Store.set_agentsProto
         Store.set_agentEdges Store.set_runProgress].
    split.
    + destruct (agentsAt from s1) as [af| |] eqn:Haf;
        destruct (agentsAt to s1) as [at_| |] eqn:Hato;
        rewrite ?lookup_insert_ne by congruence; done.
    + destruct (agentsAt from s1) as [|sf|] eqn:Haf;
        destruct (agentsAt to s1) as [|st|] eqn:Hato;
        rewrite ?lookup_insert_ne by congruence; done.
  - intros _ _. eexists. by repeat split.
  - intros [? | ?]; done.
Qed.

End Recovery.

Lemma plan_takes_options_witness :
  let s' :=
    addEvent (H:=IsoDate.api) 1709296209000 coordinatorPlan
      (addEvent (H:=IsoDate.api) 1709296208000 recoveryOption2
         (addEvent (H:=IsoDate.api) 1709296207000 recoveryOption1 scenarioDone)) in
  RecoveryPlan.options <$> Store.recoveryPlan s'
  = Some [OptBuilt (optionOf recoveryOption1); OptBuilt (optionOf recoveryOption2)].
Proof.
  cbv zeta.
  destruct (plan_takes_options_in_arrival_order (H:=IsoDate.api)
              1709296207000 1709296208000 1709296209000
              recoveryOption1 recoveryOption2 coordinatorPlan scenarioDone
              eq_refl eq_refl eq_refl) as (Ho & Hp & _).
  etrans; [exact Hp|]. exact (f_equal Some Ho).
Defined.

Lemma handover_witness :
  AgentNode.status
    <$> Store.agents (addEvent (H:=IsoDate.api) 1709296209000 handoverAB scenarioDone) !! "B"
  = Some Excluded.
Proof.
  assert (HB : exists b, Store.agents scenarioDone !! "B" = Some b
                         /\ AgentNode.status b = Excluded)
    by (vm_compute; eexists; split; reflexivity).
  destruct HB as (b & HB & Hb).
  destruct (handover_keeps_agent_status (H:=IsoDate.api) 1709296209000 handoverAB scenarioDone
              eq_refl) as [Hst _].
  rewrite (Hst "B" b HB). exact (f_equal Some Hb).
Defined.

(** ** Seeding the registry *)

Lemma foldl_insert_lookup {A B : Type} (key : A -> string) (val : A -> B)
    (l : list A) (m0 : gmap string B) :
  NoDup (key <$> l) ->
  (forall x, x ∈ l -> foldl (fun m y => <[ key y := val y ]> m) m0 l !! key x = Some (val x))
  /\ (forall k, k ∉ key <$> l -> foldl (fun m y => <[ key y := val y ]> m) m0 l !! k = m0 !! k).
Proof.
  induction l as [|y l IH] using rev_ind; intros Hnd.
  - split; [intros x Hx; by apply elem_of_nil in Hx | done].
  - rewrite fmap_app in Hnd. simpl in Hnd.
    apply NoDup_app in Hnd as (Hl & Hdisj & _). destruct (IH Hl) as [IHin IHout].
    rewrite foldl_app. simpl. split.
    + intros x [Hx | Hx%list_elem_of_singleton]%elem_of_app.
      * rewrite lookup_insert_ne; [by apply IHin|].
        intros Heq. apply (Hdisj (key x)); [by apply list_elem_of_fmap_2|].
        rewrite Heq. left.
      * subst. apply lookup_insert_eq.
    + intros k Hk. rewrite fmap_app, not_elem_of_app in Hk. destruct Hk as [Hk1 Hk2].
      rewrite lookup_insert_ne; [by apply IHout|].
      intros Heq. apply Hk2. simpl. rewrite Heq. left.
Qed.

Lemma foldl_insert_unless {A B : Type} (skip : A -> bool) (key : A -> string)
    (val : A -> B) (l : list A) (m0 : gmap string B) :
  foldl (fun m y => if skip y then m else <[ key y := val y ]> m) m0 l
  = foldl (fun m y => <[ key y := val y ]> m) m0 (List.filter (fun y => negb (skip y)) l).
Proof.
  revert m0. induction l as [|y l IH]; intros m0; simpl; [done|].
  destruct (skip y); simpl; apply IH.
Qed.

Lemma NoDup_fmap_filter {A : Type} (key : A -> string) (keep : A -> bool) (l : list A) :
  NoDup (key <$> l) -> NoDup (key <$> List.filter keep l).
Proof.
  induction l as [|y l IH]; simpl; [done|].
  intros [Hy Hnd]%NoDup_cons. destruct (keep y); simpl; [|by apply IH].
  apply NoDup_cons. split; [|by apply IH].
  intros (z & Hz & Hin)%list_elem_of_fmap. apply Hy. rewrite Hz.
  apply list_elem_of_fmap_2.
  rewrite list_elem_of_In, filter_In, <- list_elem_of_In in Hin. tauto.
Qed.

(** The last roster entry that [skip] selects. *)
Lemma foldl_last_selected {A B : Type} (skip : A -> bool) (key : A -> string)
    (val : A -> B) (l : list A) (o : option B) (x : A) :
  NoDup (key <$> l) ->
  (forall y z, skip y = true -> skip z = true -> key y = key z) ->
  x ∈ l -> skip x = true ->
  foldl (fun o y => if skip y then Some (val y) else o) o l = Some (val x).
Proof.
  intros Hnd Hkey. revert o. induction l as [|y l IH]; intros o Hx Hs.
  - by apply elem_of_nil in Hx.
  - simpl in Hnd. apply NoDup_cons in Hnd as [Hy Hnd]. simpl.
    apply elem_of_cons in Hx as [<- | Hx].
    + rewrite Hs.
      assert (Hrest : forall z, z ∈ l -> skip z = false).
      { intros z Hz. destruct (skip z) eqn:Hsz; [|done]. exfalso. apply Hy.
        rewrite (Hkey x z Hs Hsz). by apply list_elem_of_fmap_2. }
      clear IH Hy Hnd. revert Hrest. generalize (Some (val x)) as acc.
      induction l as [|z l IHl]; intros acc Hrest; simpl; [done|].
      rewrite (Hrest z) by left. apply IHl. intros w Hw. apply Hrest. by right.
    + by apply IH.
Qed.

(** X25. Initialising from a roster whose ids are distinct replaces the
    registry by one agent per roster entry: idle when included, excluded
    when not, with no evidence, no tool calls and no trace counted. Each
    is what the registry gives under its id, as an own entry, except the
    entry whose id is ["__proto__"]: the assignment makes that one the
    prototype of the registry object and adds no own entry. No other id
    has an own entry. The id lists are emptied, the run is running at 0
    percent, and [agentsTotal] is the number of included entries. *)
Theorem roster_seeds_registry roster scenario s :
  NoDup (AgentInfo.id <$> roster) ->
  let s' := initializeAgents roster scenario s in
  (forall info, info ∈ roster ->
     exists a,
       agentsAt (AgentInfo.id info) s' = Node a
       /\ (AgentInfo.id info <> "__proto__" ->
           Store.agents s' !! AgentInfo.id info = Some a)
       /\ AgentNode.status a = (if AgentInfo.included info then Idle else Excluded)
       /\ AgentNode.included a = AgentInfo.included info
       /\ AgentNode.name a = AgentInfo.name info
       /\ AgentNode.traceCount a = Some 0
       /\ AgentNode.evidence a = [] /\ AgentNode.toolCalls a = [])
  /\ (forall id, id ∉ AgentInfo.id <$> roster -> Store.agents s' !! id = None)
  /\ Store.agents s' !! "__proto__" = None
  /\ Store.strayAgents s' = ∅
  /\ Store.activeAgentIds s' = [] /\ Store.completedAgentIds s' = []
  /\ Store.failedAgentIds s' = []
  /\ RunProgress.status (Store.runProgress s') = RunRunning
  /\ RunProgress.overallPct (Store.runProgress s') = 0
  /\ RunProgress.agentsTotal (Store.runProgress s')
     = Z.of_nat (length (List.filter AgentInfo.included roster)).
Proof.
  intros Hnd. cbv zeta.
  set (isProto := fun info : AgentInfo.t => String.eqb (AgentInfo.id info) "__proto__").
  set (plain := List.filter (fun y => negb (isProto y)) roster).
  set (s' := initializeAgents roster scenario s).
  assert (Hagents : Store.agents s'
                    = foldl (fun m y => <[ AgentInfo.id y := rosterAgent y ]> m)
                        (∅ : gmap string AgentNode.t) plain)
    by apply (foldl_insert_unless isProto AgentInfo.id rosterAgent).
  assert (Hproto : Store.agentsProto s'
                   = foldl (fun o y => if isProto y then Some (rosterAgent y) else o)
                       None roster) by reflexivity.
  assert (Hstray : Store.strayAgents s' = ∅) by reflexivity.
  assert (Hplain : forall info, info ∈ plain <-> info ∈ roster /\ AgentInfo.id info <> "__proto__").
  { intros info. unfold plain, isProto.
    rewrite list_elem_of_In, filter_In, <- list_elem_of_In.
    destruct (String.eqb_spec (AgentInfo.id info) "__proto__"); simpl; intuition congruence. }
  assert (Hndp : NoDup (AgentInfo.id <$> plain)).
  { unfold plain. by apply NoDup_fmap_filter. }
  assert (Hin : forall info, info ∈ plain ->
                  Store.agents s' !! AgentInfo.id info = Some (rosterAgent info)).
  { intros info Hinfo. rewrite Hagents.
    by apply (foldl_insert_lookup AgentInfo.id rosterAgent plain ∅ Hndp). }
  assert (Hout : forall id, id ∉ AgentInfo.id <$> plain -> Store.agents s' !! id = None).
  { intros id Hid. rewrite Hagents.
    etrans; [by apply (foldl_insert_lookup AgentInfo.id rosterAgent plain ∅ Hndp)|].
    apply lookup_empty. }
  assert (Hnone : Store.agents s' !! "__proto__" = None).
  { apply Hout.
    intros (info & Hid & Hp)%list_elem_of_fmap. apply Hplain in Hp as [_ Hp]. congruence. }
  split; [|split; [|split; [exact Hnone | by repeat split]]].
  - intros info Hinfo. exists (rosterAgent info).
    split; [|split; [|by repeat split]].
    + destruct (decide (AgentInfo.id info = "__proto__")) as [Hp|Hp].
      * rewrite Hp. apply agentsAt_proto; [exact Hnone | by rewrite Hstray |].
        rewrite Hproto.
        apply (foldl_last_selected isProto AgentInfo.id rosterAgent roster None info Hnd);
          [|exact Hinfo | unfold isProto; by apply String.eqb_eq].
        unfold isProto. intros y z Hy%String.eqb_eq Hz%String.eqb_eq. congruence.
      * apply agentsAt_own, Hin, Hplain. by split.
    + intros Hp. apply Hin, Hplain. by split.
  - intros id Hid. apply Hout.
    intros (info & Heq & Hp)%list_elem_of_fmap. apply Hid.
    apply Hplain in Hp as [Hp _]. rewrite Heq. by apply list_elem_of_fmap_2.
Qed.

Lemma roster_seeds_registry_witness :
  AgentNode.status <$> Store.agents (initializeAgents rosterAB "scenario" scenarioDone) !! "A"
  = Some Idle.
Proof.
  assert (Hnd : NoDup (AgentInfo.id <$> rosterAB))
    by (apply (bool_decide_unpack _); vm_compute; reflexivity).
  destruct (roster_seeds_registry rosterAB "scenario" scenarioDone Hnd) as [Hin _].
  destruct (Hin (rosterEntry "A" true)) as (a & _ & Hl & Hst & _); [left|].
  assert (HA : AgentInfo.id (rosterEntry "A" true) <> "__proto__")
    by (vm_compute; discriminate).
  etrans; [exact (f_equal (fmap AgentNode.status) (Hl HA))|].
  exact (f_equal Some Hst).
Defined.

(** ** The run record *)

Lemma updateFirstStage_ids p f stages :
  (forall st, Stage.stage_id (f st) = Stage.stage_id st) ->
  Stage.stage_id <$> updateFirstStage p f stages = Stage.stage_id <$> stages.
Proof.
  intros Hf. induction stages as [|st stages IH]; [done|]. cbn [updateFirstStage].
  destruct (p st); rewrite !fmap_cons; [by rewrite Hf | by rewrite IH].
Qed.

(** X26. No envelope adds, removes or reorders the stages of the run
    record: after [updateRunFromEvent] the stage ids are the same list,
    and the event count is one more than the length of the log. After a
    [stage_completed] that names a stage, [stages_completed] is the
    number of stages that succeeded or were skipped, at most the number
    of stages. Without a run record nothing changes. *)
Theorem stages_are_kept e s :
  (Store.currentRun s = None -> updateRunFromEvent e s = s)
  /\ (forall run, Store.currentRun s = Some run ->
      exists run',
        Store.currentRun (updateRunFromEvent e s) = Some run'
        /\ Stage.stage_id <$> RunMetadata.stages run' = Stage.stage_id <$> RunMetadata.stages run
        /\ RunMetadata.event_count run' = Z.of_nat (length (Store.events s)) + 1
        /\ (WorkflowEvent.kind e = "stage_completed" ->
            nullish (WorkflowEvent.stage_id e) "" <> "" ->
            RunMetadata.stages_completed run'
            = Z.of_nat (length (List.filter stageSettled (RunMetadata.stages run')))
            /\ 0 <= RunMetadata.stages_completed run'
               <= Z.of_nat (length (RunMetadata.stages run)))).
Proof.
  unfold updateRunFromEvent. split; [by intros ->|].
  intros run ->. eexists. split; [reflexivity|].
  split; [|split; [reflexivity|]].
  - destruct (classify (WorkflowEvent.kind e)) as [[]|]; try reflexivity;
      destruct (truthy _); try reflexivity; cbn; by apply updateFirstStage_ids.
  - intros -> Hsid. change (classify "stage_completed") with (Some STAGE_COMPLETED).
    unfold truthy. destruct (String.eqb_spec (nullish (WorkflowEvent.stage_id e) "") "");
      [done|]. cbn. split; [reflexivity|].
    match goal with
    | |- context [List.filter stageSettled ?l] =>
        pose proof (List.filter_length_le stageSettled l) as Hle;
        assert (Hlen : length l = length (RunMetadata.stages run))
    end.
    { rewrite <- (length_fmap Stage.stage_id), updateFirstStage_ids by done.
      by rewrite length_fmap. }
    lia.
Qed.

(** ** Readers of the log *)

Lemma truthy_str_or a b : truthy b = true -> truthy (a |? b) = true.
Proof. unfold str_or. intros Hb. by destruct (truthy a) eqn:Ha. Qed.

(** X27. The lane of an envelope in the timeline is never the empty
    string: an envelope that names no agent and no executor is put on the
    lane ["Orchestrator"]. *)
Theorem lane_is_never_empty e :
  laneForEvent e <> ""
  /\ (payloadString (WorkflowEvent.payload e) "agentName" "" = "" ->
      payloadString (WorkflowEvent.payload e) "agentId" "" = "" ->
      payloadString (WorkflowEvent.payload e) "executor_name" "" = "" ->
      payloadString (WorkflowEvent.payload e) "executor_id" "" = "" ->
      nullish (WorkflowEvent.agent_name e) "" = "" ->
      nullish (WorkflowEvent.executor_name e) "" = "" ->
      laneForEvent e = "Orchestrator").
Proof.
  split.
  - assert (Ht : truthy (laneForEvent e) = true).
    { unfold laneForEvent. do 4 apply truthy_str_or.
      destruct (WorkflowEvent.agent_name e) as [a|]; simpl.
      - apply truthy_str_or.
        destruct (WorkflowEvent.executor_name e) as [x|]; simpl; [by apply truthy_str_or | done].
      - destruct (WorkflowEvent.executor_name e) as [x|]; simpl; [by apply truthy_str_or | done]. }
    intros Heq. rewrite Heq in Ht. discriminate.
  - unfold laneForEvent. intros -> -> -> -> Ha Hx.
    destruct (WorkflowEvent.agent_name e) as [a|], (WorkflowEvent.executor_name e) as [x|];
      simpl in *; subst; reflexivity.
Qed.

Lemma lane_witness : laneForEvent unknownKindEvent = "Orchestrator".
Proof.
  apply (proj2 (lane_is_never_empty unknownKindEvent)); reflexivity.
Defined.

(** X28. An envelope the reducer attributes to an agent through the
    [agentId] or [executor_id] of its payload is one the panel of that
    agent shows, whatever the name of the agent. *)
Theorem attributed_envelope_belongs_to_agent e agentName :
  payloadString (WorkflowEvent.payload e) "agentId" "" <> ""
  \/ payloadString (WorkflowEvent.payload e) "executor_id" "" <> "" ->
  belongsToAgent e (agentIdOf e) agentName = true.
Proof.
  intros Hid. unfold belongsToAgent, agentIdOf, str_or, truthy.
  destruct (String.eqb_spec (payloadString (WorkflowEvent.payload e) "agentId" "") "")
    as [Ha|Ha]; simpl.
  - destruct Hid as [Hid|Hid]; [done|].
    destruct (String.eqb_spec (payloadString (WorkflowEvent.payload e) "executor_id" "") "")
      as [Hx|Hx]; [done|]. simpl.
    rewrite (String.eqb_refl (payloadString (WorkflowEvent.payload e) "executor_id" "")).
    by rewrite !orb_true_r.
  - by rewrite String.eqb_refl.
Qed.

Lemma attributed_envelope_witness : belongsToAgent spanEndedA "A" "Crew agent" = true.
Proof.
  apply (attributed_envelope_belongs_to_agent spanEndedA "Crew agent").
  left. vm_compute. discriminate.
Defined.

Lemma stages_are_kept_witness :
  exists run',
    Store.currentRun
      (updateRunFromEvent planStageCompleted (setCurrentRun (Some twoStageRun) initialStore))
    = Some run'
    /\ RunMetadata.stages_completed run' = 1
    /\ Stage.stage_id <$> RunMetadata.stages run' = ["plan"; "solve"].
Proof.
  destruct (stages_are_kept planStageCompleted (setCurrentRun (Some twoStageRun) initialStore))
    as [_ Hrun].
  destruct (Hrun twoStageRun eq_refl) as (run' & Hl & Hids & _ & Hdone).
  destruct (Hdone eq_refl ltac:(discriminate)) as [Hcount _].
  exists run'. split; [exact Hl|]. split; [|exact Hids].
  rewrite Hcount.
  assert (Hrun' : Some run'
                  = Store.currentRun
                      (updateRunFromEvent planStageCompleted
                         (setCurrentRun (Some twoStageRun) initialStore)))
    by (symmetry; exact Hl).
  vm_compute in Hrun'. injection Hrun' as ->. vm_compute. reflexivity.
Defined.
